(** * gcode-post: coordinate tracking, fast-move tagging and merging

    A shallow embedding of [gcode-post.js] (v1.4) and the properties of
    its core: the absolute position tracker, the fast-move classifier,
    the modal reset insertion, tag derivation, the tool dictionary, the
    ordering and grouping of files and the serialisation of a group.

    Conventions of the embedding.
    - A JavaScript string is a [string]: a sequence of 8-bit code units
      (the Latin-1 range).  The character classes of the regular
      expressions in the source ([\s], [\d], [\w], [\b], the [i] flag) are
      written out on those units.
    - A JavaScript number is a [number]: NaN, the two infinities, or an
      exact decimal [m * 10^e].  Every number of the program comes out of
      [parseFloat]/[parseInt] on decimal text, [Math.min]/[Math.max] or a
      constant, so decimals are closed under what the program does; the
      rounding of a numeral to the nearest binary64 value is not modelled.
    - Arrays that the program shares between objects live in a store
      ([gmap loc (list Line)]); a [FileObject] holds the location of its
      [lines] array.
    - [Map] objects that are only looked up are [gmap]s; maps and objects
      whose iteration order reaches the output are association lists. *)

From Stdlib Require Import ZArith List Bool Lia Permutation Sorted.
From Stdlib Require Import Strings.String Strings.Ascii.
From stdpp Require Import gmap strings.

Import ListNotations.
Open Scope string_scope.
Open Scope Z_scope.

(** ** Characters and the character classes of the regular expressions *)

Module Chars.

Definition code (c : ascii) : N := N_of_ascii c.

(** [\d] *)
Definition isDigit (c : ascii) : bool :=
  ((48 <=? code c) && (code c <=? 57))%N.

Definition isUpper (c : ascii) : bool :=
  ((65 <=? code c) && (code c <=? 90))%N.

Definition isLower (c : ascii) : bool :=
  ((97 <=? code c) && (code c <=? 122))%N.

(** [\w]: letters, digits and the underscore *)
Definition isWordChar (c : ascii) : bool :=
  isDigit c || isUpper c || isLower c || (code c =? 95)%N.

(** [\s], and the white space of [trim] and [parseFloat]: TAB, LF, VT,
    FF, CR, SPACE and, in the Latin-1 range, NBSP *)
Definition isSpace (c : ascii) : bool :=
  ((9 <=? code c) && (code c <=? 13) || (code c =? 32) || (code c =? 160))%N.

(** line terminators, which [.] does not match: LF and CR *)
Definition isLineTerminator (c : ascii) : bool :=
  ((code c =? 10) || (code c =? 13))%N.

(** [toUpperCase] on one code unit, for the letters a..z *)
Definition toUpper (c : ascii) : ascii :=
  if isLower c then ascii_of_N (code c - 32) else c.

(** equality of two code units under the [i] flag *)
Definition eqbCI (a b : ascii) : bool :=
  Ascii.eqb (toUpper a) (toUpper b).

Definition digitVal (c : ascii) : Z := Z.of_N (code c) - 48.

End Chars.
Import Chars.

(** ** Strings: the [String.prototype] methods the program calls *)

Module Str.

Fixpoint takeWhile (p : ascii -> bool) (s : string) : string :=
  match s with
  | String c s' => if p c then String c (takeWhile p s') else ""
  | EmptyString => ""
  end.

Fixpoint dropWhile (p : ascii -> bool) (s : string) : string :=
  match s with
  | String c s' => if p c then dropWhile p s' else s
  | EmptyString => ""
  end.

Fixpoint rev (s : string) : string :=
  match s with
  | String c s' => rev s' ++ String c ""
  | EmptyString => ""
  end.

Definition isEmpty (s : string) : bool :=
  match s with EmptyString => true | _ => false end.

(** [s.trimStart()] and [s.trim()] *)
Definition trimStart (s : string) : string := dropWhile isSpace s.
Definition trim (s : string) : string :=
  rev (dropWhile isSpace (rev (dropWhile isSpace s))).

(** [s.startsWith(p)], and the same under the [i] flag *)
Fixpoint startsWith (p s : string) : bool :=
  match p, s with
  | EmptyString, _ => true
  | String a p', String b s' => Ascii.eqb a b && startsWith p' s'
  | _, _ => false
  end.

Fixpoint startsWithCI (p s : string) : bool :=
  match p, s with
  | EmptyString, _ => true
  | String a p', String b s' => eqbCI a b && startsWithCI p' s'
  | _, _ => false
  end.

(** the rest of [s] after a prefix of the length of [p] *)
Fixpoint dropLen (p s : string) : string :=
  match p, s with
  | String _ p', String _ s' => dropLen p' s'
  | _, _ => s
  end.

(** does some code unit of [s] satisfy [p] *)
Fixpoint existsb (p : ascii -> bool) (s : string) : bool :=
  match s with
  | String c s' => p c || existsb p s'
  | EmptyString => false
  end.

(** [\b] at the start of [s], the code unit before it being a word
    character or not ([prevWord]) *)
Definition boundary (prevWord : bool) (s : string) : bool :=
  match s with
  | String c _ => xorb prevWord (isWordChar c)
  | EmptyString => prevWord
  end.

Fixpoint repeat (c : ascii) (n : nat) : string :=
  match n with
  | O => ""
  | S n' => String c (repeat c n')
  end.

(** [s.padStart(n)] and [s.padEnd(n)], padding with spaces *)
Definition padStart (n : nat) (s : string) : string :=
  repeat " " (n - String.length s) ++ s.
Definition padEnd (n : nat) (s : string) : string :=
  s ++ repeat " " (n - String.length s).

(** [a.join(sep)] *)
Fixpoint join (sep : string) (l : list string) : string :=
  match l with
  | [] => ""
  | [s] => s
  | s :: l' => s ++ sep ++ join sep l'
  end.

(** [s.split(/\s+/)]: the pieces between the maximal runs of white
    space; a run at either end leaves an empty piece there, and the empty
    string gives one empty piece. [inRun] says that the code unit before
    was white space, [acc] is the piece being read. *)
Fixpoint splitWsFrom (inRun : bool) (acc : string) (s : string) : list string :=
  match s with
  | EmptyString => [acc]
  | String c s' =>
      if isSpace c
      then if inRun then splitWsFrom true acc s'
           else acc :: splitWsFrom true "" s'
      else splitWsFrom false (acc ++ String c "") s'
  end.
Definition splitWs (s : string) : list string := splitWsFrom false "" s.

(** [text.split(/\r?\n/)]: a piece ends at LF, and a CR just before that
    LF belongs to the separator *)
Fixpoint splitLinesFrom (acc : string) (s : string) : list string :=
  match s with
  | EmptyString => [acc]
  | String c s' =>
      if (code c =? 10)%N then acc :: splitLinesFrom "" s'
      else if (code c =? 13)%N then
        match s' with
        | String c' s'' =>
            if (code c' =? 10)%N then acc :: splitLinesFrom "" s''
            else splitLinesFrom (acc ++ String c "") s'
        | EmptyString => [acc ++ String c ""]
        end
      else splitLinesFrom (acc ++ String c "") s'
  end.
Definition splitLines (s : string) : list string := splitLinesFrom "" s.

End Str.

(** ** Numbers *)

Module Num.

(** A number of the program: [Fin m e] is the decimal [m * 10^e]. The
    numbers that [parseFloat] builds are normalised ([m] has no trailing
    zero, and zero is [Fin 0 0]), so equal values are equal terms. *)
Inductive number : Type :=
| NaN
| PInf
| NInf
| Fin (m e : Z).

Definition isNaN (x : number) : bool :=
  match x with NaN => true | _ => false end.

Definition neg (x : number) : number :=
  match x with
  | NaN => NaN
  | PInf => NInf
  | NInf => PInf
  | Fin m e => Fin (- m) e
  end.

(** comparison of two decimals, on a common exponent *)
Definition cmpFin (m1 e1 m2 e2 : Z) : comparison :=
  let e := Z.min e1 e2 in
  (m1 * 10 ^ (e1 - e)) ?= (m2 * 10 ^ (e2 - e)).

(** [a < b]; false when either side is NaN *)
Definition ltb (a b : number) : bool :=
  match a, b with
  | NaN, _ | _, NaN => false
  | _, NInf => false
  | NInf, _ => true
  | PInf, _ => false
  | Fin _ _, PInf => true
  | Fin m1 e1, Fin m2 e2 =>
      match cmpFin m1 e1 m2 e2 with Lt => true | _ => false end
  end.

(** [a <= b]; false when either side is NaN *)
Definition leb (a b : number) : bool :=
  match a, b with
  | NaN, _ | _, NaN => false
  | _, _ => negb (ltb b a)
  end.

Definition gtb (a b : number) : bool := ltb b a.
Definition geb (a b : number) : bool := leb b a.

(** [Math.min(a, b)] and [Math.max(a, b)] *)
Definition min (a b : number) : number :=
  match a, b with
  | NaN, _ | _, NaN => NaN
  | _, _ => if ltb b a then b else a
  end.
Definition max (a b : number) : number :=
  match a, b with
  | NaN, _ | _, NaN => NaN
  | _, _ => if ltb a b then b else a
  end.

(** *** Reading decimal text *)

Fixpoint digitsToZ (acc : Z) (s : string) : Z :=
  match s with
  | String c s' => digitsToZ (10 * acc + digitVal c) s'
  | EmptyString => acc
  end.

Definition isZeroDigit (c : ascii) : bool := (code c =? 48)%N.

(** the decimal whose digits are [ds], times [10^e], normalised *)
Definition mkDecimal (ds : string) (e : Z) : number :=
  let ds' := Str.rev (Str.dropWhile isZeroDigit (Str.rev ds)) in
  let k := Z.of_nat (String.length ds) - Z.of_nat (String.length ds') in
  let m := digitsToZ 0 ds' in
  if m =? 0 then Fin 0 0 else Fin m (e + k).

(** the value of an ExponentPart ([e] or [E], an optional sign, digits)
    at the start of [s]; 0 when there is none *)
Definition scanExponent (s : string) : Z :=
  match s with
  | String c s1 =>
      if eqbCI c "e" then
        match s1 with
        | String sg s2 =>
            if Ascii.eqb sg "+" then digitsToZ 0 (Str.takeWhile isDigit s2)
            else if Ascii.eqb sg "-" then - digitsToZ 0 (Str.takeWhile isDigit s2)
            else digitsToZ 0 (Str.takeWhile isDigit s1)
        | EmptyString => 0
        end
      else 0
  | EmptyString => 0
  end.

(** the longest prefix of [s] that is a StrUnsignedDecimalLiteral:
    [Infinity], [D+ . D* Exp?], [. D+ Exp?] or [D+ Exp?] *)
Definition parseUnsigned (s : string) : number :=
  if Str.startsWith "Infinity" s then PInf else
  let d1 := Str.takeWhile isDigit s in
  let r1 := Str.dropWhile isDigit s in
  match r1 with
  | String "." r2 =>
      let d2 := Str.takeWhile isDigit r2 in
      let r3 := Str.dropWhile isDigit r2 in
      if Str.isEmpty d1 && Str.isEmpty d2 then NaN
      else mkDecimal (d1 ++ d2) (scanExponent r3 - Z.of_nat (String.length d2))
  | _ => if Str.isEmpty d1 then NaN else mkDecimal d1 (scanExponent r1)
  end.

(** [parseFloat(s)] *)
Definition parseFloat (s : string) : number :=
  match Str.trimStart s with
  | String "+" r => parseUnsigned r
  | String "-" r => neg (parseUnsigned r)
  | r => parseUnsigned r
  end.

(** [parseInt(s, 10)] on a string of digits (what [(\d+)] captured) *)
Definition parseIntDigits (s : string) : Z := digitsToZ 0 s.

(** *** Writing numbers *)

Definition digitChar (d : Z) : ascii := ascii_of_N (Z.to_N (48 + d)).

(** the decimal digits of [n >= 0], most significant first; [fuel]
    bounds their number *)
Fixpoint digitsFrom (fuel : nat) (n : Z) (acc : string) : string :=
  match fuel with
  | O => acc
  | S fuel' =>
      let acc' := String (digitChar (n mod 10)) acc in
      if n <? 10 then acc' else digitsFrom fuel' (n / 10) acc'
  end.
Definition digitsOf (n : Z) : string :=
  digitsFrom (S (Z.to_nat (Z.log2 n))) n "".

Fixpoint takeN (n : nat) (s : string) : string :=
  match n, s with
  | S n', String c s' => String c (takeN n' s')
  | _, _ => ""
  end.
Fixpoint dropN (n : nat) (s : string) : string :=
  match n, s with
  | S n', String _ s' => dropN n' s'
  | _, _ => s
  end.

(** Number::toString of the positive decimal with digits [ds] (no
    trailing zero) and exponent [e] *)
Definition positiveToString (ds : string) (e : Z) : string :=
  let k := Z.of_nat (String.length ds) in
  let n := k + e in
  if (k <=? n) && (n <=? 21) then ds ++ Str.repeat "0" (Z.to_nat (n - k))
  else if (0 <? n) && (n <=? 21) then
    takeN (Z.to_nat n) ds ++ "." ++ dropN (Z.to_nat n) ds
  else if (-6 <? n) && (n <=? 0) then
    "0." ++ Str.repeat "0" (Z.to_nat (- n)) ++ ds
  else
    let ex := (if 0 <=? n - 1 then "+" else "-") ++ digitsOf (Z.abs (n - 1)) in
    if k =? 1 then ds ++ "e" ++ ex
    else takeN 1 ds ++ "." ++ dropN 1 ds ++ "e" ++ ex.

(** [String(x)], the text a template literal puts for [x] *)
Definition toString (x : number) : string :=
  match x with
  | NaN => "NaN"
  | PInf => "Infinity"
  | NInf => "-Infinity"
  | Fin m e =>
      if m =? 0 then "0" else
      let ds := digitsOf (Z.abs m) in
      let ds' := Str.rev (Str.dropWhile isZeroDigit (Str.rev ds)) in
      let k := Z.of_nat (String.length ds) - Z.of_nat (String.length ds') in
      (if m <? 0 then "-" else "") ++ positiveToString ds' (e + k)
  end.

(** [x.toFixed(f)]: the integer nearest to [|x| * 10^f], the larger one
    on a tie, written with [f] digits after the point *)
Definition toFixed (f : nat) (x : number) : string :=
  match x with
  | Fin m e =>
      let a := Z.abs m in
      let s := if m <? 0 then "-" else "" in
      match cmpFin a e 1 21 with
      | Lt =>
          let sh := e + Z.of_nat f in
          let n := if 0 <=? sh then a * 10 ^ sh
                   else (2 * a + 10 ^ (- sh)) / (2 * 10 ^ (- sh)) in
          let ds := digitsOf n in
          let ds := Str.repeat "0" (S f - String.length ds) ++ ds in
          let k := String.length ds in
          match f with
          | O => s ++ ds
          | _ => s ++ takeN (k - f) ds ++ "." ++ dropN (k - f) ds
          end
      | _ => toString x
      end
  | _ => toString x
  end.

End Num.
Export Num (number).

(** ** Lines *)

Record Coord : Type := mkCoord { x : number; y : number; z : number }.

Definition coordZero : Coord := mkCoord (Num.Fin 0 0) (Num.Fin 0 0) (Num.Fin 0 0).

(** The three axis letters. *)
Inductive Axis : Type := AxX | AxY | AxZ.

Definition axisChar (a : Axis) : ascii :=
  match a with AxX => "X" | AxY => "Y" | AxZ => "Z" end%char.

Definition coordGet (a : Axis) (c : Coord) : number :=
  match a with AxX => x c | AxY => y c | AxZ => z c end.

(** A [tags] object: the keys that were set, in the order they were first
    set ([Object.keys] lists them so; no tag of the program is an integer
    index). *)
Definition Tags : Type := list string.

Definition hasTag (t : string) (tags : Tags) : bool :=
  List.existsb (String.eqb t) tags.

(** [tags[t] = true] *)
Definition setTag (t : string) (tags : Tags) : Tags :=
  if hasTag t tags then tags else (tags ++ [t])%list.

Record Line : Type := mkLine {
  raw : string;
  ignored : bool;
  isFirst : bool;
  isComment : bool;
  startCoord : Coord;
  endCoord : Coord;
  isFastMove : bool;
  fastMoveReason : string;
  hasX : bool;
  hasY : bool;
  hasZ : bool;
  hasXY : bool;
  hasMotion : bool;
  tags : Tags
}.

(** [/[X]/i.test(s)], for the letter of axis [a] *)
Definition hasAxisLetter (a : Axis) (s : string) : bool :=
  Str.existsb (eqbCI (axisChar a)) s.

(** [/^(?:G0|G1)\b/.test(s)] *)
Definition startsG0G1 (s : string) : bool :=
  (Str.startsWith "G0" s || Str.startsWith "G1" s)
  && Str.boundary true (Str.dropLen "G0" s).

(** [/^(?:G0|G1)\b/i.test(s)] *)
Definition startsG0G1CI (s : string) : bool :=
  (Str.startsWithCI "G0" s || Str.startsWithCI "G1" s)
  && Str.boundary true (Str.dropLen "G0" s).

(** [/^(?:G90|G94|G17|G21|G54|M|T|S)/i.test(t)] *)
Definition ignorablePrefixes : list string :=
  ["G90"; "G94"; "G17"; "G21"; "G54"; "M"; "T"; "S"].
Definition ignorableToken (t : string) : bool :=
  List.existsb (fun p => Str.startsWithCI p t) ignorablePrefixes.

(** [Line._calcIgnored] *)
Definition calcIgnored (raw : string) : bool :=
  let tokens := List.filter (fun t => negb (Str.isEmpty t))
                            (Str.splitWs (Str.trim raw)) in
  match tokens with
  | [] => false
  | _ => List.forallb ignorableToken tokens
  end.

(** [Line._calcComment] *)
Definition calcComment (raw : string) : bool := Str.startsWith "(" raw.

(** [new Line(raw)] *)
Definition newLine (raw : string) : Line :=
  let hx := hasAxisLetter AxX raw in
  let hy := hasAxisLetter AxY raw in
  let hz := hasAxisLetter AxZ raw in
  {| raw := raw;
     ignored := calcIgnored raw;
     isFirst := false;
     isComment := calcComment raw;
     startCoord := coordZero;
     endCoord := coordZero;
     isFastMove := false;
     fastMoveReason := "";
     hasX := hx;
     hasY := hy;
     hasZ := hz;
     hasXY := hx || hy;
     hasMotion := startsG0G1CI raw || hx || hy || hz;
     tags := [] |}.

Definition setCoords (s e : Coord) (ln : Line) : Line :=
  mkLine (raw ln) (ignored ln) (isFirst ln) (isComment ln) s e
         (isFastMove ln) (fastMoveReason ln)
         (hasX ln) (hasY ln) (hasZ ln) (hasXY ln) (hasMotion ln) (tags ln).

Definition setFast (b : bool) (reason : string) (ln : Line) : Line :=
  mkLine (raw ln) (ignored ln) (isFirst ln) (isComment ln)
         (startCoord ln) (endCoord ln) b reason
         (hasX ln) (hasY ln) (hasZ ln) (hasXY ln) (hasMotion ln) (tags ln).

Definition setIsFirst (b : bool) (ln : Line) : Line :=
  mkLine (raw ln) (ignored ln) b (isComment ln)
         (startCoord ln) (endCoord ln) (isFastMove ln) (fastMoveReason ln)
         (hasX ln) (hasY ln) (hasZ ln) (hasXY ln) (hasMotion ln) (tags ln).

Definition setTags (t : Tags) (ln : Line) : Line :=
  mkLine (raw ln) (ignored ln) (isFirst ln) (isComment ln)
         (startCoord ln) (endCoord ln) (isFastMove ln) (fastMoveReason ln)
         (hasX ln) (hasY ln) (hasZ ln) (hasXY ln) (hasMotion ln) t.

(** [Line.clone(raw)]: a new line for [raw] that takes over the two
    coordinates of [ln] and nothing else *)
Definition clone (ln : Line) (raw : string) : Line :=
  setCoords (startCoord ln) (endCoord ln) (newLine raw).

(** [Line.matchTags(required)] *)
Definition matchTags (ln : Line) (required : list string) : bool :=
  List.forallb (fun t => hasTag t (tags ln)) required.

(** ** The position tracker *)

Record CommandProcessor : Type := mkCP {
  cpx : number;
  cpy : number;
  cpz : number;
  currentCommand : string;
  cpmin : Coord;
  cpmax : Coord
}.

(** [new CommandProcessor()] *)
Definition newCommandProcessor : CommandProcessor :=
  let c := mkCoord (Num.Fin 0 0) (Num.Fin 0 0) (Num.Fin 5 0) in
  mkCP (x c) (y c) (z c) "" c c.

Definition cpPos (cp : CommandProcessor) : Coord :=
  mkCoord (cpx cp) (cpy cp) (cpz cp).

(** [/^[XYZ]/i.test(t)] with [t[0].toUpperCase()]: the axis a token names *)
Definition tokenAxis (t : string) : option Axis :=
  match t with
  | String c _ =>
      if Ascii.eqb (toUpper c) "X" then Some AxX
      else if Ascii.eqb (toUpper c) "Y" then Some AxY
      else if Ascii.eqb (toUpper c) "Z" then Some AxZ
      else None
  | EmptyString => None
  end.

(** [t.slice(1)] *)
Definition slice1 (t : string) : string :=
  match t with String _ r => r | EmptyString => "" end.

(** the body of the token loop: [newX], [newY], [newZ] after token [t] *)
Definition applyToken (pos : Coord) (t : string) : Coord :=
  match tokenAxis t with
  | Some a =>
      let val := Num.parseFloat (slice1 t) in
      if negb (Num.isNaN val) then
        match a with
        | AxX => mkCoord val (y pos) (z pos)
        | AxY => mkCoord (x pos) val (z pos)
        | AxZ => mkCoord (x pos) (y pos) val
        end
      else pos
  | None => pos
  end.

(** the tokens of a line: [ln.raw.trim().split(/\s+/)] *)
Definition lineTokens (raw : string) : list string :=
  Str.splitWs (Str.trim raw).

(** [CommandProcessor.processLine(ln)]: the tracker after the line, and
    the pair [start, end] it returns *)
Definition processLine (cp : CommandProcessor) (ln : Line)
  : CommandProcessor * (Coord * Coord) :=
  let start := cpPos cp in
  let cmd := if startsG0G1 (raw ln) then Num.takeN 2 (raw ln)
             else currentCommand cp in
  let new := fold_left applyToken (lineTokens (raw ln)) start in
  let mn := mkCoord (Num.min (x (cpmin cp)) (x new))
                    (Num.min (y (cpmin cp)) (y new))
                    (Num.min (z (cpmin cp)) (z new)) in
  let mx := mkCoord (Num.max (x (cpmax cp)) (x new))
                    (Num.max (y (cpmax cp)) (y new))
                    (Num.max (z (cpmax cp)) (z new)) in
  (mkCP (x new) (y new) (z new) cmd mn mx, (start, new)).

(** ** The store of shared arrays *)

Definition loc : Type := nat.

Record Store : Type := mkStore {
  cells : gmap loc (list Line);
  next : loc
}.

Definition emptyStore : Store := mkStore ∅ 0%nat.

(** a new array, at a location that no object holds yet *)
Definition alloc (v : list Line) (st : Store) : loc * Store :=
  (next st, mkStore (<[next st := v]> (cells st)) (S (next st))).

Definition readArr (st : Store) (l : loc) : list Line :=
  default [] (cells st !! l).

Definition writeArr (l : loc) (v : list Line) (st : Store) : Store :=
  mkStore (<[l := v]> (cells st)) (next st).

(** [arr.push(ln1, ..., lnk)] on the array at [l] *)
Definition pushAll (l : loc) (v : list Line) (st : Store) : Store :=
  writeArr l (readArr st l ++ v)%list st.

(** ** Files and their metadata *)

Record FileObject : Type := mkFile {
  path : string;
  lines : loc;
  name : string;
  tool : string;
  setup : option string;
  zo : option number;
  operation : Z;
  isDrilling : bool;
  allowFastMoves : bool;
  commandProcessor : option CommandProcessor
}.

(** [s.match(/^\s*T(\d+)/i)]: the digits captured *)
Definition matchTool (s : string) : option string :=
  match Str.dropWhile isSpace s with
  | String c r =>
      let d := Str.takeWhile isDigit r in
      if eqbCI c "T" && negb (Str.isEmpty d) then Some d else None
  | EmptyString => None
  end.

(** The full-line comment pattern of the source: white space, an opening
    parenthesis, any text without a line terminator (the capture), a closing
    parenthesis, white space, end of the string. The capture runs from the
    first parenthesis to the closing one that ends the line. *)
Definition commentMatch (s : string) : option string :=
  match Str.dropWhile isSpace s with
  | String "(" r =>
      match Str.dropWhile isSpace (Str.rev r) with
      | String ")" b =>
          if Str.existsb isLineTerminator b then None else Some (Str.rev b)
      | _ => None
      end
  | _ => None
  end.

(** [[^\s)]] *)
Definition valueChar (c : ascii) : bool :=
  negb (isSpace c) && negb (Ascii.eqb c ")").

(** [KEY=([^\s)]+)] under the [i] flag, at the start of [s] *)
Definition keyValueAt (key : string) (s : string) : option string :=
  let v := Str.takeWhile valueChar (Str.dropLen key s) in
  if Str.startsWithCI key s && negb (Str.isEmpty v) then Some v else None.

(** the alternative [\s] of [(?:^|\s)KEY=...], tried at each position in
    turn *)
Fixpoint scanKeyValue (key : string) (s : string) : option string :=
  match s with
  | String c s' =>
      match (if isSpace c then keyValueAt key s' else None) with
      | Some v => Some v
      | None => scanKeyValue key s'
      end
  | EmptyString => None
  end.

(** [s.match(/(?:^|\s)KEY=([^\s)]+)/i)]: the value of the leftmost match *)
Definition matchKeyValue (key : string) (s : string) : option string :=
  match keyValueAt key s with
  | Some v => Some v
  | None => scanKeyValue key s
  end.

(** the loop shared by [_extractSetup] and [_extractZO]: the value of
    [KEY=] in the first full-line comment that has one *)
Fixpoint extractKey (key : string) (ls : list Line) : option string :=
  match ls with
  | ln :: ls' =>
      match commentMatch (raw ln) with
      | Some body =>
          match matchKeyValue key body with
          | Some v => Some v
          | None => extractKey key ls'
          end
      | None => extractKey key ls'
      end
  | [] => None
  end.

(** [FileObject._extractName] *)
Definition extractName (ls : list Line) : string :=
  let firstLine := match ls with ln :: _ => raw ln | [] => "" end in
  let s1 := match Str.dropWhile isSpace firstLine with
            | String "(" r => r
            | _ => firstLine
            end in
  let s2 := match Str.dropWhile isSpace (Str.rev s1) with
            | String ")" b => Str.rev b
            | _ => s1
            end in
  Str.trim s2.

(** [FileObject._extractTool] *)
Fixpoint extractTool (ls : list Line) : string :=
  match ls with
  | ln :: ls' =>
      match matchTool (raw ln) with
      | Some d => "T" ++ d
      | None => extractTool ls'
      end
  | [] => "T?"
  end.

(** [FileObject._extractSetup] *)
Definition extractSetup (ls : list Line) : option string :=
  extractKey "SETUP=" ls.

(** [FileObject._extractZO] *)
Definition extractZO (ls : list Line) : option number :=
  option_map Num.parseFloat (extractKey "ZO=" ls).

(** [op\s*(\d+)] under the [i] flag at the start of [s], read by
    [parseInt(_, 10)] *)
Definition opAt (s : string) : option Z :=
  let d := Str.takeWhile isDigit (Str.dropWhile isSpace (Str.dropLen "op" s)) in
  if Str.startsWithCI "op" s && negb (Str.isEmpty d)
  then Some (Num.parseIntDigits d) else None.

(** the leftmost match of [/\bop\s*(\d+)/i] *)
Fixpoint scanOp (prevWord : bool) (s : string) : option Z :=
  match s with
  | String c s' =>
      match (if prevWord then None else opAt s) with
      | Some v => Some v
      | None => scanOp (isWordChar c) s'
      end
  | EmptyString => None
  end.

(** [FileObject._extractOperation] *)
Definition extractOperation (filePath : string) : option Z :=
  scanOp false filePath.

(** [FileObject._extractIsDrilling] *)
Fixpoint extractIsDrilling (ls : list Line) : bool :=
  match ls with
  | ln :: ls' =>
      match commentMatch (raw ln) with
      | Some body =>
          if Str.startsWithCI "Drill" body then true else extractIsDrilling ls'
      | None => extractIsDrilling ls'
      end
  | [] => false
  end.

(** [new FileObject(filePath, lines)], for the array at [l] whose elements
    are [ls]; [operation] is [this._extractOperation(filePath) || 0] *)
Definition newFileObject (filePath : string) (l : loc) (ls : list Line)
  : FileObject :=
  let drilling := extractIsDrilling ls in
  {| path := filePath;
     lines := l;
     name := extractName ls;
     tool := extractTool ls;
     setup := extractSetup ls;
     zo := extractZO ls;
     operation := default 0 (extractOperation filePath);
     isDrilling := drilling;
     allowFastMoves := negb drilling;
     commandProcessor := None |}.

Definition setCommandProcessor (cp : CommandProcessor) (f : FileObject)
  : FileObject :=
  mkFile (path f) (lines f) (name f) (tool f) (setup f) (zo f) (operation f)
         (isDrilling f) (allowFastMoves f) (Some cp).

Definition setLines (l : loc) (f : FileObject) : FileObject :=
  mkFile (path f) l (name f) (tool f) (setup f) (zo f) (operation f)
         (isDrilling f) (allowFastMoves f) (commandProcessor f).

(** ** The tool dictionary *)

Record ToolEntry : Type := mkTool {
  diameter : number;
  definitionFilename : string
}.

(** [ln.match(/^\s*\(\s*T(\d+)\s+D=([\d.]+)/i)]: the two captures *)
Definition matchToolDef (ln : string) : option (string * string) :=
  match Str.dropWhile isSpace ln with
  | String "(" r =>
      match Str.dropWhile isSpace r with
      | String t r1 =>
          let digits := Str.takeWhile isDigit r1 in
          let r2 := Str.dropWhile isDigit r1 in
          let r3 := Str.dropWhile isSpace r2 in
          let dia := Str.takeWhile (fun c => isDigit c || Ascii.eqb c ".")
                                   (Str.dropLen "D=" r3) in
          if eqbCI t "T" && negb (Str.isEmpty digits)
             && negb (Str.isEmpty (Str.takeWhile isSpace r2))
             && Str.startsWithCI "D=" r3 && negb (Str.isEmpty dia)
          then Some (digits, dia) else None
      | EmptyString => None
      end
  | _ => None
  end.

(** the inner loop of [buildToolDict]: the first line of a file that is a
    tool definition *)
Fixpoint firstToolDef (ls : list string) : option (string * string) :=
  match ls with
  | ln :: ls' =>
      match matchToolDef ln with
      | Some m => Some m
      | None => firstToolDef ls'
      end
  | [] => None
  end.

(** [buildToolDict], over the paths that [findNcFiles] lists and the
    file contents [readFile] gives: the dictionary and [defFiles] *)
Fixpoint buildToolDictFrom (readFile : string -> string) (ncPaths : list string)
    (toolDict : gmap string ToolEntry) (defFiles : list string)
  : gmap string ToolEntry * list string :=
  match ncPaths with
  | p :: rest =>
      match firstToolDef (Str.splitLines (readFile p)) with
      | Some (digits, dia) =>
          let toolKey := "T" ++ digits in
          let toolDict' :=
            match toolDict !! toolKey with
            | Some _ => toolDict
            | None => <[toolKey := mkTool (Num.parseFloat dia) p]> toolDict
            end in
          buildToolDictFrom readFile rest toolDict' (defFiles ++ [p])%list
      | None => buildToolDictFrom readFile rest toolDict defFiles
      end
  | [] => (toolDict, defFiles)
  end.

Definition buildToolDict (readFile : string -> string) (ncPaths : list string)
  : gmap string ToolEntry * list string :=
  buildToolDictFrom readFile ncPaths ∅ [].

(** ** Loading files, tracking and classifying *)

(** [/^\s*(G0|G1)\b/i.test(s)] *)
Definition isMotionStart (s : string) : bool :=
  startsG0G1CI (Str.dropWhile isSpace s).

(** the loop that flags the first G0/G1 line *)
Fixpoint flagFirst (ls : list Line) : list Line :=
  match ls with
  | ln :: ls' =>
      if isMotionStart (raw ln) then setIsFirst true ln :: ls'
      else ln :: flagFirst ls'
  | [] => []
  end.

(** the text of [fastMoveReason] for rule 1 *)
Definition reasonText (anyXY : bool) (start end_ : Coord) : string :=
  "anyXY{" ++ (if anyXY then "true" else "false")
  ++ "} && start.z{" ++ Num.toString (z start)
  ++ "} >= 0 && end.z{" ++ Num.toString (z end_) ++ "} >= 0".

(** the three-way classification of a line with the given endpoints *)
Definition classify (start end_ : Coord) (ln : Line) : Line :=
  let anyXY := hasX ln || hasY ln in
  if anyXY && Num.geb (z start) (Num.Fin 0 0) && Num.geb (z end_) (Num.Fin 0 0)
  then setFast true (reasonText anyXY start end_) ln
  else if negb anyXY && hasZ ln && Num.gtb (z end_) (z start)
          && Num.geb (z end_) (Num.Fin 0 0)
  then setFast true (fastMoveReason ln) ln
  else setFast false (fastMoveReason ln) ln.

(** the loop over [fo.lines] under [if (fo.allowFastMoves)]: the tracker
    after the lines, and the lines with coordinates and classification *)
Fixpoint trackLines (cp : CommandProcessor) (ls : list Line)
  : CommandProcessor * list Line :=
  match ls with
  | ln :: ls' =>
      let '(cp1, (start, end_)) := processLine cp ln in
      let ln' := classify start end_ (setCoords start end_ ln) in
      let '(cp2, out) := trackLines cp1 ls' in
      (cp2, ln' :: out)
  | [] => (cp, [])
  end.

(** [rawLines.map(txt => new Line(txt))] with the first G0/G1 flagged *)
Definition loadFileLines (content : string) : list Line :=
  flagFirst (map newLine (Str.splitLines content)).

(** the body of the loop of [loadFiles] for one path that is not a
    definition file: the file object, and the store with its line array *)
Definition loadFile (filePath content : string) (st : Store)
  : FileObject * Store :=
  let lineObjs := loadFileLines content in
  let '(l, st1) := alloc lineObjs st in
  let fo := newFileObject filePath l lineObjs in
  if allowFastMoves fo
  then let '(cp, tracked) := trackLines newCommandProcessor lineObjs in
       (setCommandProcessor cp fo, writeArr l tracked st1)
  else (fo, st1).

(** [defFiles.includes(p)] *)
Definition includes (l : list string) (p : string) : bool :=
  List.existsb (String.eqb p) l.

(** [loadFiles(paths)]: the array [files] and the store of line arrays *)
Fixpoint loadFilesFrom (readFile : string -> string) (defFiles : list string)
    (paths : list string) (files : list FileObject) (st : Store)
  : list FileObject * Store :=
  match paths with
  | p :: rest =>
      if includes defFiles p
      then loadFilesFrom readFile defFiles rest files st
      else let '(fo, st') := loadFile p (readFile p) st in
           loadFilesFrom readFile defFiles rest (files ++ [fo])%list st'
  | [] => (files, st)
  end.

Definition loadFiles (readFile : string -> string) (defFiles : list string)
    (paths : list string) : list FileObject * Store :=
  loadFilesFrom readFile defFiles paths [] emptyStore.

(** ** Merge helpers *)

Record Params : Type := mkParams {
  fr : option number;
  filterTags : list string;
  filtered : bool
}.

Definition DEFAULT_FEED_RATE : number := Num.Fin 5 2.

(** [Array.prototype.sort] with a comparator: the stable sort, written as
    an insertion sort. [cmp a b] is the sign of what the comparator returns. *)
Fixpoint insertBy {A : Type} (cmp : A -> A -> Z) (a : A) (l : list A) : list A :=
  match l with
  | b :: l' => if cmp a b <=? 0 then a :: l else b :: insertBy cmp a l'
  | [] => [a]
  end.

Fixpoint sortBy {A : Type} (cmp : A -> A -> Z) (l : list A) : list A :=
  match l with
  | a :: l' => insertBy cmp a (sortBy cmp l')
  | [] => []
  end.

(** [sortByOperation(files)]; [operation || 0] is [operation], a number *)
Definition sortByOperation (files : list FileObject) : list FileObject :=
  sortBy (fun a b => operation a - operation b) files.

(** [f.setup || 'unknown'] *)
Definition setupName (f : FileObject) : string :=
  match setup f with
  | Some s => if Str.isEmpty s then "unknown" else s
  | None => "unknown"
  end.

(** the key of [groupBySetupAndTool] *)
Definition groupKey (f : FileObject) : string :=
  setupName f ++ "||" ++ tool f.

(** [map.get(key).push(f)], creating the entry at the end when the key is
    new *)
Fixpoint groupInsert (key : string) (f : FileObject)
    (m : list (string * list FileObject)) : list (string * list FileObject) :=
  match m with
  | (k, g) :: m' =>
      if String.eqb k key then (k, g ++ [f])%list :: m'
      else (k, g) :: groupInsert key f m'
  | [] => [(key, [f])]
  end.

(** [groupBySetupAndTool(files)]: the entries of the [Map] in insertion
    order *)
Definition groupBySetupAndTool (files : list FileObject)
  : list (string * list FileObject) :=
  fold_left (fun m f => groupInsert (groupKey f) f m) files [].

Definition groupLookup (key : string) (m : list (string * list FileObject))
  : option (list FileObject) :=
  option_map snd (find (fun kg => String.eqb (fst kg) key) m).

(** [assignSetupNumbers(files)]: the setup names in first-seen order; the
    number of a name is its position, counted from 1 *)
Definition assignSetupNumbers (files : list FileObject) : list string :=
  fold_left (fun m f => if includes m (setupName f) then m
                        else (m ++ [setupName f])%list) files [].

(** *** Feed rate *)

Definition isF (c : ascii) : bool := eqbCI c "F".

(** The rests after [\d+] at the start of [s], in the order in which the
    greedy quantifier tries them: the longest run of digits first. *)
Fixpoint digitRests (s : string) : list string :=
  match s with
  | String c s' => if isDigit c then (digitRests s' ++ [s'])%list else []
  | EmptyString => []
  end.

(** the first alternative that leads to a match *)
Fixpoint firstMatch {A B : Type} (f : A -> option B) (l : list A) : option B :=
  match l with
  | a :: l' => match f a with Some b => Some b | None => firstMatch f l' end
  | [] => None
  end.

(** [\b] after a digit, at the end of the pattern: the rest is returned *)
Definition boundaryRest (r : string) : option string :=
  if Str.boundary true r then Some r else None.

(** One attempt of [/\bF\d+(\.\d+)?\b/i] at the start of [s], read as the
    pattern is written, with its backtracking: [\b], [F], each run of
    digits from the longest on, then the group (a point and each run of
    digits from the longest on) and, when no way through the group reaches
    the final [\b], the pattern without the group. The result is the rest
    behind the match. *)
Definition matchFeedLiteral (prevWord : bool) (s : string) : option string :=
  match s with
  | String c s1 =>
      if Str.boundary prevWord s && isF c then
        firstMatch
          (fun r1 =>
             match (if Str.startsWith "." r1
                    then firstMatch boundaryRest (digitRests (slice1 r1))
                    else None) with
             | Some r3 => Some r3
             | None => boundaryRest r1
             end)
          (digitRests s1)
      else None
  | EmptyString => None
  end.

(** The same attempt without backtracking, with the text matched as well
    ([matchFeed_literal] shows that the rests agree). After [F] the digits
    are taken greedily; a shorter run cannot match, because a digit would
    follow it. The group is tried first and kept when a word boundary
    follows it; otherwise the match ends after the first digits, where a
    boundary is needed as well (there is one before a point). *)
Definition matchFeed (prevWord : bool) (s : string) : option (string * string) :=
  match s with
  | String c s1 =>
      let d1 := Str.takeWhile isDigit s1 in
      let r1 := Str.dropWhile isDigit s1 in
      if negb prevWord && isF c && negb (Str.isEmpty d1) then
        let d2 := Str.takeWhile isDigit (slice1 r1) in
        let r3 := Str.dropWhile isDigit (slice1 r1) in
        if Str.startsWith "." r1 && negb (Str.isEmpty d2) && Str.boundary true r3
        then Some (String c d1 ++ "." ++ d2, r3)
        else if Str.boundary true r1 then Some (String c d1, r1) else None
      else None
  | EmptyString => None
  end.

(** [line.replace(/\bF\d+(\.\d+)?\b/gi, rep)]: the attempts go left to
    right, and after a match the search goes on behind it. [fuel] bounds
    the number of steps; the length of the line is enough. *)
Fixpoint replaceFeedFrom (fuel : nat) (rep : string) (prevWord : bool)
    (s : string) : string :=
  match fuel with
  | O => s
  | S fuel' =>
      match s with
      | String c s' =>
          match matchFeed prevWord s with
          | Some (_, rest) => rep ++ replaceFeedFrom fuel' rep true rest
          | None => String c (replaceFeedFrom fuel' rep (isWordChar c) s')
          end
      | EmptyString => ""
      end
  end.

Definition replaceFeed (rep : string) (s : string) : string :=
  replaceFeedFrom (String.length s) rep false s.

(** [processFeedRate(line)] *)
Definition processFeedRate (params : Params) (line : string) : string :=
  match fr params with
  | None => line
  | Some v => replaceFeed ("F" ++ Num.toString v) line
  end.

(** *** Tags and the modal reset *)

(** [parseTags(ln)] *)
Definition parseTags (ln : Line) : Line :=
  let t1 := if isFastMove ln then setTag "FAST" (tags ln) else tags ln in
  let axes := (if hasX ln then "X" else "") ++ (if hasY ln then "Y" else "")
              ++ (if hasZ ln then "Z" else "") in
  let t2 := setTag axes t1 in
  let t3 := if Num.geb (z (startCoord ln)) (Num.Fin 0 0)
               && Num.geb (z (endCoord ln)) (Num.Fin 0 0)
            then setTag "UNENGAGED" t2 else t2 in
  setTags t3 ln.

(** [ln.clone('G1')] with [tags['RESET-FR'] = true] *)
Definition resetLine (ln : Line) : Line :=
  let r := clone ln "G1" in
  setTags (setTag "RESET-FR" (tags r)) r.

(** a line that the loops of [addTagsToLines] and [buildContentLines]
    look at: neither ignorable nor a comment *)
Definition isContent (ln : Line) : bool :=
  negb (ignored ln) && negb (isComment ln).

(** [ln.raw.trim().length === 0] *)
Definition isBlank (ln : Line) : bool := Str.isEmpty (Str.trim (raw ln)).

(** the inner loop of [addTagsToLines] over the lines of one file: what
    it pushes onto [output], [lastWasFast] being the flag on entry *)
Fixpoint tagLines (allowFast : bool) (lastWasFast : bool) (ls : list Line)
  : list Line :=
  match ls with
  | ln :: ls' =>
      if isContent ln then
        if isBlank ln then tagLines allowFast lastWasFast ls'
        else
          let ln' := parseTags ln in
          if allowFast then
            if isFastMove ln' then ln' :: tagLines allowFast true ls'
            else if lastWasFast
                 then resetLine ln' :: ln' :: tagLines allowFast false ls'
                 else ln' :: tagLines allowFast lastWasFast ls'
          else ln' :: tagLines allowFast lastWasFast ls'
      else tagLines allowFast lastWasFast ls'
  | [] => []
  end.

(** the outer loop of [addTagsToLines]: every file pushes onto the one
    array at [output] and then holds that array as its [lines] *)
Fixpoint addTagsLoop (output : loc) (group : list FileObject) (st : Store)
  : list FileObject * Store :=
  match group with
  | fItem :: rest =>
      let pushed := tagLines (allowFastMoves fItem) false (readArr st (lines fItem)) in
      let st1 := pushAll output pushed st in
      let '(rest', st2) := addTagsLoop output rest st1 in
      (setLines output fItem :: rest', st2)
  | [] => ([], st)
  end.

(** [addTagsToLines(group)]: [output] is allocated once, before the loop *)
Definition addTagsToLines (group : list FileObject) (st : Store)
  : list FileObject * Store :=
  let '(output, st0) := alloc [] st in
  addTagsLoop output group st0.

(** ** Serialising a group *)

Definition LF : string := String (ascii_of_N 10) "".
Definition TAB : string := String (ascii_of_N 9) "".

(** [v.toFixed(3).padStart(8)] *)
Definition fmt3 (v : number) : string := Str.padStart 8 (Num.toFixed 3 v).

(** the two lines of a statistics block *)
Definition statsLines (mn mx : Coord) : list string :=
  [ "(" ++ Str.padEnd 46 " " ++ "MIN: " ++ Str.padEnd 26 " "
        ++ fmt3 (x mn) ++ " " ++ fmt3 (y mn) ++ " " ++ fmt3 (z mn) ++ ")";
    "(" ++ Str.padEnd 46 " " ++ "MAX: " ++ Str.padEnd 26 " "
        ++ fmt3 (x mx) ++ " " ++ fmt3 (y mx) ++ " " ++ fmt3 (z mx) ++ ")" ].

(** [aggregateStats(files)], before formatting: the componentwise minimum
    and maximum over the files that have a tracker *)
Fixpoint aggregateFrom (files : list FileObject) (mn mx : Coord) : Coord * Coord :=
  match files with
  | f :: rest =>
      match commandProcessor f with
      | Some stats =>
          aggregateFrom rest
            (mkCoord (Num.min (x mn) (x (cpmin stats)))
                     (Num.min (y mn) (y (cpmin stats)))
                     (Num.min (z mn) (z (cpmin stats))))
            (mkCoord (Num.max (x mx) (x (cpmax stats)))
                     (Num.max (y mx) (y (cpmax stats)))
                     (Num.max (z mx) (z (cpmax stats))))
      | None => aggregateFrom rest mn mx
      end
  | [] => (mn, mx)
  end.

Definition aggregateStats (files : list FileObject) : Coord * Coord :=
  aggregateFrom files (mkCoord Num.PInf Num.PInf Num.PInf)
                      (mkCoord Num.NInf Num.NInf Num.NInf).

(** [params.fr || DEFAULT_FEED_RATE]: undefined, NaN and 0 are falsy *)
Definition effectiveFeedRate (params : Params) : number :=
  match fr params with
  | Some (Num.Fin m e) => if m =? 0 then DEFAULT_FEED_RATE else Num.Fin m e
  | Some Num.NaN | None => DEFAULT_FEED_RATE
  | Some v => v
  end.

(** the text after the padded code: both coordinates and the tag list *)
Definition coordText (c : Coord) : string :=
  Str.join " " (map fmt3 [x c; y c; z c]).

Definition trailer (ln : Line) : string :=
  "; " ++ coordText (startCoord ln) ++ TAB ++ coordText (endCoord ln)
  ++ " # " ++ Str.join " " (tags ln).

(** [raw.replace(/^\s*(G1\b)/i, 'G0')], then ['G0 '] in place of the
    leading white space unless the text now starts with G0 *)
Definition rapidText (raw : string) : string :=
  let body := Str.dropWhile isSpace raw in
  let rawFast :=
    if Str.startsWithCI "G1" body && Str.boundary true (Str.dropLen "G1" body)
    then "G0" ++ Str.dropLen "G1" body else raw in
  let body' := Str.dropWhile isSpace rawFast in
  if Str.startsWithCI "G0" body' && Str.boundary true (Str.dropLen "G0" body')
  then rawFast else "G0 " ++ body'.

(** The target length [padEnd] gets from a text argument: the text goes
    through [ToNumber], and NaN counts as 0. A text of digits is its value;
    a text with any other code unit in it (every text the program passes
    starts with ["50; "]) is read as NaN here. *)
Definition lengthOfText (t : string) : nat :=
  let t' := Str.trim t in
  if Str.isEmpty (Str.dropWhile isDigit t')
  then Z.to_nat (Num.digitsToZ 0 t') else O.

Definition padding : nat := 50.
Definition paddingText : string := "50".

(** the body of the content loop of [buildContentLines] for one line:
    the strings it pushes. In the last branch the closing parenthesis of
    [padEnd] encloses the whole concatenation, so the text
    [padding + '; ' + ...] is the argument of [padEnd]. *)
Definition emitLine (params : Params) (allowFast : bool) (ln : Line)
  : list string :=
  if isContent ln then
    if isBlank ln then [""]
    else if filtered params && negb (matchTags ln (filterTags params)) then []
    else
      let raw' := processFeedRate params (raw ln) in
      if allowFast then
        if isFastMove ln
        then [Str.padEnd padding (rapidText raw') ++ trailer ln]
        else [Str.padEnd padding raw' ++ trailer ln]
      else [Str.padEnd (lengthOfText (paddingText ++ trailer ln)) raw']
  else [].

(** the comment loop: the raw text of every comment line *)
Definition commentLines (ls : list Line) : list string :=
  map raw (List.filter isComment ls).

(** the block of one member: what the body of the loop over the group
    pushes, and the running [fileCnt] *)
Definition memberBlock (params : Params) (st : Store) (fileCnt : nat)
    (fItem : FileObject) : list string * nat :=
  let ls := readArr st (lines fItem) in
  let comments := commentLines ls in
  let title := "; FILE " ++ Num.digitsOf (Z.of_nat (S fileCnt)) ++ " STATS" in
  let statsBlock :=
    match commandProcessor fItem with
    | Some stats => (title :: statsLines (cpmin stats) (cpmax stats) ++ [""])%list
    | None => []
    end in
  let fileCnt' := match commandProcessor fItem with
                  | Some _ => S fileCnt
                  | None => fileCnt
                  end in
  let restore := "G0 Z5" ++ LF ++ LF in
  ((restore
     :: comments
     ++ (match comments with [] => [] | _ => [LF] end)
     ++ statsBlock
     ++ concat (map (emitLine params (allowFastMoves fItem)) ls)
     ++ List.repeat "" 10)%list, fileCnt').

(** the loop over the group: the lines pushed, and [startLines]; [len] is
    [contentLines.length] on entry *)
Fixpoint memberBlocks (params : Params) (st : Store) (fileCnt : nat)
    (len : nat) (group : list FileObject) (startLines : gmap string nat)
  : list string * gmap string nat :=
  match group with
  | fItem :: rest =>
      let '(block, fileCnt') := memberBlock params st fileCnt fItem in
      let '(blocks, startLines') :=
        memberBlocks params st fileCnt' (len + List.length block) rest
                     (<[path fItem := S len]> startLines) in
      ((block ++ blocks)%list, startLines')
  | [] => ([], startLines)
  end.

(** the lines [buildContentLines] pushes before the loop *)
Definition preamble (params : Params) (group : list FileObject) : list string :=
  let '(mn, mx) := aggregateStats group in
  let state := "G90 G94 G17 G21 G54 F" ++ Num.toString (effectiveFeedRate params) in
  ([""; state; ""]
   ++ ["; AGGREGATE STATS - ALL FILES"] ++ statsLines mn mx ++ [""])%list.

(** [buildContentLines(group)] *)
Definition buildContentLines (params : Params) (st : Store)
    (group : list FileObject) : list string * gmap string nat :=
  let pre := preamble params group in
  let '(blocks, startLines) :=
    memberBlocks params st 0 (List.length pre) group ∅ in
  ((pre ++ blocks ++ ["G0 Z5"; "G0 X0 Y0"])%list, startLines).

(** [path.basename(p)]: the text after the last slash *)
Fixpoint basenameFrom (acc : string) (p : string) : string :=
  match p with
  | String c p' =>
      if Ascii.eqb c "/" then basenameFrom "" p'
      else basenameFrom (acc ++ String c "") p'
  | EmptyString => acc
  end.
Definition basename (p : string) : string := basenameFrom "" p.

(** the part of the loop of [mergeBySetupAndTool] that builds the array
    [merged] for one group: tags, content and header *)
Definition mergeGroup (params : Params) (group : list FileObject) (st : Store)
  : list string * Store :=
  let '(group', st') := addTagsToLines group st in
  let '(contentLines, startLines) := buildContentLines params st' group' in
  let headerLen := (2 + List.length group')%nat in
  let entries :=
    map (fun fItem =>
           let start := (headerLen + default O (startLines !! path fItem))%nat in
           "(" ++ Str.padStart 5 (Num.digitsOf (Z.of_nat start))
               ++ " - " ++ basename (path fItem) ++ ")") group' in
  ((["(MERGED)"; ""] ++ entries ++ contentLines)%list, st').

(** the groups of [mergeBySetupAndTool], in the order they are written *)
Definition mergeGroups (fileList : list FileObject)
  : list (string * list FileObject) :=
  groupBySetupAndTool (sortByOperation fileList).

(** * Notions of the statements *)

(** ** Lines and stores as [loadFiles] leaves them *)

(** what [loadFiles] has in a line array before any tracking: lines built
    by [new Line], one of them possibly flagged as the first motion *)
Definition pristine (ln : Line) : Prop :=
  exists r b, ln = setIsFirst b (newLine r).

Definition untagged (ln : Line) : Prop := tags ln = [].

(** a file whose line array was allocated before the next allocation *)
Definition wfFile (st : Store) (f : FileObject) : Prop := (lines f < next st)%nat.

(** every file is allocated and none of its lines has a tag yet *)
Definition storeOk (st : Store) (files : list FileObject) : Prop :=
  Forall (fun f => wfFile st f /\ Forall untagged (readArr st (lines f))) files.

(** ** Position tracking *)

Definition axisEqb (a b : Axis) : bool :=
  match a, b with
  | AxX, AxX | AxY, AxY | AxZ, AxZ => true
  | _, _ => false
  end.

(** the value a token gives to axis [a]: the token starts with the letter
    of [a] (either case) and [parseFloat] reads its remainder as a number *)
Definition tokenValue (a : Axis) (t : string) : option number :=
  match tokenAxis t with
  | Some b =>
      if axisEqb a b && negb (Num.isNaN (Num.parseFloat (slice1 t)))
      then Some (Num.parseFloat (slice1 t)) else None
  | None => None
  end.

(** the values that the tokens of a line give to axis [a], in order *)
Definition axisValues (a : Axis) (raw : string) : list number :=
  omap (tokenValue a) (lineTokens raw).

(** the lines out of the tracker form a chain that starts at the position
    of the tracker, and each line ends where its own tokens lead *)
Fixpoint chained (c : Coord) (ls : list Line) : Prop :=
  match ls with
  | ln :: ls' =>
      startCoord ln = c
      /\ endCoord ln = fold_left applyToken (lineTokens (raw ln)) c
      /\ chained (endCoord ln) ls'
  | [] => True
  end.

(** ** The fast-move policy *)

(** The policy as the specification words it, on the text of the line and
    its two endpoints. *)
Inductive Verdict : Type := FastRule1 | FastRule2 | NotFast.

Definition verdict (ln : Line) : Verdict :=
  let hasXorY := hasAxisLetter AxX (raw ln) || hasAxisLetter AxY (raw ln) in
  let onlyZ := negb hasXorY && hasAxisLetter AxZ (raw ln) in
  let startZ := z (startCoord ln) in
  let endZ := z (endCoord ln) in
  if hasXorY && Num.geb startZ (Num.Fin 0 0) && Num.geb endZ (Num.Fin 0 0)
  then FastRule1
  else if onlyZ && Num.gtb endZ startZ && Num.geb endZ (Num.Fin 0 0)
  then FastRule2
  else NotFast.

(** what the classifier must have recorded on a line with a given verdict *)
Definition recorded (ln : Line) : Prop :=
  match verdict ln with
  | FastRule1 =>
      isFastMove ln = true
      /\ fastMoveReason ln = reasonText true (startCoord ln) (endCoord ln)
      /\ fastMoveReason ln <> ""
  | FastRule2 => isFastMove ln = true /\ fastMoveReason ln = ""
  | NotFast => isFastMove ln = false /\ fastMoveReason ln = ""
  end.

(** ** Tagging and the modal reset *)

(** what one file pushes onto [output] *)
Definition pushedBy (st : Store) (f : FileObject) : list Line :=
  tagLines (allowFastMoves f) false (readArr st (lines f)).

(** the lines that take part in the reset sequencing: neither ignorable,
    nor comment, nor blank *)
Definition retained (ls : list Line) : list Line :=
  List.filter (fun ln => isContent ln && negb (isBlank ln)) ls.

(** a NOT-FAST line directly after a FAST line *)
Definition isTransition (prev : option Line) (cur : Line) : bool :=
  match prev with
  | Some p => isFastMove p && negb (isFastMove cur)
  | None => false
  end.

(** the sequence with one reset line before each transition, as the
    specification words it: [prev] is the retained line before [rs] *)
Fixpoint insertResets (prev : option Line) (rs : list Line) : list Line :=
  match rs with
  | r :: rs' =>
      if isTransition prev r
      then resetLine r :: r :: insertResets (Some r) rs'
      else r :: insertResets (Some r) rs'
  | [] => []
  end.

Definition isReset (ln : Line) : bool := hasTag "RESET-FR" (tags ln).

(** where the reset lines stand in a sequence [out]: a reset line has a
    FAST line right before it and the NOT-FAST line it was cloned from right
    after it, and a FAST line is never directly followed by a NOT-FAST line
    of the file *)
Definition resetsInPlace (out : list Line) : Prop :=
  (forall i b, out !! i = Some b -> isReset b = true ->
     exists j a c,
       i = S j /\ out !! j = Some a /\ isReset a = false /\ isFastMove a = true
       /\ out !! S i = Some c /\ isReset c = false /\ isFastMove c = false
       /\ b = resetLine c)
  /\ (forall i a b, out !! i = Some a -> out !! S i = Some b ->
        isReset a = false -> isReset b = false ->
        isFastMove a = true -> isFastMove b = true).

(** ** The tool dictionary *)

(** the tool definition of a file: its first line that is one *)
Definition fileDef (readFile : string -> string) (p : string)
  : option (string * string) :=
  firstToolDef (Str.splitLines (readFile p)).

(** the entry of the first file, in the order of enumeration, whose
    definition has the key [key] *)
Fixpoint firstDefinition (readFile : string -> string) (key : string)
    (paths : list string) : option ToolEntry :=
  match paths with
  | p :: rest =>
      match fileDef readFile p with
      | Some (digits, dia) =>
          if String.eqb ("T" ++ digits) key
          then Some (mkTool (Num.parseFloat dia) p)
          else firstDefinition readFile key rest
      | None => firstDefinition readFile key rest
      end
  | [] => None
  end.

Definition hasDef (readFile : string -> string) (p : string) : bool :=
  match fileDef readFile p with Some _ => true | None => false end.

(** ** Sorting by a key *)

(** the comparator, the order and the test of a key function *)
Definition cmpKey {A : Type} (key : A -> Z) (a b : A) : Z := key a - key b.
Definition keyLe {A : Type} (key : A -> Z) (a b : A) : Prop := key a <= key b.
Definition hasKey {A : Type} (key : A -> Z) (k : Z) (a : A) : bool := key a =? k.

(** ** The feed-rate substitution *)

(** after a match: a point, digits and a word boundary, which a second
    pass would read as the fraction of the text put in *)
Definition fractionAhead (rest : string) : bool :=
  Str.startsWith "." rest
  && negb (Str.isEmpty (Str.takeWhile isDigit (slice1 rest)))
  && Str.boundary true (Str.dropWhile isDigit (slice1 rest)).

(** no match of the pattern in the line, met in the scan of [replace], has
    such a fraction behind it *)
Fixpoint feedSafeFrom (fuel : nat) (prevWord : bool) (s : string) : bool :=
  match fuel with
  | O => true
  | S fuel' =>
      match s with
      | String c s' =>
          match matchFeed prevWord s with
          | Some (_, rest) => negb (fractionAhead rest) && feedSafeFrom fuel' true rest
          | None => feedSafeFrom fuel' (isWordChar c) s'
          end
      | EmptyString => true
      end
  end.

Definition feedSafe (s : string) : bool := feedSafeFrom (String.length s) false s.

Fixpoint digitsOnly (s : string) : bool :=
  match s with
  | String c s' => isDigit c && digitsOnly s'
  | EmptyString => true
  end.

(** a plain decimal numeral: digits, or digits, a point and digits *)
Definition plainNumeral (r : string) : bool :=
  negb (Str.isEmpty (Str.takeWhile isDigit r))
  && (Str.isEmpty (Str.dropWhile isDigit r)
      || Str.startsWith "." (Str.dropWhile isDigit r)
         && negb (Str.isEmpty (slice1 (Str.dropWhile isDigit r)))
         && digitsOnly (slice1 (Str.dropWhile isDigit r))).

Definition headNotDigit (s : string) : bool :=
  match s with
  | String c _ => negb (isDigit c)
  | EmptyString => true
  end.

(** the substitution and the condition on the line from any position,
    with fuel for the whole of the text *)
Definition feedSubst (rep : string) (pw : bool) (s : string) : string :=
  replaceFeedFrom (String.length s) rep pw s.

Definition feedSafeAt (pw : bool) (s : string) : bool :=
  feedSafeFrom (String.length s) pw s.

(** * Example inputs *)

(** the four lines of the example of the specification, alone in a
    directory *)
Definition demoText : string :=
  "G0 Z5" ++ LF ++ "G1 X10 Y10" ++ LF ++ "G1 Z-2" ++ LF ++ "G1 Z5".

Definition demoLines : list Line :=
  readArr (snd (loadFile "demo.nc" demoText emptyStore))
          (lines (fst (loadFile "demo.nc" demoText emptyStore))).

Definition demoRead (p : string) : string :=
  if String.eqb p "demo.nc" then demoText else "".
Definition demoFiles : list FileObject := fst (loadFiles demoRead [] ["demo.nc"]).
Definition demoStore : Store := snd (loadFiles demoRead [] ["demo.nc"]).

(** the same moves in a drilling file *)
Definition drillText : string :=
  "(Drilling 3mm)" ++ LF ++ "G0 Z5" ++ LF ++ "G1 X10 Y10" ++ LF ++ "G1 Z-2"
  ++ LF ++ "G1 Z5".

(** a directory with one definition file and one program *)
Definition toolsRead (p : string) : string :=
  if String.eqb p "tools.nc" then "(T3 D=6.00 CR=0. - flat end mill)"
  else if String.eqb p "part.nc" then demoText
  else "".
Definition toolsPaths : list string := ["tools.nc"; "part.nc"].

(** a library file with two definition lines *)
Definition libRead (p : string) : string :=
  if String.eqb p "lib.nc" then "(T3 D=6.00)" ++ LF ++ "(T5 D=10.0)" else "".

(** two programs of one setup and tool, enumerated as operation 2 and
    then operation 1 *)
Definition opsRead (p : string) : string :=
  if String.eqb p "pocket op2.nc" then "(pocket SETUP=A)" ++ LF ++ "T1 M6" ++ LF ++ "G1 X1"
  else if String.eqb p "face op1.nc" then "(face SETUP=A)" ++ LF ++ "T1 M6" ++ LF ++ "G1 X2"
  else "".
Definition opsFiles : list FileObject :=
  fst (loadFiles opsRead [] ["pocket op2.nc"; "face op1.nc"]).

(** two programs of one setup and tool, each with a comment and one move,
    and the two content lines they give *)
Definition pairRead (p : string) : string :=
  if String.eqb p "a.nc" then "(part A)" ++ LF ++ "G1 X1"
  else if String.eqb p "b.nc" then "(part B)" ++ LF ++ "G1 X2"
  else "".
Definition pairFiles : list FileObject :=
  fst (loadFiles pairRead [] ["a.nc"; "b.nc"]).
Definition pairStore : Store := snd (loadFiles pairRead [] ["a.nc"; "b.nc"]).

Definition pairLineX1 : string :=
  "G0 X1                                             ;    0.000    0.000    5.000"
  ++ TAB ++ "   1.000    0.000    5.000 # FAST X UNENGAGED".
Definition pairLineX2 : string :=
  "G0 X2                                             ;    0.000    0.000    5.000"
  ++ TAB ++ "   2.000    0.000    5.000 # FAST X UNENGAGED".

(** a drilling program with one move *)
Definition holesRead (p : string) : string :=
  if String.eqb p "holes.nc" then "(Drill holes)" ++ LF ++ "G1 X2 F100" else "".
Definition holesFiles : list FileObject := fst (loadFiles holesRead [] ["holes.nc"]).
Definition holesStore : Store := snd (loadFiles holesRead [] ["holes.nc"]).
Definition holesRestore : string := "G0 Z5" ++ LF ++ LF.

(** configurations: nothing set, a filter on FAST, two overrides *)
Definition noParams : Params := mkParams None [] false.
Definition filterFast : Params := mkParams None ["FAST"] true.
Definition override500 : Params := mkParams (Some (Num.Fin 5 2)) [] false.
Definition overrideTiny : Params := mkParams (Some (Num.Fin 15 (-8))) [] false.

(** * Further parts of the program *)

(** ** Command line *)

(** the value of the constant [params] before [parseArgs] *)
Definition initialParams : Params := mkParams None [] false.

(** [args[i] === '-fr' || args[i] === '--feedRate'] *)
Definition isFeedFlag (a : string) : bool :=
  String.eqb a "-fr" || String.eqb a "--feedRate".

(** The loop of [parseArgs] over the arguments from index [i] on. The
    second condition of the chain is the text ['--filter'], which is
    truthy, so every argument that is no feed-rate option takes the filter
    branch and the two branches after it are never taken. A feed-rate option
    at the end reads [parseFloat(undefined)], which is NaN; a filter option
    at the end sets [filtered] and then throws at [args[i + 1].split], which
    the [catch] of [parseArgs] ends the loop on. *)
Fixpoint parseArgsFrom (args : list string) (params : Params) : Params :=
  match args with
  | a :: rest =>
      if isFeedFlag a then
        match rest with
        | v :: rest' =>
            parseArgsFrom rest'
              (mkParams (Some (Num.parseFloat v)) (filterTags params) (filtered params))
        | [] => mkParams (Some Num.NaN) (filterTags params) (filtered params)
        end
      else
        match rest with
        | v :: rest' =>
            parseArgsFrom rest' (mkParams (fr params) (Str.splitWs v) true)
        | [] => mkParams (fr params) (filterTags params) true
        end
  | [] => params
  end.

(** [parseArgs()], for [process.argv.slice(2) = args] *)
Definition parseArgs (args : list string) : Params :=
  parseArgsFrom args initialParams.

(** ** Writing a file *)

(** [l.endsWith('\n')] *)
Fixpoint endsWithLF (l : string) : bool :=
  match l with
  | String c EmptyString => (code c =? 10)%N
  | String _ l' => endsWithLF l'
  | EmptyString => false
  end.

(** the payload of [writeFile(filePath, lines)] *)
Definition payload (lines : list string) : string :=
  Str.join "" (map (fun l => if endsWithLF l then l else l ++ LF) lines).

(** ** Output names and the merge loop *)

(** [key.split('||')[0]]: the text of [key] before its first [||] *)
Fixpoint beforeBars (key : string) : string :=
  match key with
  | String c key' =>
      if Str.startsWith "||" key then "" else String c (beforeBars key')
  | EmptyString => ""
  end.

(** [setups.get(name)] on the map of [assignSetupNumbers]: the number of
    the entry of [name]; [n] is the number of the first name of [setups] *)
Fixpoint setupNumberFrom (n : nat) (setups : list string) (name : string)
  : option nat :=
  match setups with
  | s :: rest =>
      if String.eqb s name then Some n else setupNumberFrom (S n) rest name
  | [] => None
  end.
Definition setupNumber (setups : list string) (name : string) : option nat :=
  setupNumberFrom 1 setups name.

(** the folder name of [createSetupFolder(setupObj)] *)
Definition folderName (number : nat) (name : string) : string :=
  "Setup " ++ Num.digitsOf (Z.of_nat number) ++ " - " ++ name.

(** [generateFilename(opIndex, group, toolDict)]; reading [group[0].tool]
    of an empty group throws *)
Definition generateFilename (opIndex : nat) (group : list FileObject)
    (toolDict : gmap string ToolEntry) : option string :=
  match group with
  | f :: _ =>
      let diameter := match toolDict !! tool f with
                      | Some entry => Num.toFixed 2 (diameter entry)
                      | None => "unknown"
                      end in
      let op := "Op " ++ Num.digitsOf (Z.of_nat opIndex) in
      Some (Str.padEnd 5 op ++ " - " ++ diameter ++ "mm " ++ Str.padEnd 3 (tool f)
            ++ " - " ++ Str.padStart 2 (Num.digitsOf (Z.of_nat (List.length group)))
            ++ " file(s).nc")
  | [] => None
  end.

(** what one turn of the loop of [mergeBySetupAndTool] writes: the folder
    of the setup, the file name in it and the payload *)
Record Output : Type := mkOutput {
  outFolder : string;
  outName : string;
  outText : string
}.

(** The loop of [mergeBySetupAndTool] over the groups: the files written,
    in order, and whether the loop came to its end. The loop ends with an
    exception when the setup of a key is not in [setups]
    ([createSetupFolder] reads [number] of [undefined]) or a group is
    empty. *)
Fixpoint mergeLoop (params : Params) (toolDict : gmap string ToolEntry)
    (setups : list string) (opIndex : nat)
    (groups : list (string * list FileObject)) (st : Store)
  : list Output * bool :=
  match groups with
  | (key, group) :: rest =>
      let setupName := beforeBars key in
      match setupNumber setups setupName with
      | Some number =>
          match generateFilename opIndex group toolDict with
          | Some filename =>
              let '(merged, st') := mergeGroup params group st in
              let '(outs, ok) :=
                mergeLoop params toolDict setups (S opIndex) rest st' in
              (mkOutput (folderName number setupName) filename (payload merged)
                 :: outs, ok)
          | None => ([], false)
          end
      | None => ([], false)
      end
  | [] => ([], true)
  end.

(** [mergeBySetupAndTool(fileList)] *)
Definition mergeBySetupAndTool (params : Params)
    (toolDict : gmap string ToolEntry) (fileList : list FileObject) (st : Store)
  : list Output * bool :=
  let ordered := sortByOperation fileList in
  mergeLoop params toolDict (assignSetupNumbers ordered) 1
            (groupBySetupAndTool ordered) st.

(** ** Enumerating the files, and the whole run *)

(** an entry of the working directory, with the modification time that
    [fs.stat] gives for it, in milliseconds *)
Record DirEntry : Type := mkEntry {
  entName : string;
  entIsFile : bool;
  entMtime : Z
}.

(** [name.toLowerCase().endsWith('.nc')] *)
Definition isNcName (name : string) : bool :=
  Str.startsWithCI "cn." (Str.rev name).

(** [path.resolve(cwd, name)] for the working directory and the name of
    one of its entries *)
Definition resolve (cwd name : string) : string :=
  if String.eqb cwd "/" then "/" ++ name else cwd ++ "/" ++ name.

(** [findNcFiles()]: the regular files with a name in [.nc], by ascending
    modification time *)
Definition findNcFiles (cwd : string) (entries : list DirEntry) : list string :=
  let filePaths :=
    List.filter (fun ent => entIsFile ent && isNcName (entName ent)) entries in
  let filesWithTime :=
    map (fun ent => (resolve cwd (entName ent), entMtime ent)) filePaths in
  map fst (sortBy (fun a b => snd a - snd b) filesWithTime).

(** [main()] without its log: the options, the dictionary, the files and
    the merge; both enumerations see the same directory *)
Definition main (args : list string) (cwd : string) (entries : list DirEntry)
    (readFile : string -> string) : list Output * bool :=
  let params := parseArgs args in
  let '(toolDict, defFiles) := buildToolDict readFile (findNcFiles cwd entries) in
  let ncPaths := findNcFiles cwd entries in
  let '(files, st) := loadFiles readFile defFiles ncPaths in
  mergeBySetupAndTool params toolDict files st.

(** * Further notions *)

(** ** Order on numbers *)

Definition notNaN (v : number) : Prop := Num.isNaN v = false.

(** the three components are numbers *)
Definition coordOk (c : Coord) : Prop := notNaN (x c) /\ notNaN (y c) /\ notNaN (z c).

(** [lo <= c <= hi], componentwise *)
Definition within (lo hi c : Coord) : Prop :=
  forall ax, Num.leb (coordGet ax lo) (coordGet ax c) = true
             /\ Num.leb (coordGet ax c) (coordGet ax hi) = true.

(** a tracker whose position and bounds are numbers, the position inside
    the bounds *)
Definition trackerOk (cp : CommandProcessor) : Prop :=
  coordOk (cpPos cp) /\ coordOk (cpmin cp) /\ coordOk (cpmax cp)
  /\ within (cpmin cp) (cpmax cp) (cpPos cp).

(** the bounds of the tracker of a file, when it has one, are numbers *)
Definition boundsOk (f : FileObject) : Prop :=
  match commandProcessor f with
  | Some cp => coordOk (cpmin cp) /\ coordOk (cpmax cp)
  | None => True
  end.

(** [v] is the value on axis [ax] of the bound [sel] of some member's
    tracker *)
Definition attained (sel : CommandProcessor -> Coord) (ax : Axis)
    (group : list FileObject) (v : number) : Prop :=
  exists f cp, In f group /\ commandProcessor f = Some cp
               /\ v = coordGet ax (sel cp).

(** ** First-seen order *)

(** the distinct elements of a list in the order of their first
    occurrences: the head, then the first-seen list of the rest without the
    head *)
Fixpoint firstSeen (l : list string) : list string :=
  match l with
  | k :: l' => k :: List.filter (fun k' => negb (String.eqb k' k)) (firstSeen l')
  | [] => []
  end.

(** ** Output text *)

(** the text starts, after white space, with the word [G0] (either case) *)
Definition startsRapid (s : string) : bool :=
  Str.startsWithCI "G0" (Str.dropWhile isSpace s)
  && Str.boundary true (Str.dropLen "G0" (Str.dropWhile isSpace s)).

(** no code unit of the text is [F] or [f] *)
Definition noFeedLetter (s : string) : bool := negb (Str.existsb isF s).

(** the text after the first replacement of [rapidText]: a leading [G1]
    turned into [G0] *)
Definition rapidFirst (raw : string) : string :=
  let body := Str.dropWhile isSpace raw in
  if Str.startsWithCI "G1" body && Str.boundary true (Str.dropLen "G1" body)
  then "G0" ++ Str.dropLen "G1" body else raw.

(** ** Filters *)

(** the configuration with the filter switched off, and with the filter
    tags [ts] *)
Definition noFilter (params : Params) : Params :=
  mkParams (fr params) (filterTags params) false.
Definition withFilter (ts : list string) (params : Params) : Params :=
  mkParams (fr params) ts true.

(** both ends of the line are at or above z = 0 *)
Definition unengaged (ln : Line) : bool :=
  Num.geb (z (startCoord ln)) (Num.Fin 0 0) && Num.geb (z (endCoord ln)) (Num.Fin 0 0).

(** the axis tag of a line: the letters of the axes it names, in the
    order X, Y, Z; the empty text for a line that names none *)
Definition axesTag (ln : Line) : string :=
  (if hasX ln then "X" else "") ++ (if hasY ln then "Y" else "")
  ++ (if hasZ ln then "Z" else "").

(** the tag list that tag derivation gives to a line without tags *)
Definition derivedTags (ln : Line) : Tags :=
  ((if isFastMove ln then ["FAST"] else []) ++ [axesTag ln]
   ++ (if unengaged ln then ["UNENGAGED"] else []))%list.

(** ** Command line and files *)

(** the arguments at the positions where the loop of [parseArgs] reads
    an option: the first, the third and so on *)
Fixpoint optionArgs (args : list string) : list string :=
  match args with
  | a :: _ :: rest => a :: optionArgs rest
  | [a] => [a]
  | [] => []
  end.

(** a text that is one line for the reader of the program: it has no
    line feed, and a carriage return in it is followed by a further code
    unit *)
Fixpoint oneLine (l : string) : bool :=
  match l with
  | String c l' =>
      negb (code c =? 10)%N
      && (if (code c =? 13)%N then negb (Str.isEmpty l') else true)
      && oneLine l'
  | EmptyString => true
  end.

(** no code unit of the text is the bar [|] *)
Definition noBar (s : string) : bool :=
  negb (Str.existsb (fun c => Ascii.eqb c "|") s).

(** the operation number that a file name of [generateFilename] starts
    with *)
Definition opNumberOf (name : string) : Z :=
  Num.digitsToZ 0 (Str.takeWhile isDigit (Str.dropLen "Op " name)).

(** ** The whole run *)

(** the files of a run, as [loadFiles] leaves them *)
Definition runFiles (cwd : string) (entries : list DirEntry)
    (readFile : string -> string) : list FileObject :=
  fst (loadFiles readFile (snd (buildToolDict readFile (findNcFiles cwd entries)))
                 (findNcFiles cwd entries)).

(** an entry that is enumerated: a regular file with a name in [.nc] *)
Definition isProgramEntry (ent : DirEntry) : bool :=
  entIsFile ent && isNcName (entName ent).

(** ** The blocks of a merged file *)

(** the blocks of the members of a group, one for each member in order,
    as the loop of [buildContentLines] pushes them; [fileCnt] is the count
    of statistics blocks before the first *)
Fixpoint memberBlockList (params : Params) (st : Store) (fileCnt : nat)
    (group : list FileObject) : list (list string) :=
  match group with
  | fItem :: rest =>
      fst (memberBlock params st fileCnt fItem)
      :: memberBlockList params st (snd (memberBlock params st fileCnt fItem)) rest
  | [] => []
  end.

(** the number of members with a tracker among the first [i] *)
Definition trackedBefore (i : nat) (group : list FileObject) : nat :=
  List.length (List.filter (fun f => match commandProcessor f with
                                     | Some _ => true
                                     | None => false
                                     end) (firstn i group)).

(** the number that the header prints for the member at position [i]:
    one more than the number of elements of the merged array before the
    block of that member *)
Definition blockStart (params : Params) (st : Store) (group : list FileObject)
    (i : nat) : nat :=
  (2 + List.length group + List.length (preamble params group)
   + List.length (concat (firstn i (memberBlockList params st 0 group))) + 1)%nat.

(** ** The lines of a written file *)

(** no code unit of the text is a line feed or a carriage return *)
Fixpoint plainText (s : string) : bool :=
  match s with
  | String c s' => negb (isLineTerminator c) && plainText s'
  | EmptyString => true
  end.

(** the element that opens the block of a member *)
Definition blockOpener : string := "G0 Z5" ++ LF ++ LF.

(** the elements of the arrays that the program writes: a text that is
    one line, the opener of a block, or the separator after the comments *)
Definition writable (l : string) : bool :=
  oneLine l || String.eqb l blockOpener || String.eqb l LF.

(** the lines that an element gives in the file *)
Definition writtenAs (l : string) : list string :=
  if String.eqb l blockOpener then ["G0 Z5"; ""]
  else if String.eqb l LF then [""]
  else [l].

(** a group whose paths and line texts are plain *)
Definition plainGroup (st : Store) (group : list FileObject) : Prop :=
  Forall (fun f => plainText (path f) = true
                   /\ Forall (fun ln => plainText (raw ln) = true)
                             (readArr st (lines f))) group.

(** * Further example inputs *)

(** a move, a spindle line, a blank line, a move *)
Definition spindleText : string :=
  "G1 X10 Z-1" ++ LF ++ "M3 S1000" ++ LF ++ "  " ++ LF ++ "G1 Y5".

(** two programs of one setup with different tools *)
Definition toolsTwoRead (p : string) : string :=
  if String.eqb p "a.nc" then "(face SETUP=top)" ++ LF ++ "T1 M6" ++ LF ++ "G1 X1"
  else if String.eqb p "b.nc" then "(bore SETUP=top)" ++ LF ++ "T2 M6" ++ LF ++ "G1 X2"
  else "".
Definition toolsTwoFiles : list FileObject :=
  fst (loadFiles toolsTwoRead [] ["a.nc"; "b.nc"]).
Definition toolsTwoStore : Store :=
  snd (loadFiles toolsTwoRead [] ["a.nc"; "b.nc"]).

(** a directory with the two programs, a folder and a file of another
    kind; the program [b.nc] is the older one *)
Definition shopEntries : list DirEntry :=
  [ mkEntry "a.nc" true 2000; mkEntry "Setup 1 - top" false 3000;
    mkEntry "notes.txt" true 1000; mkEntry "B.NC" true 1000 ].
Definition shopRead (p : string) : string :=
  if String.eqb p "/shop/a.nc" then toolsTwoRead "a.nc"
  else if String.eqb p "/shop/B.NC" then toolsTwoRead "b.nc"
  else "".

(** * Properties *)

(** ** Lines as [new Line] makes them *)

Lemma pristine_newLine r : pristine (newLine r).
Proof. exists r, false. reflexivity. Qed.

Lemma flagFirst_pristine ls :
  Forall pristine ls -> Forall pristine (flagFirst ls).
Proof.
  induction 1 as [|ln ls Hln Hls IH]; simpl; [constructor|].
  destruct (isMotionStart (raw ln)).
  - constructor; [|assumption].
    destruct Hln as (r & b & ->). exists r, true. reflexivity.
  - constructor; assumption.
Qed.

Lemma loadFileLines_pristine content : Forall pristine (loadFileLines content).
Proof.
  unfold loadFileLines. apply flagFirst_pristine.
  induction (Str.splitLines content); simpl; constructor; auto using pristine_newLine.
Qed.

Lemma flagFirst_raw ls : map raw (flagFirst ls) = map raw ls.
Proof.
  induction ls as [|ln ls IH]; simpl; [reflexivity|].
  destruct (isMotionStart (raw ln)); simpl; [reflexivity|]. now rewrite IH.
Qed.

Lemma loadFileLines_raw content :
  map raw (loadFileLines content) = Str.splitLines content.
Proof.
  unfold loadFileLines. rewrite flagFirst_raw, map_map. simpl.
  apply map_id.
Qed.

(** ** The store *)

Lemma readArr_alloc v st : readArr (snd (alloc v st)) (fst (alloc v st)) = v.
Proof. unfold readArr, alloc; simpl. now rewrite lookup_insert_eq. Qed.

Lemma readArr_writeArr l v st : readArr (writeArr l v st) l = v.
Proof. unfold readArr, writeArr; simpl. now rewrite lookup_insert_eq. Qed.

Lemma readArr_writeArr_ne l l' v st :
  l <> l' -> readArr (writeArr l v st) l' = readArr st l'.
Proof. intros H. unfold readArr, writeArr; simpl. now rewrite lookup_insert_ne. Qed.

(** the line array of a loaded file: tracked when fast moves are allowed,
    as built otherwise *)
Lemma loadFile_lines p content st :
  let fo := fst (loadFile p content st) in
  let st' := snd (loadFile p content st) in
  readArr st' (lines fo) =
    if isDrilling fo then loadFileLines content
    else snd (trackLines newCommandProcessor (loadFileLines content)).
Proof.
  unfold loadFile. simpl.
  destruct (extractIsDrilling (loadFileLines content)) eqn:Hd; simpl.
  - rewrite Hd. unfold readArr; simpl. now rewrite lookup_insert_eq.
  - destruct (trackLines newCommandProcessor (loadFileLines content)) as [cp tracked].
    simpl. rewrite Hd. unfold readArr; simpl. now rewrite lookup_insert_eq.
Qed.

Lemma loadFile_isDrilling p content st :
  isDrilling (fst (loadFile p content st)) = extractIsDrilling (loadFileLines content)
  /\ allowFastMoves (fst (loadFile p content st))
     = negb (extractIsDrilling (loadFileLines content)).
Proof.
  unfold loadFile. simpl.
  destruct (extractIsDrilling (loadFileLines content)) eqn:Hd; simpl.
  - now rewrite Hd.
  - destruct (trackLines _ _). simpl. now rewrite Hd.
Qed.

(** ** The position tracker *)

Lemma applyToken_axis a pos t :
  coordGet a (applyToken pos t) = default (coordGet a pos) (tokenValue a t).
Proof.
  unfold applyToken, tokenValue.
  destruct (tokenAxis t) as [b|]; [|reflexivity].
  destruct (Num.isNaN (Num.parseFloat (slice1 t))); simpl.
  - rewrite andb_false_r. reflexivity.
  - destruct a, b; reflexivity.
Qed.

Lemma last_cons_default {A : Type} (l : list A) (v d : A) :
  List.last (v :: l) d = List.last l v.
Proof.
  revert v d. induction l as [|w l IH]; intros v d; [reflexivity|].
  change (List.last (w :: l) d = List.last (w :: l) v).
  now rewrite (IH w d), (IH w v).
Qed.

Lemma fold_applyToken_axis a ts pos :
  coordGet a (fold_left applyToken ts pos)
  = List.last (omap (tokenValue a) ts) (coordGet a pos).
Proof.
  revert pos. induction ts as [|t ts IH]; intros pos; [reflexivity|].
  cbn [fold_left]. rewrite IH, applyToken_axis.
  change (omap (tokenValue a) (t :: ts))
    with (match tokenValue a t with
          | Some v => v :: omap (tokenValue a) ts
          | None => omap (tokenValue a) ts
          end).
  destruct (tokenValue a t) as [v|]; simpl default; [|reflexivity].
  now rewrite last_cons_default.
Qed.

Lemma processLine_start cp ln : fst (snd (processLine cp ln)) = cpPos cp.
Proof. reflexivity. Qed.

Lemma processLine_end cp ln :
  snd (snd (processLine cp ln))
  = fold_left applyToken (lineTokens (raw ln)) (cpPos cp)
  /\ cpPos (fst (processLine cp ln)) = snd (snd (processLine cp ln)).
Proof.
  unfold processLine; simpl. split; [reflexivity|].
  unfold cpPos; simpl. now destruct (fold_left _ _ _).
Qed.

Lemma classify_fields s e ln :
  raw (classify s e ln) = raw ln
  /\ startCoord (classify s e ln) = startCoord ln
  /\ endCoord (classify s e ln) = endCoord ln
  /\ tags (classify s e ln) = tags ln
  /\ ignored (classify s e ln) = ignored ln
  /\ isComment (classify s e ln) = isComment ln.
Proof. unfold classify. repeat match goal with |- context[if ?c then _ else _] => destruct c end; simpl; auto 10. Qed.

Lemma trackLines_cons cp ln ls :
  trackLines cp (ln :: ls)
  = (fst (trackLines (fst (processLine cp ln)) ls),
     classify (cpPos cp) (snd (snd (processLine cp ln)))
              (setCoords (cpPos cp) (snd (snd (processLine cp ln))) ln)
     :: snd (trackLines (fst (processLine cp ln)) ls)).
Proof.
  cbn [trackLines].
  destruct (processLine cp ln) as [cp1 [s e]] eqn:Hp.
  pose proof (processLine_start cp ln) as Hs. rewrite Hp in Hs. simpl in Hs.
  subst s. cbn [fst snd]. now destruct (trackLines cp1 ls).
Qed.

Lemma trackLines_chained ls cp :
  chained (cpPos cp) (snd (trackLines cp ls)).
Proof.
  revert cp. induction ls as [|ln ls IH]; intros cp; [exact I|].
  rewrite trackLines_cons. cbn [snd chained].
  destruct (processLine_end cp ln) as [He Hc].
  set (e := snd (snd (processLine cp ln))) in *.
  destruct (classify_fields (cpPos cp) e (setCoords (cpPos cp) e ln))
    as (Hr & Hsc & Hec & _).
  rewrite Hr, Hsc, Hec. cbn [setCoords raw startCoord endCoord].
  split; [reflexivity|]. split; [exact He|]. rewrite <- Hc. apply IH.
Qed.

Lemma chained_lookup ls c i a b :
  chained c ls -> ls !! i = Some a -> ls !! S i = Some b ->
  startCoord b = endCoord a.
Proof.
  revert c i. induction ls as [|ln ls IH]; intros c i Hch Ha Hb; [discriminate|].
  destruct Hch as (_ & _ & Hch).
  destruct i as [|i]; simpl in *.
  - injection Ha as <-. destruct ls as [|ln2 ls]; [discriminate|].
    simpl in Hb. injection Hb as <-. now destruct Hch.
  - eapply IH; eauto.
Qed.

Lemma chained_In ls c ln :
  chained c ls -> In ln ls ->
  endCoord ln = fold_left applyToken (lineTokens (raw ln)) (startCoord ln).
Proof.
  revert c. induction ls as [|l ls IH]; intros c Hch Hin; [destruct Hin|].
  destruct Hch as (Hs & He & Hch). destruct Hin as [<-|Hin].
  - now rewrite Hs.
  - eapply IH; eauto.
Qed.

(** C1. In a file that is not a drilling file the tracker starts at
    (0, 0, 5), every line starts where the line before it ended, and on
    every line each axis ends at the value of the last token of that axis
    whose remainder parsed as a number; an axis with no such token (none at
    all, or only tokens whose remainder is not a number) keeps the value it
    had before the line. *)
Theorem position_tracking (p content : string) (st : Store) :
  let fo := fst (loadFile p content st) in
  let ls := readArr (snd (loadFile p content st)) (lines fo) in
  allowFastMoves fo = true ->
  (forall a, ls !! 0%nat = Some a -> startCoord a = cpPos newCommandProcessor)
  /\ (forall i a b, ls !! i = Some a -> ls !! S i = Some b ->
        startCoord b = endCoord a)
  /\ (forall ln ax, In ln ls ->
        coordGet ax (endCoord ln)
        = List.last (axisValues ax (raw ln)) (coordGet ax (startCoord ln)))
  /\ (forall ln ax, In ln ls -> axisValues ax (raw ln) = [] ->
        coordGet ax (endCoord ln) = coordGet ax (startCoord ln)).
Proof.
  intros fo ls Hallow.
  pose proof (loadFile_lines p content st) as Hl.
  pose proof (loadFile_isDrilling p content st) as [Hd Ha].
  fold fo in Hd, Ha. simpl in Hl. fold fo in Hl. fold ls in Hl.
  rewrite Hallow in Ha. rewrite Hd in Hl.
  destruct (extractIsDrilling (loadFileLines content)); [discriminate|].
  pose proof (trackLines_chained (loadFileLines content) newCommandProcessor) as Hch.
  rewrite <- Hl in Hch.
  assert (Hlast : forall ln ax, In ln ls ->
            coordGet ax (endCoord ln)
            = List.last (axisValues ax (raw ln)) (coordGet ax (startCoord ln))).
  { intros ln ax Hin. rewrite (chained_In _ _ _ Hch Hin) at 1.
    apply fold_applyToken_axis. }
  repeat split.
  - intros a H0. destruct ls as [|l0 ls0]; [discriminate|].
    injection H0 as <-. now destruct Hch.
  - intros i a b. eapply chained_lookup; eauto.
  - exact Hlast.
  - intros ln ax Hin Hnone. rewrite (Hlast ln ax Hin), Hnone. reflexivity.
Qed.

Lemma position_tracking_witness :
  let fo := fst (loadFile "demo.nc" demoText emptyStore) in
  let ls := readArr (snd (loadFile "demo.nc" demoText emptyStore)) (lines fo) in
  allowFastMoves fo = true
  /\ (forall i a b, ls !! i = Some a -> ls !! S i = Some b ->
        startCoord b = endCoord a).
Proof.
  split; [reflexivity|].
  apply (position_tracking "demo.nc" demoText emptyStore). reflexivity.
Defined.

(** ** The fast-move classification *)

Lemma trackLines_In ls cp ln :
  In ln (snd (trackLines cp ls)) ->
  exists ln0 s e, In ln0 ls /\ ln = classify s e (setCoords s e ln0).
Proof.
  revert cp. induction ls as [|l ls IH]; intros cp Hin; [destruct Hin|].
  rewrite trackLines_cons in Hin. cbn [snd] in Hin.
  destruct Hin as [<-|Hin].
  - eexists l, _, _. split; [now left|reflexivity].
  - destruct (IH _ Hin) as (ln0 & s & e & H0 & ->).
    exists ln0, s, e. split; [now right|reflexivity].
Qed.

Lemma classify_recorded s e ln0 :
  pristine ln0 -> recorded (classify s e (setCoords s e ln0)).
Proof.
  intros (r & b & ->).
  set (ln1 := setCoords s e (setIsFirst b (newLine r))).
  destruct (classify_fields s e ln1) as (Hr & Hs & He & _).
  unfold recorded, verdict. rewrite Hr, Hs, He.
  change (raw ln1) with r. change (startCoord ln1) with s.
  change (endCoord ln1) with e.
  unfold classify.
  change (hasX ln1) with (hasAxisLetter AxX r).
  change (hasY ln1) with (hasAxisLetter AxY r).
  change (hasZ ln1) with (hasAxisLetter AxZ r).
  change (fastMoveReason ln1) with "".
  destruct (hasAxisLetter AxX r || hasAxisLetter AxY r);
    destruct (Num.geb (z s) (Num.Fin 0 0));
    destruct (Num.geb (z e) (Num.Fin 0 0));
    destruct (hasAxisLetter AxZ r);
    destruct (Num.gtb (z e) (z s));
    cbn; repeat split; discriminate.
Qed.

(** C2. Every line of a file that is not a drilling file carries the
    classification of the policy: FAST with a reason text under rule 1 (X
    and/or Y on the line, start and end at z >= 0); otherwise FAST with no
    reason text under rule 2 (only Z, strictly upward, end at z >= 0);
    otherwise NOT FAST. For "G0 Z5", "G1 X10 Y10", "G1 Z-2", "G1 Z5" from
    z = 5 the last three lines come out FAST by rule 1, NOT FAST, FAST by
    rule 2. *)
Theorem fast_move_classification (p content : string) (st : Store) :
  let fo := fst (loadFile p content st) in
  let ls := readArr (snd (loadFile p content st)) (lines fo) in
  allowFastMoves fo = true ->
  (forall ln, In ln ls -> recorded ln)
  /\ map (fun ln => (raw ln, z (startCoord ln), verdict ln, isFastMove ln)) demoLines
     = [ ("G0 Z5", Num.Fin 5 0, NotFast, false);
         ("G1 X10 Y10", Num.Fin 5 0, FastRule1, true);
         ("G1 Z-2", Num.Fin 5 0, NotFast, false);
         ("G1 Z5", Num.Fin (-2) 0, FastRule2, true) ].
Proof.
  intros fo ls Hallow. split; [|vm_compute; reflexivity].
  pose proof (loadFile_lines p content st) as Hl.
  pose proof (loadFile_isDrilling p content st) as [Hd Ha].
  fold fo in Hd, Ha. simpl in Hl. fold fo in Hl. fold ls in Hl.
  rewrite Hallow in Ha. rewrite Hd in Hl.
  destruct (extractIsDrilling (loadFileLines content)); [discriminate|].
  intros ln Hin. rewrite Hl in Hin.
  destruct (trackLines_In _ _ _ Hin) as (ln0 & s & e & H0 & ->).
  apply classify_recorded.
  pose proof (loadFileLines_pristine content) as Hp.
  rewrite List.Forall_forall in Hp. now apply Hp.
Qed.

Lemma fast_move_classification_witness :
  allowFastMoves (fst (loadFile "demo.nc" demoText emptyStore)) = true
  /\ forall ln, In ln demoLines -> recorded ln.
Proof.
  split; [reflexivity|].
  apply (fast_move_classification "demo.nc" demoText emptyStore). reflexivity.
Defined.

(** ** Tagging a group *)

Lemma pushAll_pushAll l a b st :
  pushAll l b (pushAll l a st) = pushAll l (a ++ b)%list st.
Proof.
  unfold pushAll. rewrite readArr_writeArr. unfold writeArr; simpl.
  rewrite insert_insert_eq. now rewrite <- app_assoc.
Qed.

Lemma pushAll_nil l st :
  is_Some (cells st !! l) -> pushAll l [] st = st.
Proof.
  intros [v Hv]. unfold pushAll, writeArr, readArr. rewrite Hv; simpl.
  rewrite app_nil_r, insert_id by assumption. now destruct st.
Qed.

Lemma readArr_pushAll_ne l l' v st :
  l <> l' -> readArr (pushAll l v st) l' = readArr st l'.
Proof. intros H. unfold pushAll. now apply readArr_writeArr_ne. Qed.

Lemma readArr_pushAll l v st :
  readArr (pushAll l v st) l = (readArr st l ++ v)%list.
Proof. unfold pushAll. apply readArr_writeArr. Qed.

(** the loop pushes, file after file, onto the one array, and leaves every
    file holding that array *)
Lemma addTagsLoop_spec output group st :
  Forall (fun f => lines f <> output) group ->
  is_Some (cells st !! output) ->
  addTagsLoop output group st
  = (map (setLines output) group,
     pushAll output (concat (map (pushedBy st) group)) st).
Proof.
  revert st. induction group as [|f group IH]; intros st Hne Hsome.
  - simpl. now rewrite pushAll_nil.
  - inversion Hne as [|? ? Hf Hrest]; subst. cbn [addTagsLoop].
    rewrite IH; [|assumption|].
    + cbn [map concat]. rewrite pushAll_pushAll. f_equal. f_equal. f_equal.
      fold (pushedBy st f).
      f_equal. clear -Hrest Hf.
      induction Hrest as [|g group Hg Hrest IHr]; [reflexivity|].
      cbn [map]. f_equal; [|exact IHr].
      unfold pushedBy. rewrite readArr_pushAll_ne by congruence. reflexivity.
    + unfold pushAll, writeArr; simpl. rewrite lookup_insert_eq. eauto.
Qed.

(** [addTagsToLines] leaves every member of the group holding one and the
    same array: the concatenation of what all the members pushed *)
Lemma addTagsToLines_spec group st :
  Forall (wfFile st) group ->
  fst (addTagsToLines group st) = map (setLines (next st)) group
  /\ readArr (snd (addTagsToLines group st)) (next st)
     = concat (map (pushedBy st) group).
Proof.
  intros Hwf. unfold addTagsToLines. cbn [alloc].
  set (st0 := mkStore (<[next st:=[]]> (cells st)) (S (next st))).
  assert (Hne : Forall (fun f => lines f <> next st) group).
  { eapply List.Forall_impl; [|exact Hwf]. unfold wfFile. intros f Hf. lia. }
  rewrite addTagsLoop_spec; [|assumption|].
  - cbn [fst snd]. split; [reflexivity|].
    rewrite readArr_pushAll.
    replace (readArr st0 (next st)) with (@nil Line)
      by (unfold readArr, st0; simpl; now rewrite lookup_insert_eq).
    cbn [app]. f_equal. clear Hwf.
    induction Hne as [|f group Hf Hrest IH]; [reflexivity|].
    cbn [map]. f_equal; [|exact IH].
    unfold pushedBy, readArr, st0; simpl. now rewrite lookup_insert_ne by congruence.
  - unfold st0; simpl. rewrite lookup_insert_eq. eauto.
Qed.

Lemma addTagsToLines_member group st f' :
  Forall (wfFile st) group ->
  In f' (fst (addTagsToLines group st)) ->
  readArr (snd (addTagsToLines group st)) (lines f')
  = concat (map (pushedBy st) group).
Proof.
  intros Hwf Hin. destruct (addTagsToLines_spec group st Hwf) as [Hg Hr].
  rewrite Hg in Hin. apply in_map_iff in Hin as (f & <- & _).
  exact Hr.
Qed.

(** ** The modal reset *)

Lemma parseTags_fields ln :
  raw (parseTags ln) = raw ln
  /\ isFastMove (parseTags ln) = isFastMove ln
  /\ startCoord (parseTags ln) = startCoord ln
  /\ endCoord (parseTags ln) = endCoord ln
  /\ ignored (parseTags ln) = ignored ln
  /\ isComment (parseTags ln) = isComment ln.
Proof. unfold parseTags; simpl; auto 10. Qed.

Lemma resetLine_fields ln :
  raw (resetLine ln) = "G1"
  /\ tags (resetLine ln) = ["RESET-FR"]
  /\ startCoord (resetLine ln) = startCoord ln
  /\ endCoord (resetLine ln) = endCoord ln
  /\ isFastMove (resetLine ln) = false
  /\ isContent (resetLine ln) = true
  /\ isBlank (resetLine ln) = false.
Proof. unfold resetLine, clone; simpl. repeat split; reflexivity. Qed.

Lemma tagLines_insertResets ls lastWasFast prev :
  lastWasFast = match prev with Some p => isFastMove p | None => false end ->
  tagLines true lastWasFast ls = insertResets prev (map parseTags (retained ls)).
Proof.
  revert lastWasFast prev. induction ls as [|ln ls IH]; intros lw prev Hlw;
    [reflexivity|].
  cbn [tagLines retained List.filter].
  destruct (isContent ln); cbn [andb]; [|now apply IH].
  destruct (isBlank ln); cbn [negb]; [now apply IH|].
  cbn [map insertResets]. fold (retained ls).
  destruct (parseTags_fields ln) as (_ & Hfast & _).
  unfold isTransition.
  destruct (isFastMove (parseTags ln)) eqn:Hf.
  - replace (match prev with Some p => isFastMove p && negb true | None => false end)
      with false by (destruct prev as [p|]; [now rewrite andb_false_r|reflexivity]).
    f_equal. apply IH. now rewrite Hf.
  - subst lw.
    destruct prev as [p|]; [destruct (isFastMove p)|]; cbn [andb negb];
      repeat f_equal; apply IH; now rewrite Hf.
Qed.

Lemma tagLines_plain ls lastWasFast :
  tagLines false lastWasFast ls = map parseTags (retained ls).
Proof.
  induction ls as [|ln ls IH]; [reflexivity|].
  cbn [tagLines retained List.filter].
  destruct (isContent ln); cbn [andb]; [|exact IH].
  destruct (isBlank ln); cbn [negb]; [exact IH|].
  cbn [map]. now rewrite IH.
Qed.

(** the tags that derivation gives to a line that had none *)
Lemma parseTags_untagged ln :
  untagged ln ->
  hasTag "RESET-FR" (tags (parseTags ln)) = false
  /\ hasTag "FAST" (tags (parseTags ln)) = isFastMove ln.
Proof.
  unfold untagged, parseTags. intros ->. cbn [tags setTags].
  destruct (isFastMove ln), (hasX ln), (hasY ln), (hasZ ln),
    (Num.geb (z (startCoord ln)) (Num.Fin 0 0)),
    (Num.geb (z (endCoord ln)) (Num.Fin 0 0)); split; reflexivity.
Qed.

Lemma tagLines_In allow lastWasFast ls ln :
  In ln (tagLines allow lastWasFast ls) ->
  exists l0, In l0 ls
    /\ (ln = parseTags l0 \/ allow = true /\ ln = resetLine (parseTags l0)).
Proof.
  revert lastWasFast. induction ls as [|l ls IH]; intros lw Hin; [destruct Hin|].
  cbn [tagLines] in Hin.
  assert (Hrec : forall lw', In ln (tagLines allow lw' ls) ->
            exists l0, In l0 (l :: ls)
              /\ (ln = parseTags l0 \/ allow = true /\ ln = resetLine (parseTags l0))).
  { intros lw' H. destruct (IH _ H) as (l0 & H0 & Hor).
    exists l0. split; [now right|exact Hor]. }
  destruct (isContent l); [|eauto].
  destruct (isBlank l); [eauto|].
  destruct allow.
  - destruct (isFastMove (parseTags l)).
    + destruct Hin as [<-|Hin]; [|eauto]. exists l. split; [now left|now left].
    + destruct lw.
      * destruct Hin as [<-|[<-|Hin]]; [| |eauto].
        -- exists l. split; [now left|right; now split].
        -- exists l. split; [now left|now left].
      * destruct Hin as [<-|Hin]; [|eauto]. exists l. split; [now left|now left].
  - destruct Hin as [<-|Hin]; [|eauto]. exists l. split; [now left|now left].
Qed.

Lemma filter_resets prev rs :
  (forall r, In r rs -> hasTag "RESET-FR" (tags r) = false) ->
  List.filter (fun l => negb (hasTag "RESET-FR" (tags l))) (insertResets prev rs) = rs.
Proof.
  revert prev. induction rs as [|r rs IH]; intros prev Hrs; [reflexivity|].
  assert (Hr : hasTag "RESET-FR" (tags r) = false) by (apply Hrs; now left).
  assert (Htl : List.filter (fun l => negb (hasTag "RESET-FR" (tags l)))
                  (r :: insertResets (Some r) rs) = r :: rs).
  { cbn [List.filter]. rewrite Hr. cbn [negb]. f_equal. apply IH.
    intros r' Hr'. apply Hrs. now right. }
  cbn [insertResets]. destruct (isTransition prev r); [|exact Htl].
  change (resetLine r :: r :: insertResets (Some r) rs)
    with ([resetLine r] ++ r :: insertResets (Some r) rs)%list.
  rewrite List.filter_app, Htl. reflexivity.
Qed.

Lemma insertResets_cons prev r rs :
  insertResets prev (r :: rs)
  = if isTransition prev r
    then resetLine r :: r :: insertResets (Some r) rs
    else r :: insertResets (Some r) rs.
Proof. reflexivity. Qed.

Lemma resetLine_isReset r : isReset (resetLine r) = true.
Proof. reflexivity. Qed.

Lemma resetsInPlace_from p rs :
  isReset p = false ->
  (forall r, In r rs -> isReset r = false) ->
  resetsInPlace (p :: insertResets (Some p) rs).
Proof.
  revert p. induction rs as [|r rs IH]; intros p Hp Hrs.
  - split.
    + intros [|i] b Hb Hreset; [|discriminate].
      injection Hb as <-. congruence.
    + intros [|i] a b _ Hb; discriminate.
  - assert (Hr : isReset r = false) by (apply Hrs; now left).
    assert (Hrs' : forall r', In r' rs -> isReset r' = false)
      by (intros r' H; apply Hrs; now right).
    destruct (IH r Hr Hrs') as [IHa IHb].
    rewrite insertResets_cons. unfold isTransition.
    destruct (isFastMove p && negb (isFastMove r)) eqn:Htr.
    + apply andb_true_iff in Htr as [Hfp Hfr]. apply negb_true_iff in Hfr.
      split.
      * intros [|[|i]] b Hb Hreset.
        -- injection Hb as <-. congruence.
        -- injection Hb as <-. exists 0%nat, p, r. repeat split; auto.
        -- destruct (IHa i b Hb Hreset) as (j & a & c & -> & Ha & H1 & H2 & Hc & H3 & H4 & H5).
           exists (S (S j)), a, c. repeat split; auto.
      * intros [|[|i]] a b Ha Hb Hna Hnb Hfa.
        -- injection Hb as <-. discriminate.
        -- injection Ha as <-. discriminate.
        -- exact (IHb i a b Ha Hb Hna Hnb Hfa).
    + split.
      * intros [|i] b Hb Hreset.
        -- injection Hb as <-. congruence.
        -- destruct (IHa i b Hb Hreset) as (j & a & c & -> & Ha & H1 & H2 & Hc & H3 & H4 & H5).
           exists (S j), a, c. repeat split; auto.
      * intros [|i] a b Ha Hb Hna Hnb Hfa.
        -- injection Ha as <-. injection Hb as <-.
           rewrite Hfa in Htr. cbn [andb] in Htr. now apply negb_false_iff in Htr.
        -- exact (IHb i a b Ha Hb Hna Hnb Hfa).
Qed.

Lemma resetsInPlace_insertResets rs :
  (forall r, In r rs -> isReset r = false) ->
  resetsInPlace (insertResets None rs).
Proof.
  destruct rs as [|r rs]; intros Hrs.
  - split; intros i; intros; discriminate.
  - rewrite insertResets_cons. cbn [isTransition].
    apply resetsInPlace_from; [apply Hrs; now left|].
    intros r' H. apply Hrs. now right.
Qed.

(** ** Files as [loadFiles] leaves them *)

Lemma trackLines_untagged ls cp :
  Forall untagged ls -> Forall untagged (snd (trackLines cp ls)).
Proof.
  intros H. apply List.Forall_forall. intros ln Hin.
  destruct (trackLines_In _ _ _ Hin) as (ln0 & s & e & H0 & ->).
  rewrite List.Forall_forall in H. specialize (H _ H0).
  unfold untagged in *.
  destruct (classify_fields s e (setCoords s e ln0)) as (_ & _ & _ & Ht & _).
  rewrite Ht. exact H.
Qed.

Lemma pristine_untagged ln : pristine ln -> untagged ln.
Proof. now intros (r & b & ->). Qed.

Lemma loadFile_untagged p content st :
  Forall untagged (readArr (snd (loadFile p content st))
                           (lines (fst (loadFile p content st)))).
Proof.
  pose proof (loadFile_lines p content st) as Hl. simpl in Hl. rewrite Hl.
  assert (Hu : Forall untagged (loadFileLines content)).
  { eapply List.Forall_impl; [|apply loadFileLines_pristine].
    apply pristine_untagged. }
  destruct (isDrilling _); [exact Hu|now apply trackLines_untagged].
Qed.

Lemma loadFile_store p content st :
  lines (fst (loadFile p content st)) = next st
  /\ next (snd (loadFile p content st)) = S (next st)
  /\ forall l, l <> next st ->
       readArr (snd (loadFile p content st)) l = readArr st l.
Proof.
  unfold loadFile. cbn [alloc].
  destruct (allowFastMoves _) eqn:Ha.
  - destruct (trackLines _ _) as [cp tracked]. cbn.
    repeat split. intros l Hl. unfold readArr; simpl.
    now rewrite !lookup_insert_ne by congruence.
  - cbn. repeat split. intros l Hl. unfold readArr; simpl.
    now rewrite lookup_insert_ne by congruence.
Qed.

Lemma loadFilesFrom_storeOk readFile defFiles paths files st :
  storeOk st files ->
  storeOk (snd (loadFilesFrom readFile defFiles paths files st))
          (fst (loadFilesFrom readFile defFiles paths files st)).
Proof.
  revert files st. induction paths as [|p paths IH]; intros files st Hok;
    [exact Hok|].
  cbn [loadFilesFrom]. destruct (includes defFiles p); [now apply IH|].
  destruct (loadFile p (readFile p) st) as [fo st'] eqn:Hload.
  apply IH.
  destruct (loadFile_store p (readFile p) st) as (Hl & Hn & Hkeep).
  pose proof (loadFile_untagged p (readFile p) st) as Hu.
  rewrite Hload in Hl, Hn, Hkeep, Hu. cbn [fst snd] in *.
  unfold storeOk. apply Forall_app. split.
  - eapply List.Forall_impl; [|exact Hok]. cbn beta.
    intros f [Hwf Hun]. unfold wfFile in *. split; [lia|].
    rewrite Hkeep by lia. exact Hun.
  - constructor; [|constructor]. split; [unfold wfFile; lia|exact Hu].
Qed.

Lemma loadFiles_storeOk readFile defFiles paths :
  storeOk (snd (loadFiles readFile defFiles paths))
          (fst (loadFiles readFile defFiles paths)).
Proof. apply loadFilesFrom_storeOk. constructor. Qed.

(** C3. Tagging a group gives every member one array, which holds what
    each member pushes, in the order of the group; for a group of one file
    that is not a drilling file, the array of the member is the retained
    lines of the file with the reset lines. In a file that is not a
    drilling file, the retained lines (ignorable, comment and blank lines
    left out) are pushed in order, and exactly one line tagged RESET-FR is
    put immediately before each NOT-FAST retained line whose retained
    predecessor is FAST, and nowhere else: none between two lines of one
    classification, none before a FAST line that follows a NOT-FAST one,
    none before the first retained line. The reset line has the text "G1"
    and the coordinates of the line it precedes; taking the lines tagged
    RESET-FR away leaves the retained lines; in what is pushed, each reset
    line stands between a FAST line and the NOT-FAST line it was cloned
    from, and no FAST line is directly followed by a NOT-FAST line of the
    file. *)
Theorem modal_reset_insertion (group : list FileObject) (st : Store) :
  storeOk st group ->
  fst (addTagsToLines group st) = map (setLines (next st)) group
  /\ readArr (snd (addTagsToLines group st)) (next st)
     = concat (map (pushedBy st) group)
  /\ (forall f', In f' (fst (addTagsToLines group st)) ->
        readArr (snd (addTagsToLines group st)) (lines f')
        = concat (map (pushedBy st) group))
  /\ (forall f, In f group ->
        exists f' before after,
          In f' (fst (addTagsToLines group st))
          /\ path f' = path f /\ allowFastMoves f' = allowFastMoves f
          /\ readArr (snd (addTagsToLines group st)) (lines f')
             = (before ++ pushedBy st f ++ after)%list)
  /\ (forall f, group = [f] -> allowFastMoves f = true ->
        exists f', fst (addTagsToLines group st) = [f']
          /\ path f' = path f
          /\ readArr (snd (addTagsToLines group st)) (lines f')
             = insertResets None (map parseTags (retained (readArr st (lines f)))))
  /\ (forall f, In f group -> allowFastMoves f = true ->
        let rs := map parseTags (retained (readArr st (lines f))) in
        pushedBy st f = insertResets None rs
        /\ (forall r, In r rs -> isReset r = false)
        /\ List.filter (fun l => negb (isReset l)) (pushedBy st f) = rs
        /\ resetsInPlace (pushedBy st f))
  /\ (forall r, raw (resetLine r) = "G1"
        /\ tags (resetLine r) = ["RESET-FR"]
        /\ startCoord (resetLine r) = startCoord r
        /\ endCoord (resetLine r) = endCoord r).
Proof.
  intros Hok.
  assert (Hwf : Forall (wfFile st) group).
  { eapply List.Forall_impl; [|exact Hok]. now intros f [H _]. }
  destruct (addTagsToLines_spec group st Hwf) as [Hmembers Harr].
  assert (Hpush : forall f, In f group -> allowFastMoves f = true ->
            pushedBy st f
            = insertResets None (map parseTags (retained (readArr st (lines f))))).
  { intros f Hin Hallow. unfold pushedBy. rewrite Hallow.
    now apply tagLines_insertResets. }
  assert (Hmem : forall f', In f' (fst (addTagsToLines group st)) ->
            readArr (snd (addTagsToLines group st)) (lines f')
            = concat (map (pushedBy st) group)).
  { intros f' Hin. now apply addTagsToLines_member. }
  split; [exact Hmembers|]. split; [exact Harr|]. split; [exact Hmem|].
  split; [|split; [|split]].
  - intros f Hin. apply in_split in Hin as (g1 & g2 & Hg).
    exists (setLines (next st) f), (concat (map (pushedBy st) g1)),
           (concat (map (pushedBy st) g2)).
    assert (Hin' : In (setLines (next st) f) (fst (addTagsToLines group st))).
    { rewrite Hmembers, Hg, map_app. apply in_elt. }
    split; [exact Hin'|]. split; [reflexivity|]. split; [reflexivity|].
    rewrite (Hmem _ Hin'), Hg, map_app, concat_app. reflexivity.
  - intros f Hg Hallow. exists (setLines (next st) f).
    assert (Hin : In f group) by (rewrite Hg; now left).
    assert (Hin' : In (setLines (next st) f) (fst (addTagsToLines group st))).
    { rewrite Hmembers. now apply in_map. }
    split; [rewrite Hmembers, Hg; reflexivity|]. split; [reflexivity|].
    rewrite (Hmem _ Hin'), Hg. cbn [map concat]. rewrite app_nil_r.
    apply Hpush; [exact Hin|exact Hallow].
  - intros f Hin Hallow rs.
    unfold storeOk in Hok. rewrite List.Forall_forall in Hok.
    destruct (Hok f Hin) as [_ Hun].
    assert (Hrs : forall r, In r rs -> hasTag "RESET-FR" (tags r) = false).
    { intros r Hr. apply in_map_iff in Hr as (l0 & <- & Hl0).
      apply List.filter_In in Hl0 as [Hl0 _].
      rewrite List.Forall_forall in Hun.
      now apply parseTags_untagged, Hun. }
    split; [now apply Hpush|]. split; [exact Hrs|].
    rewrite (Hpush f Hin Hallow). split; [now apply filter_resets|].
    now apply resetsInPlace_insertResets.
  - intros r. destruct (resetLine_fields r) as (H1 & H2 & H3 & H4 & _). auto.
Qed.

Lemma modal_reset_insertion_witness :
  storeOk demoStore demoFiles
  /\ map path (fst (addTagsToLines demoFiles demoStore)) = ["demo.nc"]
  /\ forall f', In f' (fst (addTagsToLines demoFiles demoStore)) ->
       map (fun ln => (raw ln, tags ln))
           (readArr (snd (addTagsToLines demoFiles demoStore)) (lines f'))
       = [ ("G0 Z5", ["Z"; "UNENGAGED"]);
           ("G1 X10 Y10", ["FAST"; "XY"; "UNENGAGED"]);
           ("G1", ["RESET-FR"]);
           ("G1 Z-2", ["Z"]);
           ("G1 Z5", ["FAST"; "Z"]) ].
Proof.
  assert (Hok : storeOk demoStore demoFiles).
  { vm_compute. repeat constructor. }
  split; [exact Hok|].
  destruct (modal_reset_insertion demoFiles demoStore Hok) as (Hm & _ & Harr & _).
  split; [rewrite Hm; vm_compute; reflexivity|].
  intros f' Hin. rewrite (Harr f' Hin). vm_compute. reflexivity.
Defined.

(** ** Drilling files *)

Lemma extractIsDrilling_true ls ln body :
  In ln ls -> commentMatch (raw ln) = Some body ->
  Str.startsWithCI "Drill" body = true ->
  extractIsDrilling ls = true.
Proof.
  induction ls as [|l ls IH]; intros Hin Hc Hd; [destruct Hin|].
  cbn [extractIsDrilling]. destruct Hin as [->|Hin].
  - now rewrite Hc, Hd.
  - destruct (commentMatch (raw l)) as [b|]; [|now apply IH].
    destruct (Str.startsWithCI "Drill" b); [reflexivity|now apply IH].
Qed.

Lemma pristine_defaults ln :
  pristine ln ->
  startCoord ln = coordZero /\ endCoord ln = coordZero
  /\ isFastMove ln = false /\ fastMoveReason ln = "".
Proof. intros (r & b & ->). repeat split; reflexivity. Qed.

(** C8. A file with a full-line comment whose text starts with "Drill"
    (in either case) is a drilling file: it gets no tracker, each of its
    lines keeps the coordinates (0, 0, 0) at both ends and is not a fast
    move, and tagging the file gives no line the tag FAST and inserts no
    reset line. *)
Theorem drilling_untracked (p content : string) (st : Store) :
  (exists l body, In l (Str.splitLines content)
      /\ commentMatch l = Some body /\ Str.startsWithCI "Drill" body = true) ->
  let fo := fst (loadFile p content st) in
  let ls := readArr (snd (loadFile p content st)) (lines fo) in
  isDrilling fo = true
  /\ allowFastMoves fo = false
  /\ commandProcessor fo = None
  /\ (forall ln, In ln ls ->
        startCoord ln = coordZero /\ endCoord ln = coordZero
        /\ isFastMove ln = false /\ fastMoveReason ln = "")
  /\ (forall ln, In ln (pushedBy (snd (loadFile p content st)) fo) ->
        startCoord ln = coordZero /\ endCoord ln = coordZero
        /\ isFastMove ln = false /\ hasTag "FAST" (tags ln) = false
        /\ hasTag "RESET-FR" (tags ln) = false).
Proof.
  intros (l & body & Hin & Hc & Hd) fo ls.
  assert (Hdrill : extractIsDrilling (loadFileLines content) = true).
  { rewrite <- loadFileLines_raw in Hin. apply in_map_iff in Hin as (ln & <- & Hin).
    eapply extractIsDrilling_true; eauto. }
  pose proof (loadFile_lines p content st) as Hl.
  pose proof (loadFile_isDrilling p content st) as [Hdr Ha].
  simpl in Hl. fold fo in Hl, Hdr, Ha. fold ls in Hl.
  rewrite Hdrill in Hdr, Ha. rewrite Hdr in Hl. cbn [negb] in Ha.
  assert (Hcp : commandProcessor fo = None).
  { unfold fo, loadFile. cbn [alloc]. cbn [allowFastMoves newFileObject].
    rewrite Hdrill. reflexivity. }
  assert (Hls : forall ln, In ln ls -> pristine ln).
  { rewrite Hl. apply List.Forall_forall, loadFileLines_pristine. }
  split; [exact Hdr|]. split; [exact Ha|]. split; [exact Hcp|]. split.
  - intros ln Hln. now apply pristine_defaults, Hls.
  - intros ln Hln. unfold pushedBy in Hln. fold ls in Hln. rewrite Ha in Hln.
    rewrite tagLines_plain in Hln.
    apply in_map_iff in Hln as (l0 & <- & Hl0).
    apply List.filter_In in Hl0 as [Hl0 _].
    specialize (Hls _ Hl0).
    destruct (pristine_defaults _ Hls) as (Hs & He & Hf & _).
    destruct (parseTags_fields l0) as (_ & Hf' & Hs' & He' & _).
    destruct (parseTags_untagged l0 (pristine_untagged _ Hls)) as [Hr Hfast].
    rewrite Hs', He', Hf', Hfast, Hs, He, Hf. auto.
Qed.

Lemma drilling_untracked_witness :
  (exists l body, In l (Str.splitLines drillText)
      /\ commentMatch l = Some body /\ Str.startsWithCI "Drill" body = true)
  /\ map (fun ln => (raw ln, endCoord ln, tags ln))
         (pushedBy (snd (loadFile "drill.nc" drillText emptyStore))
                   (fst (loadFile "drill.nc" drillText emptyStore)))
     = [ ("G0 Z5", coordZero, ["Z"; "UNENGAGED"]);
         ("G1 X10 Y10", coordZero, ["XY"; "UNENGAGED"]);
         ("G1 Z-2", coordZero, ["Z"; "UNENGAGED"]);
         ("G1 Z5", coordZero, ["Z"; "UNENGAGED"]) ]
  /\ isDrilling (fst (loadFile "drill.nc" drillText emptyStore)) = true.
Proof.
  assert (H : exists l body, In l (Str.splitLines drillText)
      /\ commentMatch l = Some body /\ Str.startsWithCI "Drill" body = true).
  { exists "(Drilling 3mm)", "Drilling 3mm". vm_compute. auto. }
  split; [exact H|]. split; [vm_compute; reflexivity|].
  apply (drilling_untracked "drill.nc" drillText emptyStore H).
Defined.

(** ** The tags of a reset line *)

(** C10. After a group is tagged, a line that carries the tag RESET-FR
    carries no other tag (tag derivation is not run on the synthetic
    line), its text is "G1", and under an active filter that names any tag
    other than RESET-FR the line is dropped: the content loop pushes nothing
    for it, whatever the member it is printed under. *)
Theorem reset_line_tags (group : list FileObject) (st : Store) :
  storeOk st group ->
  forall f' ln,
    In f' (fst (addTagsToLines group st)) ->
    In ln (readArr (snd (addTagsToLines group st)) (lines f')) ->
    hasTag "RESET-FR" (tags ln) = true ->
    tags ln = ["RESET-FR"]
    /\ raw ln = "G1"
    /\ forall params allowFast,
         filtered params = true ->
         (exists t, In t (filterTags params) /\ t <> "RESET-FR") ->
         emitLine params allowFast ln = [].
Proof.
  intros Hok f' ln Hf' Hln Htag.
  assert (Hwf : Forall (wfFile st) group).
  { eapply List.Forall_impl; [|exact Hok]. now intros f [H _]. }
  rewrite (addTagsToLines_member group st f' Hwf Hf') in Hln.
  apply in_concat in Hln as (pushed & Hp & Hln).
  apply in_map_iff in Hp as (f & <- & Hf).
  unfold storeOk in Hok. rewrite List.Forall_forall in Hok.
  destruct (Hok f Hf) as [_ Hun]. rewrite List.Forall_forall in Hun.
  destruct (tagLines_In _ _ _ _ Hln) as (l0 & Hl0 & [->|[_ ->]]).
  - destruct (parseTags_untagged l0 (Hun _ Hl0)) as [Hr _]. congruence.
  - destruct (resetLine_fields (parseTags l0)) as (Hraw & Htags & _ & _ & _ & Hc & Hb).
    split; [exact Htags|]. split; [exact Hraw|].
    intros params allowFast Hfil (t & Ht & Hne).
    unfold emitLine. rewrite Hc, Hb, Hfil. cbn [andb].
    replace (matchTags (resetLine (parseTags l0)) (filterTags params)) with false;
      [reflexivity|].
    symmetry. unfold matchTags. rewrite Htags.
    apply not_true_is_false. intros Hall.
    rewrite forallb_forall in Hall. specialize (Hall t Ht).
    unfold hasTag in Hall. cbn [List.existsb] in Hall.
    rewrite orb_false_r in Hall. apply String.eqb_eq in Hall. congruence.
Qed.

Lemma reset_line_tags_witness :
  storeOk demoStore demoFiles
  /\ (exists f' ln,
        In f' (fst (addTagsToLines demoFiles demoStore))
        /\ In ln (readArr (snd (addTagsToLines demoFiles demoStore)) (lines f'))
        /\ hasTag "RESET-FR" (tags ln) = true
        /\ tags ln = ["RESET-FR"]
        /\ emitLine filterFast true ln = []).
Proof.
  assert (Hok : storeOk demoStore demoFiles).
  { vm_compute. repeat constructor. }
  split; [exact Hok|].
  pose (f' := nth 0 (fst (addTagsToLines demoFiles demoStore))
                  (setLines 0%nat (newFileObject "" 0%nat []))).
  pose (ln := nth 2 (readArr (snd (addTagsToLines demoFiles demoStore)) (lines f'))
                  (newLine "")).
  assert (Hf' : In f' (fst (addTagsToLines demoFiles demoStore))).
  { vm_compute. left. reflexivity. }
  assert (Hln : In ln (readArr (snd (addTagsToLines demoFiles demoStore)) (lines f'))).
  { vm_compute. right. right. left. reflexivity. }
  assert (Htag : hasTag "RESET-FR" (tags ln) = true) by (vm_compute; reflexivity).
  exists f', ln. split; [exact Hf'|]. split; [exact Hln|]. split; [exact Htag|].
  destruct (reset_line_tags demoFiles demoStore Hok f' ln Hf' Hln Htag)
    as (Ht & _ & Hdrop).
  split; [exact Ht|].
  apply Hdrop; [reflexivity|].
  exists "FAST". split; [now left|discriminate].
Defined.

(** ** The tool dictionary and the definition files *)

Lemma firstToolDef_some ls l m :
  In l ls -> matchToolDef l = Some m -> exists m', firstToolDef ls = Some m'.
Proof.
  induction ls as [|l0 ls IH]; intros Hin Hm; [destruct Hin|].
  cbn [firstToolDef]. destruct Hin as [->|Hin].
  - rewrite Hm. eauto.
  - destruct (matchToolDef l0); eauto.
Qed.

Lemma firstToolDef_In ls m :
  firstToolDef ls = Some m -> exists l, In l ls /\ matchToolDef l = Some m.
Proof.
  induction ls as [|l0 ls IH]; intros H; [discriminate|].
  cbn [firstToolDef] in H. destruct (matchToolDef l0) as [m0|] eqn:E.
  - injection H as <-. exists l0. split; [now left|exact E].
  - destruct (IH H) as (l & Hl & Hm). exists l. split; [now right|exact Hm].
Qed.

Lemma buildToolDictFrom_spec readFile paths toolDict defFiles :
  (forall key,
     fst (buildToolDictFrom readFile paths toolDict defFiles) !! key
     = match toolDict !! key with
       | Some e => Some e
       | None => firstDefinition readFile key paths
       end)
  /\ snd (buildToolDictFrom readFile paths toolDict defFiles)
     = (defFiles ++ List.filter (hasDef readFile) paths)%list.
Proof.
  revert toolDict defFiles.
  induction paths as [|p paths IH]; intros toolDict defFiles.
  - cbn. split; [|now rewrite app_nil_r]. intros key. now destruct (toolDict !! key).
  - cbn [buildToolDictFrom firstDefinition List.filter]. unfold hasDef, fileDef.
    destruct (firstToolDef (Str.splitLines (readFile p))) as [[digits dia]|] eqn:Hdef.
    + destruct (IH (match toolDict !! ("T" ++ digits) with
                    | Some _ => toolDict
                    | None => <["T" ++ digits := mkTool (Num.parseFloat dia) p]> toolDict
                    end) (defFiles ++ [p])%list) as [Hlook Hdefs].
      split.
      * intros key. rewrite Hlook.
        destruct (String.eqb ("T" ++ digits) key) eqn:Hk.
        -- apply String.eqb_eq in Hk. subst key.
           destruct (toolDict !! ("T" ++ digits)) as [e|] eqn:Ht.
           ++ now rewrite Ht.
           ++ now rewrite lookup_insert_eq.
        -- apply String.eqb_neq in Hk.
           destruct (toolDict !! ("T" ++ digits)) as [e|] eqn:Ht; [reflexivity|].
           now rewrite lookup_insert_ne.
      * rewrite Hdefs, <- app_assoc. reflexivity.
    + apply IH.
Qed.

(** the first definition of a key, spelt out on the enumeration *)
Lemma firstDefinition_some readFile key paths e :
  firstDefinition readFile key paths = Some e ->
  exists pre p0 post digits dia0,
    paths = (pre ++ p0 :: post)%list
    /\ key = "T" ++ digits
    /\ fileDef readFile p0 = Some (digits, dia0)
    /\ e = mkTool (Num.parseFloat dia0) p0
    /\ forall q, In q pre -> forall dq, fileDef readFile q <> Some (digits, dq).
Proof.
  induction paths as [|p paths IH]; intros H; [discriminate|].
  cbn [firstDefinition] in H.
  assert (Hrec : firstDefinition readFile key paths = Some e ->
            (forall digits dq, fileDef readFile p = Some (digits, dq) ->
                               "T" ++ digits <> key) ->
            exists pre p0 post digits dia0,
              p :: paths = (pre ++ p0 :: post)%list
              /\ key = "T" ++ digits
              /\ fileDef readFile p0 = Some (digits, dia0)
              /\ e = mkTool (Num.parseFloat dia0) p0
              /\ forall q, In q pre -> forall dq, fileDef readFile q <> Some (digits, dq)).
  { intros Hr Hp. destruct (IH Hr) as (pre & p0 & post & digits & dia0 & -> & -> & Hd & -> & Hpre).
    exists (p :: pre), p0, post, digits, dia0. repeat split; auto.
    intros q [<-|Hq] dq; [|now apply Hpre].
    intros Hc. now apply (Hp _ _ Hc). }
  destruct (fileDef readFile p) as [[digits dia]|] eqn:Hdef.
  - destruct (String.eqb ("T" ++ digits) key) eqn:Hk.
    + apply String.eqb_eq in Hk. injection H as <-.
      exists [], p, paths, digits, dia. repeat split; auto.
    + apply Hrec; [exact H|]. intros d dq Heq. injection Heq as <- <-.
      now apply String.eqb_neq.
  - apply Hrec; [exact H|]. intros d dq Heq. discriminate.
Qed.

Lemma loadFile_path p content st : path (fst (loadFile p content st)) = p.
Proof.
  unfold loadFile. cbn [alloc]. destruct (allowFastMoves _); [|reflexivity].
  now destruct (trackLines _ _).
Qed.

Lemma loadFilesFrom_paths readFile defFiles paths files st f :
  In f (fst (loadFilesFrom readFile defFiles paths files st)) ->
  In f files \/ (In (path f) paths /\ includes defFiles (path f) = false).
Proof.
  revert files st. induction paths as [|p paths IH]; intros files st Hin;
    [now left|].
  cbn [loadFilesFrom] in Hin. destruct (includes defFiles p) eqn:Hinc.
  - destruct (IH _ _ Hin) as [H|[H1 H2]]; [now left|right]. split; [now right|exact H2].
  - destruct (loadFile p (readFile p) st) as [fo st'] eqn:Hload.
    destruct (IH _ _ Hin) as [H|[H1 H2]].
    + apply in_app_or in H as [H|[<-|[]]]; [now left|right].
      pose proof (loadFile_path p (readFile p) st) as Hp. rewrite Hload in Hp.
      cbn [fst] in Hp. rewrite Hp. split; [now left|exact Hinc].
    + right. split; [now right|exact H2].
Qed.

Lemma loadFilesFrom_loaded readFile defFiles paths files st p :
  In p paths -> includes defFiles p = false ->
  exists f, In f (fst (loadFilesFrom readFile defFiles paths files st)) /\ path f = p.
Proof.
  assert (Hkeep : forall paths files st f, In f files ->
            In f (fst (loadFilesFrom readFile defFiles paths files st))).
  { clear. induction paths as [|q paths IH]; intros files st f Hf; [exact Hf|].
    cbn [loadFilesFrom]. destruct (includes defFiles q); [now apply IH|].
    destruct (loadFile q (readFile q) st) as [fo st']. apply IH.
    apply in_or_app. now left. }
  revert files st. induction paths as [|q paths IH]; intros files st Hin Hinc;
    [destruct Hin|].
  cbn [loadFilesFrom]. destruct Hin as [->|Hin].
  - rewrite Hinc. destruct (loadFile p (readFile p) st) as [fo st'] eqn:Hload.
    exists fo. split.
    + apply Hkeep. apply in_or_app. right. now left.
    + pose proof (loadFile_path p (readFile p) st) as Hp. now rewrite Hload in Hp.
  - destruct (includes defFiles q); [now apply IH|].
    destruct (loadFile q (readFile q) st) as [fo st']. now apply IH.
Qed.

Lemma includes_In l p : includes l p = true <-> In p l.
Proof.
  unfold includes. rewrite existsb_exists. split.
  - intros (q & Hq & He). apply String.eqb_eq in He. now subst.
  - intros H. exists p. split; [exact H|apply String.eqb_refl].
Qed.

Lemma firstToolDef_first ls m :
  firstToolDef ls = Some m ->
  exists before l0 after,
    ls = (before ++ l0 :: after)%list
    /\ (forall q, In q before -> matchToolDef q = None)
    /\ matchToolDef l0 = Some m.
Proof.
  induction ls as [|l ls IH]; intros H; [discriminate|].
  cbn [firstToolDef] in H. destruct (matchToolDef l) as [m'|] eqn:Hl.
  - injection H as ->. exists [], l, ls. split; [reflexivity|].
    split; [intros q []|exact Hl].
  - destruct (IH H) as (before & l0 & after & -> & Hnone & Hm).
    exists (l :: before), l0, after. split; [reflexivity|]. split; [|exact Hm].
    intros q [<-|Hq]; [exact Hl|now apply Hnone].
Qed.

(** C6 as stated fails. The scan of a file stops at its first definition
    line, so a key that only a later definition line of the file has gets
    no entry: in the file with the lines "(T3 D=6.00)" and "(T5 D=10.0)"
    the second line is a definition line of the key T5, and the dictionary
    has T3 and no T5. *)
Lemma later_definition_not_recorded :
  In "(T5 D=10.0)" (Str.splitLines (libRead "lib.nc"))
  /\ matchToolDef "(T5 D=10.0)" = Some ("5", "10.0")
  /\ fst (buildToolDict libRead ["lib.nc"]) !! "T5" = None
  /\ fst (buildToolDict libRead ["lib.nc"]) !! "T3"
     = Some (mkTool (Num.Fin 6 0) "lib.nc").
Proof. repeat split; vm_compute; auto. Qed.

(** C6, amended. A file with a tool definition line is not among the
    loaded files, and the dictionary maps the key T<digits> of the file's
    first definition line, the only one that the scan of the file reads, to
    the diameter and path of the first file in the enumeration whose first
    definition line has that key; later definitions of the key change
    nothing. Files without a definition line are loaded. A file with the
    line "(T3 D=6.00 ...)" is left out and gives the entry T3 with
    diameter 6. *)
Theorem tool_catalog (readFile : string -> string) (ncPaths : list string) :
  let toolDict := fst (buildToolDict readFile ncPaths) in
  let defFiles := snd (buildToolDict readFile ncPaths) in
  let files := fst (loadFiles readFile defFiles ncPaths) in
  (forall p l m,
     In p ncPaths -> In l (Str.splitLines (readFile p)) ->
     matchToolDef l = Some m ->
     (forall f, In f files -> path f <> p)
     /\ exists digits dia pre p0 post dia0,
          fileDef readFile p = Some (digits, dia)
          /\ (exists before l0 after,
                Str.splitLines (readFile p) = (before ++ l0 :: after)%list
                /\ (forall q, In q before -> matchToolDef q = None)
                /\ matchToolDef l0 = Some (digits, dia)
                /\ (~ In l before)
                /\ (l = l0 -> m = (digits, dia)))
          /\ ncPaths = (pre ++ p0 :: post)%list
          /\ fileDef readFile p0 = Some (digits, dia0)
          /\ (forall q, In q pre -> forall dq,
                fileDef readFile q <> Some (digits, dq))
          /\ toolDict !! ("T" ++ digits)
             = Some (mkTool (Num.parseFloat dia0) p0))
  /\ (forall p, In p ncPaths -> fileDef readFile p = None ->
        exists f, In f files /\ path f = p)
  /\ (map path (fst (loadFiles toolsRead (snd (buildToolDict toolsRead toolsPaths))
                               toolsPaths)) = ["part.nc"]
      /\ fst (buildToolDict toolsRead toolsPaths) !! "T3"
         = Some (mkTool (Num.Fin 6 0) "tools.nc")
      /\ Num.toFixed 2 (Num.Fin 6 0) = "6.00").
Proof.
  intros toolDict defFiles files.
  destruct (buildToolDictFrom_spec readFile ncPaths ∅ []) as [Hlook Hdefs].
  fold (buildToolDict readFile ncPaths) in Hlook, Hdefs.
  fold toolDict in Hlook. fold defFiles in Hdefs. cbn [app] in Hdefs.
  split; [|split].
  - intros p l m Hp Hl Hm.
    destruct (firstToolDef_some _ _ _ Hl Hm) as [[digits dia] Hdef].
    fold (fileDef readFile p) in Hdef.
    split.
    + intros f Hf Heq.
      destruct (loadFilesFrom_paths _ _ _ _ _ _ Hf) as [[]|[_ Hinc]].
      assert (Hin : In p defFiles).
      { rewrite Hdefs. apply List.filter_In. split; [exact Hp|].
        unfold hasDef. now rewrite Hdef. }
      apply includes_In in Hin. congruence.
    + assert (Hfirst' : exists before l0 after,
                Str.splitLines (readFile p) = (before ++ l0 :: after)%list
                /\ (forall q, In q before -> matchToolDef q = None)
                /\ matchToolDef l0 = Some (digits, dia)
                /\ (~ In l before)
                /\ (l = l0 -> m = (digits, dia))).
      { destruct (firstToolDef_first _ _ Hdef) as (before & l0 & after & Hs & Hn & H0).
        exists before, l0, after. split; [exact Hs|]. split; [exact Hn|].
        split; [exact H0|]. split.
        - intros Hb. rewrite (Hn l Hb) in Hm. discriminate.
        - intros ->. congruence. }
      specialize (Hlook ("T" ++ digits)). rewrite lookup_empty in Hlook.
      destruct (firstDefinition readFile ("T" ++ digits) ncPaths) as [e|] eqn:Hfirst.
      * destruct (firstDefinition_some _ _ _ _ Hfirst)
          as (pre & p0 & post & digits' & dia0 & Hsplit & Hkey & Hd0 & -> & Hpre).
        assert (Hd : digits' = digits).
        { change (String "T" digits = String "T" digits') in Hkey. congruence. }
        subst digits'.
        exists digits, dia, pre, p0, post, dia0. auto 10.
      * exfalso. clear -Hp Hdef Hfirst.
        induction ncPaths as [|q paths IH]; [destruct Hp|].
        cbn [firstDefinition] in Hfirst. destruct Hp as [->|Hp].
        -- rewrite Hdef, String.eqb_refl in Hfirst. discriminate.
        -- destruct (fileDef readFile q) as [[d' dia']|]; [|now apply IH].
           destruct (String.eqb ("T" ++ d') ("T" ++ digits)); [discriminate|now apply IH].
  - intros p Hp Hnone. apply loadFilesFrom_loaded; [exact Hp|].
    apply not_true_is_false. intros Hinc. apply includes_In in Hinc.
    rewrite Hdefs in Hinc. apply List.filter_In in Hinc as [_ Hh].
    unfold hasDef in Hh. now rewrite Hnone in Hh.
  - vm_compute. auto.
Qed.

Lemma tool_catalog_witness :
  In "tools.nc" toolsPaths
  /\ In "(T3 D=6.00 CR=0. - flat end mill)" (Str.splitLines (toolsRead "tools.nc"))
  /\ matchToolDef "(T3 D=6.00 CR=0. - flat end mill)" = Some ("3", "6.00")
  /\ forall f,
       In f (fst (loadFiles toolsRead (snd (buildToolDict toolsRead toolsPaths))
                            toolsPaths)) ->
       path f <> "tools.nc".
Proof.
  assert (H1 : In "tools.nc" toolsPaths) by (now left).
  assert (H2 : In "(T3 D=6.00 CR=0. - flat end mill)"
                  (Str.splitLines (toolsRead "tools.nc"))) by (now left).
  assert (H3 : matchToolDef "(T3 D=6.00 CR=0. - flat end mill)" = Some ("3", "6.00"))
    by reflexivity.
  split; [exact H1|]. split; [exact H2|]. split; [exact H3|].
  exact (proj1 (proj1 (tool_catalog toolsRead toolsPaths) _ _ _ H1 H2 H3)).
Defined.

(** ** Ordering and grouping *)

Section SortByKey.

Context {A : Type}.
Variable key : A -> Z.

Lemma insertBy_Permutation a l : Permutation (a :: l) (insertBy (cmpKey key) a l).
Proof.
  induction l as [|b l IH]; cbn [insertBy]; [reflexivity|].
  destruct ((cmpKey key) a b <=? 0); [reflexivity|].
  rewrite perm_swap. now apply perm_skip.
Qed.

Lemma sortBy_Permutation l : Permutation l (sortBy (cmpKey key) l).
Proof.
  induction l as [|a l IH]; cbn [sortBy]; [reflexivity|].
  rewrite <- insertBy_Permutation. now apply perm_skip.
Qed.

Lemma insertBy_sorted a l :
  StronglySorted (keyLe key) l -> StronglySorted (keyLe key) (insertBy (cmpKey key) a l).
Proof.
  induction 1 as [|b l Hl IH Hb]; cbn [insertBy].
  - repeat constructor.
  - destruct ((cmpKey key) a b <=? 0) eqn:Hc.
    + apply Z.leb_le in Hc. unfold cmpKey in Hc.
      constructor; [now constructor|].
      constructor; [unfold keyLe; lia|].
      eapply List.Forall_impl; [|exact Hb]. unfold keyLe. intros c Hbc. lia.
    + apply Z.leb_gt in Hc. unfold cmpKey in Hc.
      constructor; [exact IH|].
      rewrite <- insertBy_Permutation.
      constructor; [unfold keyLe; lia|exact Hb].
Qed.

Lemma sortBy_sorted l : StronglySorted (keyLe key) (sortBy (cmpKey key) l).
Proof.
  induction l as [|a l IH]; cbn [sortBy]; [constructor|].
  now apply insertBy_sorted.
Qed.

(** the elements of one key keep their order: [a] goes in front of the
    first element that is not smaller, so it passes only smaller ones *)
Lemma insertBy_stable k a l :
  List.filter (hasKey key k) (insertBy (cmpKey key) a l) = List.filter (hasKey key k) (a :: l).
Proof.
  induction l as [|b l IH]; cbn [insertBy]; [reflexivity|].
  destruct ((cmpKey key) a b <=? 0) eqn:Hc; [reflexivity|].
  apply Z.leb_gt in Hc. unfold cmpKey in Hc.
  cbn [List.filter] in *. rewrite IH. unfold hasKey.
  destruct (key a =? k) eqn:Ha; [|reflexivity].
  apply Z.eqb_eq in Ha.
  destruct (key b =? k) eqn:Hb; [|reflexivity].
  apply Z.eqb_eq in Hb. lia.
Qed.

Lemma sortBy_stable k l :
  List.filter (hasKey key k) (sortBy (cmpKey key) l) = List.filter (hasKey key k) l.
Proof.
  induction l as [|a l IH]; cbn [sortBy]; [reflexivity|].
  rewrite insertBy_stable. cbn [List.filter]. now rewrite IH.
Qed.


End SortByKey.

Lemma groupInsert_lookup k key f m :
  groupLookup k (groupInsert key f m)
  = if String.eqb key k
    then Some (default [] (groupLookup k m) ++ [f])%list
    else groupLookup k m.
Proof.
  unfold groupLookup.
  induction m as [|[k0 g0] m IH]; cbn [groupInsert find fst snd option_map].
  - destruct (String.eqb key k); reflexivity.
  - destruct (String.eqb k0 key) eqn:H0; cbn [find fst].
    + apply String.eqb_eq in H0. subst k0.
      destruct (String.eqb key k); reflexivity.
    + destruct (String.eqb k0 k) eqn:H1.
      * apply String.eqb_eq in H1. subst k0.
        rewrite String.eqb_sym, H0. reflexivity.
      * exact IH.
Qed.

(** the members of a group are the files of its key, in the order of the
    list that was grouped *)
Lemma group_members k files m :
  groupLookup k (fold_left (fun m f => groupInsert (groupKey f) f m) files m)
  = match List.filter (fun f => String.eqb (groupKey f) k) files with
    | [] => groupLookup k m
    | fs => Some (default [] (groupLookup k m) ++ fs)%list
    end.
Proof.
  revert m. induction files as [|f files IH]; intros m; [reflexivity|].
  cbn [fold_left List.filter]. rewrite IH, groupInsert_lookup.
  destruct (String.eqb (groupKey f) k).
  - destruct (List.filter _ files) as [|f' fs]; simpl; [reflexivity|].
    now rewrite <- List.app_assoc.
  - reflexivity.
Qed.




(** ** The block of a member *)

Lemma tagLines_no_comment allow lastWasFast ls :
  Forall (fun ln => isComment ln = false) (tagLines allow lastWasFast ls).
Proof.
  revert lastWasFast. induction ls as [|l ls IH]; intros lw; [constructor|].
  cbn [tagLines]. destruct (isContent l) eqn:Hc; [|apply IH].
  destruct (isBlank l); [apply IH|].
  assert (Hl : isComment (parseTags l) = false).
  { unfold isContent in Hc. apply andb_true_iff in Hc as [_ Hc].
    now apply negb_true_iff in Hc. }
  destruct allow; [|now constructor].
  destruct (isFastMove (parseTags l)); [now constructor|].
  destruct lw; repeat constructor; auto.
Qed.

Lemma commentLines_none ls :
  Forall (fun ln => isComment ln = false) ls -> commentLines ls = [].
Proof.
  unfold commentLines. induction 1 as [|l ls Hl _ IH]; [reflexivity|].
  cbn [List.filter]. now rewrite Hl.
Qed.

(** C4 (what the code does). [addTagsToLines] runs before
    [buildContentLines] and leaves every member of the group holding the
    one array [output], which has no comment line and has the lines pushed
    by all the members. So the comment loop of a member's block prints
    nothing, and the content loop prints the content lines of the whole
    group under every member. For the two files "a.nc" and "b.nc" the block
    of "a.nc" has the line of "b.nc" and does not have the comment "(part
    A)". *)
Theorem member_block_lines (group : list FileObject) (st : Store) :
  storeOk st group ->
  let tagged := fst (addTagsToLines group st) in
  let st' := snd (addTagsToLines group st) in
  (forall f', In f' tagged ->
     readArr st' (lines f') = concat (map (pushedBy st) group)
     /\ commentLines (readArr st' (lines f')) = [])
  /\ (map path (fst (addTagsToLines pairFiles pairStore)) = ["a.nc"; "b.nc"]
      /\ map (fun f => commentLines (readArr pairStore (lines f))) pairFiles
         = [["(part A)"]; ["(part B)"]]
      /\ forall f', In f' (fst (addTagsToLines pairFiles pairStore)) ->
           let block :=
             fst (memberBlock noParams (snd (addTagsToLines pairFiles pairStore)) 0 f') in
           List.filter (fun s => Str.startsWith "G0 X" s || Str.startsWith "(part" s) block
           = [pairLineX1; pairLineX2]).
Proof.
  intros Hok tagged st'.
  assert (Hwf : Forall (wfFile st) group).
  { eapply List.Forall_impl; [|exact Hok]. now intros f [H _]. }
  split.
  - intros f' Hf'.
    pose proof (addTagsToLines_member group st f' Hwf Hf') as Hr.
    fold st' in Hr. split; [exact Hr|].
    rewrite Hr. apply commentLines_none.
    apply Forall_concat. apply List.Forall_forall. intros pushed Hp.
    apply in_map_iff in Hp as (f & <- & _). apply tagLines_no_comment.
  - split; [vm_compute; reflexivity|]. split; [vm_compute; reflexivity|].
    intros f' Hf'. vm_compute in Hf'.
    destruct Hf' as [<-|[<-|[]]]; vm_compute; reflexivity.
Qed.

Lemma member_block_lines_witness :
  storeOk pairStore pairFiles
  /\ forall f', In f' (fst (addTagsToLines pairFiles pairStore)) ->
       commentLines (readArr (snd (addTagsToLines pairFiles pairStore)) (lines f')) = [].
Proof.
  assert (Hok : storeOk pairStore pairFiles) by (vm_compute; repeat constructor).
  split; [exact Hok|].
  intros f' Hf'.
  exact (proj2 (proj1 (member_block_lines pairFiles pairStore Hok) f' Hf')).
Defined.

(** ** Lines of a member without fast moves *)

Lemma sapp_cons c a b : String c a ++ b = String c (a ++ b).
Proof. reflexivity. Qed.

Lemma sapp_nil_r a : a ++ "" = a.
Proof. induction a as [|c a IH]; [reflexivity|]. now rewrite sapp_cons, IH. Qed.

Lemma sapp_assoc a b c : (a ++ b) ++ c = a ++ (b ++ c).
Proof.
  induction a as [|d a IH]; [reflexivity|]. now rewrite !sapp_cons, IH.
Qed.

Lemma rev_app a b : Str.rev (a ++ b) = Str.rev b ++ Str.rev a.
Proof.
  induction a as [|c a IH].
  - change ("" ++ b) with b. cbn [Str.rev]. now rewrite sapp_nil_r.
  - rewrite sapp_cons. cbn [Str.rev]. now rewrite IH, sapp_assoc.
Qed.

Lemma rev_rev a : Str.rev (Str.rev a) = a.
Proof.
  induction a as [|c a IH]; [reflexivity|].
  cbn [Str.rev]. rewrite rev_app, IH. reflexivity.
Qed.

Lemma dropWhile_stop p a c b :
  p c = false -> exists w, Str.dropWhile p (a ++ String c b) = w ++ String c b.
Proof.
  intros Hc. induction a as [|d a IH].
  - exists "". change ("" ++ String c b) with (String c b).
    cbn [Str.dropWhile]. now rewrite Hc.
  - rewrite sapp_cons. cbn [Str.dropWhile]. destruct (p d); [exact IH|].
    now exists (String d a).
Qed.

(** [trim] keeps all of the text up to a code unit that is not white
    space, when the text does not start with white space *)
Lemma trim_keeps c0 pre c r :
  isSpace c0 = false -> isSpace c = false ->
  exists u, Str.trim (String c0 pre ++ String c r) = String c0 pre ++ String c u.
Proof.
  intros H0 Hc. unfold Str.trim.
  rewrite sapp_cons. cbn [Str.dropWhile]. rewrite H0. rewrite <- sapp_cons.
  set (a0 := String c0 pre).
  rewrite rev_app.
  change (Str.rev (String c r)) with (Str.rev r ++ String c "").
  rewrite sapp_assoc.
  change (String c "" ++ Str.rev a0) with (String c (Str.rev a0)).
  destruct (dropWhile_stop isSpace (Str.rev r) c (Str.rev a0) Hc) as [w Hw].
  rewrite Hw, rev_app.
  change (Str.rev (String c (Str.rev a0)))
    with (Str.rev (Str.rev a0) ++ String c "").
  rewrite rev_rev. exists (Str.rev w). rewrite sapp_assoc. reflexivity.
Qed.

(** the text handed to [padEnd] in the branch without fast moves is no
    number, so the target length is 0 *)
Lemma lengthOfText_trailer ln : lengthOfText (paddingText ++ trailer ln) = O.
Proof.
  unfold lengthOfText, paddingText, trailer.
  set (rest := coordText (startCoord ln) ++ TAB ++ coordText (endCoord ln)
               ++ " # " ++ Str.join " " (tags ln)).
  change ("50" ++ "; " ++ rest) with (String "5" "0" ++ String ";" (" " ++ rest)).
  destruct (trim_keeps "5" "0" ";" (" " ++ rest) eq_refl eq_refl) as [u ->].
  reflexivity.
Qed.

Lemma padEnd_zero s : Str.padEnd 0 s = s.
Proof. unfold Str.padEnd. cbn [Nat.sub Str.repeat]. apply sapp_nil_r. Qed.

(** C5 (what the code does). For a member that allows fast moves a
    content line that passes the filter is padded to 50 columns and
    followed by the comment with both coordinates and the tags, and a FAST
    line gets G0. For a member that does not (a drilling file) the line is
    pushed as its text after the feed-rate substitution and nothing else: no
    padding, no coordinates, no tags. The drilling file with the line
    "G1 X2 F100" is printed as "G1 X2 F100". *)
Theorem unformatted_without_fast_moves (params : Params) (ln : Line) :
  isContent ln = true -> isBlank ln = false ->
  filtered params && negb (matchTags ln (filterTags params)) = false ->
  emitLine params false ln = [processFeedRate params (raw ln)]
  /\ emitLine params true ln
     = [Str.padEnd 50 (if isFastMove ln
                       then rapidText (processFeedRate params (raw ln))
                       else processFeedRate params (raw ln))
        ++ trailer ln]
  /\ (map isDrilling holesFiles = [true]
      /\ fst (mergeGroup noParams holesFiles holesStore)
         = (["(MERGED)"; ""; "(   11 - holes.nc)"; "";
             "G90 G94 G17 G21 G54 F500"; ""; "; AGGREGATE STATS - ALL FILES"]
            ++ statsLines (mkCoord Num.PInf Num.PInf Num.PInf)
                          (mkCoord Num.NInf Num.NInf Num.NInf)
            ++ [""; holesRestore; "G1 X2 F100"]
            ++ List.repeat "" 10 ++ ["G0 Z5"; "G0 X0 Y0"])%list).
Proof.
  intros Hc Hb Hf. unfold emitLine. rewrite Hc, Hb, Hf.
  split; [|split].
  - now rewrite lengthOfText_trailer, padEnd_zero.
  - now destruct (isFastMove ln).
  - vm_compute. auto.
Qed.

Lemma unformatted_without_fast_moves_witness :
  let ln := nth 0 (readArr (snd (addTagsToLines holesFiles holesStore))
                           (lines (nth 0 (fst (addTagsToLines holesFiles holesStore))
                                       (newFileObject "" 0%nat []))))
                (newLine "") in
  (isContent ln = true /\ isBlank ln = false
   /\ filtered noParams && negb (matchTags ln (filterTags noParams)) = false)
  /\ tags ln = ["X"; "UNENGAGED"]
  /\ emitLine noParams false ln = ["G1 X2 F100"].
Proof.
  intros ln.
  assert (Hc : isContent ln = true) by (vm_compute; reflexivity).
  assert (Hb : isBlank ln = false) by (vm_compute; reflexivity).
  assert (Hf : filtered noParams && negb (matchTags ln (filterTags noParams)) = false)
    by (vm_compute; reflexivity).
  split; [auto|]. split; [vm_compute; reflexivity|].
  exact (proj1 (unformatted_without_fast_moves noParams ln Hc Hb Hf)).
Defined.

(** ** The feed-rate substitution *)

Lemma slength_app a b :
  String.length (a ++ b) = (String.length a + String.length b)%nat.
Proof.
  induction a as [|c a IH]; [reflexivity|].
  rewrite sapp_cons. cbn [String.length]. now rewrite IH.
Qed.

Lemma take_drop p s : Str.takeWhile p s ++ Str.dropWhile p s = s.
Proof.
  induction s as [|c s IH]; [reflexivity|].
  cbn [Str.takeWhile Str.dropWhile]. destruct (p c); [|reflexivity].
  now rewrite sapp_cons, IH.
Qed.

Lemma dropWhile_length p s :
  (String.length (Str.dropWhile p s) <= String.length s)%nat.
Proof.
  induction s as [|c s IH]; [reflexivity|].
  cbn [Str.dropWhile]. destruct (p c); cbn [String.length]; lia.
Qed.

Lemma slice1_length s : (String.length (slice1 s) <= String.length s)%nat.
Proof. destruct s; cbn; lia. Qed.

Lemma takeWhile_digitsOnly s : digitsOnly (Str.takeWhile isDigit s) = true.
Proof.
  induction s as [|c s IH]; [reflexivity|].
  cbn [Str.takeWhile]. destruct (isDigit c) eqn:Hc; [|reflexivity].
  cbn [digitsOnly]. now rewrite Hc.
Qed.

Lemma dropWhile_headNotDigit s : headNotDigit (Str.dropWhile isDigit s) = true.
Proof.
  induction s as [|c s IH]; [reflexivity|].
  cbn [Str.dropWhile]. destruct (isDigit c) eqn:Hc; [exact IH|].
  cbn [headNotDigit]. now rewrite Hc.
Qed.

Lemma takeWhile_app d t :
  digitsOnly d = true -> headNotDigit t = true ->
  Str.takeWhile isDigit (d ++ t) = d /\ Str.dropWhile isDigit (d ++ t) = t.
Proof.
  intros Hd Ht. induction d as [|c d IH].
  - change ("" ++ t) with t. destruct t as [|e t]; [now split|].
    cbn [headNotDigit] in Ht. apply negb_true_iff in Ht.
    cbn [Str.takeWhile Str.dropWhile]. rewrite Ht. now split.
  - cbn [digitsOnly] in Hd. apply andb_true_iff in Hd as [Hc Hd].
    rewrite sapp_cons. cbn [Str.takeWhile Str.dropWhile]. rewrite Hc.
    destruct (IH Hd) as [-> ->]. now split.
Qed.

Lemma boundary_headNotDigit t : Str.boundary true t = true -> headNotDigit t = true.
Proof.
  destruct t as [|e t]; [reflexivity|]. cbn [Str.boundary headNotDigit xorb].
  unfold isWordChar. destruct (isDigit e); [discriminate|reflexivity].
Qed.

Lemma isF_word c : isF c = true -> isWordChar c = true /\ isDigit c = false.
Proof.
  destruct c as [b0 b1 b2 b3 b4 b5 b6 b7].
  destruct b0, b1, b2, b3, b4, b5, b6, b7; intros H;
    try (vm_compute in H; discriminate H); split; reflexivity.
Qed.


Lemma takeWhile_empty_drop s :
  Str.takeWhile isDigit s = "" -> Str.dropWhile isDigit s = s.
Proof.
  destruct s as [|c s]; [reflexivity|]. cbn [Str.takeWhile Str.dropWhile].
  destruct (isDigit c); [discriminate|reflexivity].
Qed.

Lemma digitRests_cases s :
  (Str.takeWhile isDigit s = "" /\ digitRests s = [])
  \/ (Str.isEmpty (Str.takeWhile isDigit s) = false
      /\ exists others,
           digitRests s = Str.dropWhile isDigit s :: others
           /\ Forall (fun t => headNotDigit t = false) others).
Proof.
  induction s as [|c s IH]; [now left|].
  cbn [Str.takeWhile Str.dropWhile digitRests].
  destruct (isDigit c) eqn:Hc; [right|now left].
  split; [reflexivity|].
  destruct IH as [[Ht Hr]|[Ht (others & Hr & Ho)]].
  - exists []. rewrite Hr, (takeWhile_empty_drop s Ht). split; [reflexivity|constructor].
  - exists (others ++ [s])%list. rewrite Hr. split; [reflexivity|].
    apply Forall_app. split; [exact Ho|]. constructor; [|constructor].
    destruct s as [|d s]; [discriminate|]. cbn [Str.takeWhile] in Ht.
    cbn [headNotDigit]. destruct (isDigit d); [reflexivity|discriminate].
Qed.

Lemma firstMatch_digits {B : Type} (f : string -> option B) others :
  (forall t, headNotDigit t = false -> f t = None) ->
  Forall (fun t => headNotDigit t = false) others ->
  firstMatch f others = None.
Proof.
  intros Hf. induction 1 as [|t others Ht _ IH]; [reflexivity|].
  cbn [firstMatch]. now rewrite (Hf t Ht).
Qed.

Lemma digit_no_boundary t : headNotDigit t = false -> boundaryRest t = None.
Proof.
  destruct t as [|c t]; [discriminate|]. cbn [headNotDigit]. intros H.
  apply negb_false_iff in H. unfold boundaryRest, Str.boundary, isWordChar.
  now rewrite H.
Qed.

Lemma digit_no_point t : headNotDigit t = false -> Str.startsWith "." t = false.
Proof.
  destruct t as [|c t]; [discriminate|]. cbn [headNotDigit Str.startsWith]. intros H.
  apply negb_false_iff in H. destruct (Ascii.eqb "." c) eqn:E; [|reflexivity].
  apply Ascii.eqb_eq in E. subst c. discriminate.
Qed.

Lemma firstMatch_rests {B : Type} (f : string -> option B) s :
  (forall t, headNotDigit t = false -> f t = None) ->
  firstMatch f (digitRests s)
  = if Str.isEmpty (Str.takeWhile isDigit s) then None
    else f (Str.dropWhile isDigit s).
Proof.
  intros Hf. destruct (digitRests_cases s) as [[Ht Hr]|[Ht (others & Hr & Ho)]].
  - now rewrite Ht, Hr.
  - rewrite Ht, Hr. cbn [firstMatch]. rewrite (firstMatch_digits f others Hf Ho).
    now destruct (f (Str.dropWhile isDigit s)).
Qed.

(** the attempt without backtracking finds the match that the pattern,
    read with its backtracking, finds *)
Lemma matchFeed_literal pw s :
  matchFeedLiteral pw s = option_map snd (matchFeed pw s).
Proof.
  destruct s as [|c s1]; [reflexivity|]. cbn [matchFeedLiteral matchFeed].
  destruct (isF c) eqn:HF.
  - destruct (isF_word c HF) as [Hw _]. cbn [Str.boundary]. rewrite Hw.
    destruct pw; cbn [xorb negb andb]; [reflexivity|].
    rewrite firstMatch_rests.
    + destruct (Str.isEmpty (Str.takeWhile isDigit s1)); cbn [negb]; [reflexivity|].
      set (r1 := Str.dropWhile isDigit s1).
      destruct (Str.startsWith "." r1); cbn [andb].
      * rewrite firstMatch_rests by apply digit_no_boundary.
        destruct (Str.isEmpty (Str.takeWhile isDigit (slice1 r1))); cbn [negb andb].
        -- unfold boundaryRest. now destruct (Str.boundary true r1).
        -- unfold boundaryRest.
           destruct (Str.boundary true (Str.dropWhile isDigit (slice1 r1)));
             [reflexivity|]. now destruct (Str.boundary true r1).
      * unfold boundaryRest. now destruct (Str.boundary true r1).
    + intros t Ht. rewrite (digit_no_point t Ht). now apply digit_no_boundary.
  - rewrite !andb_false_r. reflexivity.
Qed.

(** what a match tells about its surroundings *)
Lemma matchFeed_some pw s m rest :
  matchFeed pw s = Some (m, rest) ->
  pw = false
  /\ Str.boundary true rest = true
  /\ (String.length rest < String.length s)%nat.
Proof.
  destruct s as [|c s1]; [discriminate|]. cbn [matchFeed].
  destruct pw; cbn [negb andb]; [discriminate|].
  destruct (isF c && negb (Str.isEmpty (Str.takeWhile isDigit s1)));
    [|discriminate].
  pose proof (dropWhile_length isDigit s1) as H1.
  pose proof (slice1_length (Str.dropWhile isDigit s1)) as H2.
  pose proof (dropWhile_length isDigit (slice1 (Str.dropWhile isDigit s1))) as H3.
  destruct (Str.startsWith "." (Str.dropWhile isDigit s1)
            && negb (Str.isEmpty (Str.takeWhile isDigit (slice1 (Str.dropWhile isDigit s1))))
            && Str.boundary true (Str.dropWhile isDigit (slice1 (Str.dropWhile isDigit s1))))
    eqn:Hfull.
  - intros H. injection H as _ <-.
    apply andb_true_iff in Hfull as [_ Hb].
    repeat split; [exact Hb|]. cbn [String.length]. lia.
  - destruct (Str.boundary true (Str.dropWhile isDigit s1)) eqn:Hb; [|discriminate].
    intros H. injection H as _ <-.
    repeat split; [exact Hb|]. cbn [String.length]. lia.
Qed.

Lemma matchFeed_word rest c : matchFeed true (String c rest) = None.
Proof. reflexivity. Qed.

Lemma matchFeed_notF pw c rest : isF c = false -> matchFeed pw (String c rest) = None.
Proof. intros H. cbn [matchFeed]. rewrite H, andb_false_r. reflexivity. Qed.

Section FeedRate.

(** the text put in place of a match *)
Variable rep : string.

Lemma replaceFeedFrom_fuel n m pw s :
  (String.length s <= n)%nat -> (String.length s <= m)%nat ->
  replaceFeedFrom n rep pw s = replaceFeedFrom m rep pw s.
Proof.
  revert m pw s. induction n as [|n IH]; intros m pw s Hn Hm.
  - destruct s; [|cbn in Hn; lia]. now destruct m.
  - destruct m as [|m]; [destruct s; [reflexivity|cbn in Hm; lia]|].
    destruct s as [|c s']; [reflexivity|]. cbn [replaceFeedFrom].
    cbn [String.length] in Hn, Hm.
    destruct (matchFeed pw (String c s')) as [[mt rest]|] eqn:Hmatch.
    + apply matchFeed_some in Hmatch as (_ & _ & Hlen).
      cbn [String.length] in Hlen. f_equal. apply IH; lia.
    + f_equal. apply IH; lia.
Qed.

Lemma subst_nil pw : feedSubst rep pw "" = "".
Proof. reflexivity. Qed.

Lemma subst_cons pw c s' :
  feedSubst rep pw (String c s')
  = match matchFeed pw (String c s') with
    | Some (_, rest) => rep ++ feedSubst rep true rest
    | None => String c (feedSubst rep (isWordChar c) s')
    end.
Proof.
  unfold feedSubst. cbn [String.length replaceFeedFrom].
  destruct (matchFeed pw (String c s')) as [[mt rest]|] eqn:Hmatch;
    [|reflexivity].
  apply matchFeed_some in Hmatch as (_ & _ & Hlen).
  cbn [String.length] in Hlen. f_equal. apply replaceFeedFrom_fuel; lia.
Qed.

Lemma feedSafeFrom_fuel n m pw s :
  (String.length s <= n)%nat -> (String.length s <= m)%nat ->
  feedSafeFrom n pw s = feedSafeFrom m pw s.
Proof.
  revert m pw s. induction n as [|n IH]; intros m pw s Hn Hm.
  - destruct s; [|cbn in Hn; lia]. now destruct m.
  - destruct m as [|m]; [destruct s; [reflexivity|cbn in Hm; lia]|].
    destruct s as [|c s']; [reflexivity|]. cbn [feedSafeFrom].
    cbn [String.length] in Hn, Hm.
    destruct (matchFeed pw (String c s')) as [[mt rest]|] eqn:Hmatch.
    + apply matchFeed_some in Hmatch as (_ & _ & Hlen).
      cbn [String.length] in Hlen. f_equal. apply IH; lia.
    + apply IH; lia.
Qed.

Lemma safe_cons pw c s' :
  feedSafeAt pw (String c s')
  = match matchFeed pw (String c s') with
    | Some (_, rest) => negb (fractionAhead rest) && feedSafeAt true rest
    | None => feedSafeAt (isWordChar c) s'
    end.
Proof.
  unfold feedSafeAt. cbn [String.length feedSafeFrom].
  destruct (matchFeed pw (String c s')) as [[mt rest]|] eqn:Hmatch;
    [|reflexivity].
  apply matchFeed_some in Hmatch as (_ & _ & Hlen).
  cbn [String.length] in Hlen. f_equal. apply feedSafeFrom_fuel; lia.
Qed.

(** digits are copied *)
Lemma subst_digits d t pw :
  digitsOnly d = true ->
  feedSubst rep pw (d ++ t) = d ++ feedSubst rep (pw || negb (Str.isEmpty d)) t.
Proof.
  revert pw. induction d as [|c d IH]; intros pw Hd.
  - change ("" ++ t) with t. cbn. now rewrite orb_false_r.
  - cbn [digitsOnly] in Hd. apply andb_true_iff in Hd as [Hc Hd].
    rewrite !sapp_cons, subst_cons.
    rewrite matchFeed_notF.
    + f_equal. rewrite IH by assumption.
      assert (Hw : isWordChar c = true) by (unfold isWordChar; now rewrite Hc).
      rewrite Hw. cbn [orb Str.isEmpty negb]. now rewrite orb_true_r.
    + destruct (isF c) eqn:HF; [|reflexivity].
      apply isF_word in HF as [_ HF]. congruence.
Qed.

Lemma subst_true_cons e t : feedSubst rep true (String e t) = String e (feedSubst rep (isWordChar e) t).
Proof. now rewrite subst_cons, matchFeed_word. Qed.

Lemma subst_boundary t : Str.boundary true (feedSubst rep true t) = Str.boundary true t.
Proof. destruct t as [|e t]; [reflexivity|]. now rewrite subst_true_cons. Qed.

(** the text put in is [F] and the override *)
Variable r : string.
Hypothesis rep_r : rep = String "F" r.

(** the first code unit of the result is no digit when that of the
    line is none *)
Lemma subst_headNotDigit pw t :
  headNotDigit t = true -> headNotDigit (feedSubst rep pw t) = true.
Proof.
  destruct t as [|e t]; [reflexivity|]. intros He. rewrite subst_cons.
  destruct (matchFeed pw (String e t)) as [[mt rest]|]; [|exact He].
  rewrite rep_r. reflexivity.
Qed.

Lemma subst_fractionAhead rest :
  Str.boundary true rest = true ->
  fractionAhead (feedSubst rep true rest) = fractionAhead rest.
Proof.
  destruct rest as [|e t]; [reflexivity|]. intros Hb.
  rewrite subst_true_cons. unfold fractionAhead.
  cbn [Str.startsWith slice1].
  destruct (Ascii.eqb "." e) eqn:He; [|reflexivity].
  apply Ascii.eqb_eq in He. subst e. cbn [andb].
  change (isWordChar ".") with false.
  rewrite <- (take_drop isDigit t) at 1 2.
  rewrite subst_digits by apply takeWhile_digitsOnly. cbn [orb].
  pose proof (dropWhile_headNotDigit t) as Hh.
  destruct (takeWhile_app (Str.takeWhile isDigit t)
              (feedSubst rep (negb (Str.isEmpty (Str.takeWhile isDigit t)))
                     (Str.dropWhile isDigit t))
              (takeWhile_digitsOnly t)
              (subst_headNotDigit _ _ Hh)) as [-> ->].
  destruct (Str.isEmpty (Str.takeWhile isDigit t)); cbn [negb andb];
    [reflexivity|].
  now rewrite subst_boundary.
Qed.

Hypothesis r_plain : plainNumeral r = true.

(** the text put in is matched again, whole, when what follows it is a
    word boundary and, for a numeral without fraction, no fraction *)
Lemma rematch Y :
  Str.boundary true Y = true ->
  (digitsOnly r = true -> fractionAhead Y = false) ->
  exists m, matchFeed false (rep ++ Y) = Some (m, Y).
Proof.
  intros Hb Hfrac. rewrite rep_r, sapp_cons. cbn [matchFeed negb andb].
  change (isF "F") with true. cbn [andb].
  pose proof (boundary_headNotDigit Y Hb) as HY.
  pose proof r_plain as Hp. unfold plainNumeral in Hp.
  apply andb_true_iff in Hp as [Hd1 Hq].
  pose proof (take_drop isDigit r) as Hr.
  pose proof (takeWhile_digitsOnly r) as Hdig.
  revert Hd1 Hq Hr Hdig.
  generalize (Str.takeWhile isDigit r) (Str.dropWhile isDigit r).
  intros d q Hd1 Hq Hr Hdig.
  apply orb_true_iff in Hq as [Hq|Hq].
  - (* digits only *)
    destruct q; [|discriminate]. rewrite sapp_nil_r in Hr.
    rewrite <- Hr in Hfrac |- *.
    destruct (takeWhile_app d Y Hdig HY) as [-> ->].
    rewrite Hd1. fold (fractionAhead Y). rewrite (Hfrac Hdig), Hb. eauto.
  - (* digits, a point, digits *)
    apply andb_true_iff in Hq as [Hq Hd2]. apply andb_true_iff in Hq as [Hdot Hne].
    destruct q as [|dot d2]; [discriminate|]. cbn [Str.startsWith] in Hdot.
    rewrite andb_true_r in Hdot. apply Ascii.eqb_eq in Hdot. subst dot.
    cbn [slice1] in Hne, Hd2.
    rewrite <- Hr, sapp_assoc, sapp_cons.
    destruct (takeWhile_app d (String "." (d2 ++ Y)) Hdig eq_refl) as [-> ->].
    rewrite Hd1. cbn [Str.startsWith slice1 andb].
    change (Ascii.eqb "." ".") with true. cbn [andb].
    destruct (takeWhile_app d2 Y Hd2 HY) as [-> ->].
    rewrite Hne, Hb. cbn [andb]. eauto.
Qed.

(** a position without a match has none after the substitution behind
    it either *)
Lemma no_match_kept pw c s' :
  matchFeed pw (String c s') = None ->
  matchFeed pw (String c (feedSubst rep (isWordChar c) s')) = None.
Proof.
  intros Hnone. destruct pw; [reflexivity|].
  destruct (isF c) eqn:HF; [|now apply matchFeed_notF].
  destruct (isF_word c HF) as [Hw _]. rewrite Hw.
  cbn [matchFeed negb andb] in *. rewrite HF in *. cbn [andb] in *.
  pose proof (dropWhile_headNotDigit s') as Hh.
  assert (HX : feedSubst rep true s'
               = Str.takeWhile isDigit s' ++ feedSubst rep true (Str.dropWhile isDigit s')).
  { rewrite <- (take_drop isDigit s') at 1.
    now rewrite subst_digits by apply takeWhile_digitsOnly. }
  rewrite HX. clear HX.
  destruct (takeWhile_app (Str.takeWhile isDigit s')
              (feedSubst rep true (Str.dropWhile isDigit s'))
              (takeWhile_digitsOnly s')
              (subst_headNotDigit true _ Hh)) as [-> ->].
  destruct (Str.isEmpty (Str.takeWhile isDigit s')); cbn [negb] in *;
    [reflexivity|].
  destruct (Str.startsWith "." (Str.dropWhile isDigit s') && _ && _);
    [discriminate|].
  destruct (Str.boundary true (Str.dropWhile isDigit s')) eqn:Hb; [discriminate|].
  rewrite subst_boundary, Hb.
  destruct (Str.dropWhile isDigit s') as [|e t]; [discriminate|].
  rewrite subst_true_cons. cbn [Str.startsWith].
  cbn [Str.boundary xorb] in Hb. apply negb_false_iff in Hb.
  destruct (Ascii.eqb "." e) eqn:He; [|reflexivity].
  apply Ascii.eqb_eq in He. subst e. discriminate.
Qed.

Lemma subst_idempotent_le n s pw :
  (String.length s <= n)%nat ->
  (digitsOnly r = true -> feedSafeAt pw s = true) ->
  feedSubst rep pw (feedSubst rep pw s) = feedSubst rep pw s.
Proof.
  revert s pw. induction n as [|n IH]; intros s pw Hlen Hsafe.
  - destruct s; [reflexivity|cbn in Hlen; lia].
  - destruct s as [|c s']; [reflexivity|].
    cbn [String.length] in Hlen.
    rewrite subst_cons. rewrite safe_cons in Hsafe.
    destruct (matchFeed pw (String c s')) as [[m rest]|] eqn:Hmatch.
    + destruct (matchFeed_some _ _ _ _ Hmatch) as (-> & Hb & Hl).
      cbn [String.length] in Hl.
      assert (HbY : Str.boundary true (feedSubst rep true rest) = true)
        by now rewrite subst_boundary.
      assert (HfY : digitsOnly r = true -> fractionAhead (feedSubst rep true rest) = false).
      { intros Hd. rewrite subst_fractionAhead by assumption.
        specialize (Hsafe Hd). apply andb_true_iff in Hsafe as [Hf _].
        now apply negb_true_iff in Hf. }
      destruct (rematch _ HbY HfY) as [m' Hre].
      assert (Hcons : exists r', rep ++ feedSubst rep true rest = String "F" r').
      { rewrite rep_r, sapp_cons. eauto. }
      destruct Hcons as [r' Hr']. rewrite Hr' in Hre |- *.
      rewrite subst_cons, Hre. rewrite <- Hr'. f_equal.
      apply IH; [lia|]. intros Hd. specialize (Hsafe Hd).
      now apply andb_true_iff in Hsafe as [_ Hs].
    + rewrite subst_cons, (no_match_kept _ _ _ Hmatch). f_equal.
      apply IH; [lia|exact Hsafe].
Qed.

End FeedRate.

(** C9 as stated fails. With the override 500 the text "F1.5.5" becomes
    "F500.5" and then "F500"; with the override 1.5e-7, whose text is
    "1.5e-7", the line "G1 F100" becomes "G1 F1.5e-7" and then
    "G1 F1.5e-7.5e-7". *)
Lemma feed_rate_not_idempotent :
  (processFeedRate override500 "F1.5.5" = "F500.5"
   /\ processFeedRate override500 (processFeedRate override500 "F1.5.5")
      <> processFeedRate override500 "F1.5.5")
  /\ (processFeedRate overrideTiny "G1 F100" = "G1 F1.5e-7"
      /\ processFeedRate overrideTiny (processFeedRate overrideTiny "G1 F100")
         <> processFeedRate overrideTiny "G1 F100").
Proof. repeat split; vm_compute; congruence. Qed.

(** C9, amended. When the text of the override is a plain decimal
    numeral (digits, or digits, a point and digits), substituting twice
    gives what substituting once gives, on every line if the numeral has a
    fraction, and otherwise on every line in which no match of the pattern
    is directly followed by a point, digits and a word boundary. *)
Theorem feed_rate_idempotent (params : Params) (v : number) (line : string) :
  fr params = Some v ->
  plainNumeral (Num.toString v) = true ->
  (digitsOnly (Num.toString v) = true -> feedSafe line = true) ->
  processFeedRate params (processFeedRate params line)
  = processFeedRate params line.
Proof.
  intros Hfr Hplain Hsafe. unfold processFeedRate. rewrite Hfr.
  apply (subst_idempotent_le ("F" ++ Num.toString v) (Num.toString v)
           eq_refl Hplain (String.length line) line false (le_n _)).
  exact Hsafe.
Qed.

Lemma feed_rate_idempotent_witness :
  (fr override500 = Some (Num.Fin 5 2)
   /\ plainNumeral (Num.toString (Num.Fin 5 2)) = true
   /\ feedSafe "G1 X10 F300.5 f20" = true)
  /\ processFeedRate override500 "G1 X10 F300.5 f20" = "G1 X10 F500 F500"
  /\ processFeedRate override500 (processFeedRate override500 "G1 X10 F300.5 f20")
     = processFeedRate override500 "G1 X10 F300.5 f20".
Proof.
  assert (H1 : fr override500 = Some (Num.Fin 5 2)) by reflexivity.
  assert (H2 : plainNumeral (Num.toString (Num.Fin 5 2)) = true)
    by (vm_compute; reflexivity).
  assert (H3 : feedSafe "G1 X10 F300.5 f20" = true) by (vm_compute; reflexivity).
  split; [auto|]. split; [vm_compute; reflexivity|].
  exact (feed_rate_idempotent override500 (Num.Fin 5 2) "G1 X10 F300.5 f20"
           H1 H2 (fun _ => H3)).
Defined.

(** * Further properties *)

(** ** The order on numbers *)

Lemma cmpFin_scale m1 e1 m2 e2 E :
  E <= e1 -> E <= e2 ->
  Num.cmpFin m1 e1 m2 e2 = (m1 * 10 ^ (e1 - E) ?= m2 * 10 ^ (e2 - E)).
Proof.
  intros H1 H2. unfold Num.cmpFin.
  set (e := Z.min e1 e2).
  assert (He : E <= e) by (unfold e; lia).
  assert (He1 : e <= e1) by (unfold e; lia).
  assert (He2 : e <= e2) by (unfold e; lia).
  replace (e1 - E) with ((e1 - e) + (e - E)) by lia.
  replace (e2 - E) with ((e2 - e) + (e - E)) by lia.
  rewrite !Z.pow_add_r by lia. rewrite !Z.mul_assoc.
  assert (Hp : 0 < 10 ^ (e - E)) by (apply Z.pow_pos_nonneg; lia).
  generalize dependent (10 ^ (e - E)). intros p Hp.
  generalize (m1 * 10 ^ (e1 - e)) (m2 * 10 ^ (e2 - e)). intros u v.
  destruct (Z.compare_spec u v), (Z.compare_spec (u * p) (v * p));
    try reflexivity; nia.
Qed.

Lemma ltb_irrefl a : Num.ltb a a = false.
Proof.
  destruct a as [| | |m e]; try reflexivity.
  cbn [Num.ltb]. unfold Num.cmpFin. now rewrite Z.compare_refl.
Qed.

Lemma ltb_asym a b : Num.ltb a b = true -> Num.ltb b a = false.
Proof.
  destruct a as [| | |m1 e1], b as [| | |m2 e2]; try reflexivity; try discriminate.
  cbn [Num.ltb]. rewrite (cmpFin_scale m1 e1 m2 e2 (Z.min e1 e2)) by lia.
  rewrite (cmpFin_scale m2 e2 m1 e1 (Z.min e1 e2)) by lia.
  rewrite (Z.compare_antisym (m1 * _) (m2 * _)).
  destruct (m1 * _ ?= m2 * _); cbn; congruence.
Qed.

(** if [c < a] then [c < b] or [b < a] *)
Lemma ltb_between a b c :
  notNaN b -> Num.ltb c a = true -> Num.ltb c b = true \/ Num.ltb b a = true.
Proof.
  intros Hb.
  destruct a as [| | |m1 e1], b as [| | |m2 e2], c as [| | |m3 e3];
    try discriminate; cbn [Num.ltb]; auto.
  set (E := Z.min e1 (Z.min e2 e3)).
  rewrite (cmpFin_scale m3 e3 m1 e1 E), (cmpFin_scale m3 e3 m2 e2 E),
    (cmpFin_scale m2 e2 m1 e1 E) by (unfold E; lia).
  destruct (Z.compare_spec (m3 * 10 ^ (e3 - E)) (m1 * 10 ^ (e1 - E)));
    try discriminate.
  intros _.
  destruct (Z.compare_spec (m3 * 10 ^ (e3 - E)) (m2 * 10 ^ (e2 - E))); auto;
    destruct (Z.compare_spec (m2 * 10 ^ (e2 - E)) (m1 * 10 ^ (e1 - E))); auto; lia.
Qed.

Lemma leb_notNaN a b :
  notNaN a -> notNaN b -> Num.leb a b = negb (Num.ltb b a).
Proof. unfold notNaN. destruct a, b; try discriminate; reflexivity. Qed.

Lemma leb_refl a : notNaN a -> Num.leb a a = true.
Proof. intros H. now rewrite leb_notNaN, ltb_irrefl. Qed.

Lemma leb_trans a b c :
  notNaN a -> notNaN b -> notNaN c ->
  Num.leb a b = true -> Num.leb b c = true -> Num.leb a c = true.
Proof.
  intros Ha Hb Hc. rewrite !leb_notNaN by assumption.
  intros Hab Hbc. apply negb_true_iff in Hab, Hbc. apply negb_true_iff.
  destruct (Num.ltb c a) eqn:Hca; [|reflexivity].
  destruct (ltb_between a b c Hb Hca); congruence.
Qed.

Lemma min_spec a b :
  notNaN a -> notNaN b ->
  notNaN (Num.min a b)
  /\ Num.leb (Num.min a b) a = true /\ Num.leb (Num.min a b) b = true
  /\ (Num.min a b = a \/ Num.min a b = b).
Proof.
  intros Ha Hb.
  assert (Hm : Num.min a b = if Num.ltb b a then b else a)
    by (unfold notNaN in *; destruct a, b; try discriminate; reflexivity).
  rewrite Hm. destruct (Num.ltb b a) eqn:Hlt.
  - repeat split; auto.
    + rewrite leb_notNaN by assumption. now rewrite (ltb_asym _ _ Hlt).
    + now apply leb_refl.
  - repeat split; auto.
    + now apply leb_refl.
    + rewrite leb_notNaN by assumption. now rewrite Hlt.
Qed.

Lemma max_spec a b :
  notNaN a -> notNaN b ->
  notNaN (Num.max a b)
  /\ Num.leb a (Num.max a b) = true /\ Num.leb b (Num.max a b) = true
  /\ (Num.max a b = a \/ Num.max a b = b).
Proof.
  intros Ha Hb.
  assert (Hm : Num.max a b = if Num.ltb a b then b else a)
    by (unfold notNaN in *; destruct a, b; try discriminate; reflexivity).
  rewrite Hm. destruct (Num.ltb a b) eqn:Hlt.
  - repeat split; auto.
    + rewrite leb_notNaN by assumption. now rewrite (ltb_asym _ _ Hlt).
    + now apply leb_refl.
  - repeat split; auto.
    + now apply leb_refl.
    + rewrite leb_notNaN by assumption. now rewrite Hlt.
Qed.

(** ** The bounds of the tracker *)

Lemma applyToken_ok pos t : coordOk pos -> coordOk (applyToken pos t).
Proof.
  intros (Hx & Hy & Hz). unfold applyToken.
  destruct (tokenAxis t) as [a|]; [|now repeat split].
  destruct (Num.isNaN (Num.parseFloat (slice1 t))) eqn:Hn; cbn [negb];
    [now repeat split|].
  destruct a; repeat split; assumption.
Qed.

Lemma fold_applyToken_ok ts pos :
  coordOk pos -> coordOk (fold_left applyToken ts pos).
Proof.
  revert pos. induction ts as [|t ts IH]; intros pos H; [exact H|].
  cbn [fold_left]. apply IH. now apply applyToken_ok.
Qed.

Lemma within_widen lo hi lo' hi' c :
  coordOk lo -> coordOk hi -> coordOk lo' -> coordOk hi' -> coordOk c ->
  (forall ax, Num.leb (coordGet ax lo') (coordGet ax lo) = true) ->
  (forall ax, Num.leb (coordGet ax hi) (coordGet ax hi') = true) ->
  within lo hi c -> within lo' hi' c.
Proof.
  intros Hlo Hhi Hlo' Hhi' Hc Hl Hh Hw ax.
  assert (Hget : forall d, coordOk d -> notNaN (coordGet ax d))
    by (intros d (H1 & H2 & H3); now destruct ax).
  destruct (Hw ax) as [H1 H2]. split.
  - eapply leb_trans; [| | |apply Hl|exact H1]; auto.
  - eapply leb_trans; [| | |exact H2|apply Hh]; auto.
Qed.

(** one line widens the bounds just enough to hold the new position *)
Lemma processLine_ok cp ln :
  trackerOk cp ->
  trackerOk (fst (processLine cp ln))
  /\ coordOk (snd (snd (processLine cp ln)))
  /\ forall c, coordOk c -> within (cpmin cp) (cpmax cp) c ->
       within (cpmin (fst (processLine cp ln))) (cpmax (fst (processLine cp ln))) c.
Proof.
  intros (Hpos & Hmin & Hmax & Hin).
  unfold processLine. cbn [fst snd cpmin cpmax cpPos cpx cpy cpz].
  pose proof (fold_applyToken_ok (lineTokens (raw ln)) (cpPos cp) Hpos) as Hnew.
  set (new := fold_left applyToken (lineTokens (raw ln)) (cpPos cp)) in *.
  destruct Hnew as (Nx & Ny & Nz).
  destruct Hmin as (Mx & My & Mz). destruct Hmax as (Xx & Xy & Xz).
  destruct (min_spec (x (cpmin cp)) (x new) Mx Nx) as (A1 & A2 & A3 & _).
  destruct (min_spec (y (cpmin cp)) (y new) My Ny) as (B1 & B2 & B3 & _).
  destruct (min_spec (z (cpmin cp)) (z new) Mz Nz) as (C1 & C2 & C3 & _).
  destruct (max_spec (x (cpmax cp)) (x new) Xx Nx) as (D1 & D2 & D3 & _).
  destruct (max_spec (y (cpmax cp)) (y new) Xy Ny) as (E1 & E2 & E3 & _).
  destruct (max_spec (z (cpmax cp)) (z new) Xz Nz) as (F1 & F2 & F3 & _).
  assert (Hnew' : coordOk (mkCoord (x new) (y new) (z new))) by (repeat split; assumption).
  split; [|split].
  - split; [exact Hnew'|]. split; [repeat split; assumption|].
    split; [repeat split; assumption|].
    intros ax. destruct ax; split; assumption.
  - destruct new. repeat split; assumption.
  - intros c Hc Hw. eapply within_widen; [| | | |exact Hc| | |exact Hw].
    + repeat split; assumption.
    + repeat split; assumption.
    + repeat split; assumption.
    + repeat split; assumption.
    + intros ax. destruct ax; assumption.
    + intros ax. destruct ax; assumption.
Qed.

Lemma processLine_pos cp ln :
  cpPos (fst (processLine cp ln)) = snd (snd (processLine cp ln)).
Proof. apply processLine_end. Qed.

(** the tracker after a file holds every position of the file in its
    bounds *)
Lemma trackLines_bounds ls cp :
  trackerOk cp ->
  trackerOk (fst (trackLines cp ls))
  /\ (forall c, coordOk c -> within (cpmin cp) (cpmax cp) c ->
        within (cpmin (fst (trackLines cp ls))) (cpmax (fst (trackLines cp ls))) c)
  /\ forall ln, In ln (snd (trackLines cp ls)) ->
       coordOk (startCoord ln) /\ coordOk (endCoord ln)
       /\ within (cpmin (fst (trackLines cp ls))) (cpmax (fst (trackLines cp ls)))
                 (startCoord ln)
       /\ within (cpmin (fst (trackLines cp ls))) (cpmax (fst (trackLines cp ls)))
                 (endCoord ln).
Proof.
  revert cp. induction ls as [|l ls IH]; intros cp Hok.
  - cbn. split; [exact Hok|]. split; [auto|]. intros ln [].
  - rewrite trackLines_cons. cbn [fst snd].
    destruct (processLine_ok cp l Hok) as (Hok1 & Hend & Hmono1).
    destruct (IH _ Hok1) as (Hok2 & Hmono2 & Hlines).
    split; [exact Hok2|]. split; [auto|].
    intros ln [<-|Hin]; [|now apply Hlines].
    destruct (classify_fields (cpPos cp) (snd (snd (processLine cp l)))
                (setCoords (cpPos cp) (snd (snd (processLine cp l))) l))
      as (_ & Hs & He & _).
    rewrite Hs, He. cbn [setCoords startCoord endCoord].
    destruct Hok as (Hpos & Hmin & Hmax & Hin0).
    split; [exact Hpos|]. split; [exact Hend|]. split.
    + apply Hmono2; [exact Hpos|]. now apply Hmono1.
    + apply Hmono2; [exact Hend|].
      rewrite <- processLine_pos. now destruct Hok1 as (_ & _ & _ & H).
Qed.

Lemma newCommandProcessor_ok : trackerOk newCommandProcessor.
Proof.
  repeat split; try reflexivity; destruct ax; reflexivity.
Qed.

Lemma loadFile_tracker p content st :
  commandProcessor (fst (loadFile p content st))
  = if extractIsDrilling (loadFileLines content) then None
    else Some (fst (trackLines newCommandProcessor (loadFileLines content))).
Proof.
  unfold loadFile. cbn [alloc]. cbn [allowFastMoves newFileObject].
  destruct (extractIsDrilling (loadFileLines content)); cbn [negb]; [reflexivity|].
  now destruct (trackLines _ _).
Qed.

Lemma coordZero_ok : coordOk coordZero.
Proof. repeat split. Qed.

(** X1. No coordinate of a loaded line is NaN, in a drilling file or
    not: a token whose remainder does not parse never reaches a
    coordinate. *)
Theorem coordinates_are_numbers (p content : string) (st : Store) (ln : Line) :
  In ln (readArr (snd (loadFile p content st)) (lines (fst (loadFile p content st)))) ->
  coordOk (startCoord ln) /\ coordOk (endCoord ln).
Proof.
  pose proof (loadFile_lines p content st) as Hl. simpl in Hl. rewrite Hl.
  destruct (loadFile_isDrilling p content st) as [-> _].
  destruct (extractIsDrilling (loadFileLines content)).
  - intros Hin.
    pose proof (loadFileLines_pristine content) as Hp.
    rewrite List.Forall_forall in Hp.
    destruct (pristine_defaults ln (Hp _ Hin)) as (-> & -> & _).
    split; apply coordZero_ok.
  - intros Hin.
    destruct (trackLines_bounds (loadFileLines content) newCommandProcessor
                newCommandProcessor_ok) as (_ & _ & H).
    destruct (H ln Hin) as (H1 & H2 & _). now split.
Qed.

Lemma coordinates_are_numbers_witness :
  exists ln,
    In ln demoLines
    /\ raw ln = "G1 Z-2"
    /\ coordOk (startCoord ln) /\ coordOk (endCoord ln).
Proof.
  pose (ln := nth 2 demoLines (newLine "")).
  assert (Hin : In ln demoLines) by (vm_compute; right; right; left; reflexivity).
  exists ln. split; [exact Hin|]. split; [reflexivity|].
  exact (coordinates_are_numbers "demo.nc" demoText emptyStore ln Hin).
Defined.

(** X2. In a file that is not a drilling file the running minimum and
    maximum of the tracker bound the initial position (0, 0, 5) and the
    start and the end of every line, on each axis. *)
Theorem tracker_bounds (p content : string) (st : Store) (cp : CommandProcessor) :
  commandProcessor (fst (loadFile p content st)) = Some cp ->
  within (cpmin cp) (cpmax cp) (cpPos newCommandProcessor)
  /\ forall ln,
       In ln (readArr (snd (loadFile p content st))
                      (lines (fst (loadFile p content st)))) ->
       within (cpmin cp) (cpmax cp) (startCoord ln)
       /\ within (cpmin cp) (cpmax cp) (endCoord ln).
Proof.
  rewrite loadFile_tracker.
  pose proof (loadFile_lines p content st) as Hl. simpl in Hl. rewrite Hl.
  destruct (loadFile_isDrilling p content st) as [-> _].
  destruct (extractIsDrilling (loadFileLines content)); [discriminate|].
  intros H. injection H as <-.
  destruct (trackLines_bounds (loadFileLines content) newCommandProcessor
              newCommandProcessor_ok) as (_ & Hmono & Hlines).
  split.
  - apply Hmono; [repeat split|]. now destruct newCommandProcessor_ok as (_ & _ & _ & H).
  - intros ln Hin. destruct (Hlines ln Hin) as (_ & _ & H1 & H2). now split.
Qed.

Lemma tracker_bounds_witness :
  exists cp,
    commandProcessor (fst (loadFile "demo.nc" demoText emptyStore)) = Some cp
    /\ cpmin cp = mkCoord (Num.Fin 0 0) (Num.Fin 0 0) (Num.Fin (-2) 0)
    /\ cpmax cp = mkCoord (Num.Fin 1 1) (Num.Fin 1 1) (Num.Fin 5 0)
    /\ forall ln, In ln demoLines ->
         within (cpmin cp) (cpmax cp) (startCoord ln)
         /\ within (cpmin cp) (cpmax cp) (endCoord ln).
Proof.
  pose (cp := fst (trackLines newCommandProcessor (loadFileLines demoText))).
  assert (H : commandProcessor (fst (loadFile "demo.nc" demoText emptyStore)) = Some cp)
    by (vm_compute; reflexivity).
  exists cp. split; [exact H|]. split; [vm_compute; reflexivity|].
  split; [vm_compute; reflexivity|].
  exact (proj2 (tracker_bounds "demo.nc" demoText emptyStore cp H)).
Defined.

(** ** The statistics of a group *)

Lemma coordGet_ok ax c : coordOk c -> notNaN (coordGet ax c).
Proof. intros (H1 & H2 & H3). now destruct ax. Qed.

Lemma aggregateFrom_spec files mn mx :
  coordOk mn -> coordOk mx -> Forall boundsOk files ->
  coordOk (fst (aggregateFrom files mn mx))
  /\ coordOk (snd (aggregateFrom files mn mx))
  /\ forall ax,
       Num.leb (coordGet ax (fst (aggregateFrom files mn mx))) (coordGet ax mn) = true
       /\ Num.leb (coordGet ax mx) (coordGet ax (snd (aggregateFrom files mn mx))) = true
       /\ (forall f cp, In f files -> commandProcessor f = Some cp ->
             Num.leb (coordGet ax (fst (aggregateFrom files mn mx)))
                     (coordGet ax (cpmin cp)) = true
             /\ Num.leb (coordGet ax (cpmax cp))
                        (coordGet ax (snd (aggregateFrom files mn mx))) = true)
       /\ (coordGet ax (fst (aggregateFrom files mn mx)) = coordGet ax mn
           \/ attained cpmin ax files (coordGet ax (fst (aggregateFrom files mn mx))))
       /\ (coordGet ax (snd (aggregateFrom files mn mx)) = coordGet ax mx
           \/ attained cpmax ax files (coordGet ax (snd (aggregateFrom files mn mx)))).
Proof.
  revert mn mx. induction files as [|f files IH]; intros mn mx Hmn Hmx Hok.
  - cbn [aggregateFrom fst snd]. split; [exact Hmn|]. split; [exact Hmx|].
    intros ax. pose proof (coordGet_ok ax mn Hmn). pose proof (coordGet_ok ax mx Hmx).
    split; [now apply leb_refl|]. split; [now apply leb_refl|].
    split; [intros f cp []|]. split; now left.
  - inversion Hok as [|? ? Hf Hrest]; subst. cbn [aggregateFrom].
    unfold boundsOk in Hf.
    destruct (commandProcessor f) as [stats|] eqn:Hcp.
    + destruct Hf as [Hsmin Hsmax].
      set (mn' := mkCoord (Num.min (x mn) (x (cpmin stats)))
                          (Num.min (y mn) (y (cpmin stats)))
                          (Num.min (z mn) (z (cpmin stats)))).
      set (mx' := mkCoord (Num.max (x mx) (x (cpmax stats)))
                          (Num.max (y mx) (y (cpmax stats)))
                          (Num.max (z mx) (z (cpmax stats)))).
      assert (Hget : forall ax,
                coordGet ax mn' = Num.min (coordGet ax mn) (coordGet ax (cpmin stats))
                /\ coordGet ax mx' = Num.max (coordGet ax mx) (coordGet ax (cpmax stats)))
        by (intros ax; now destruct ax).
      assert (Hspec : forall ax,
                notNaN (coordGet ax mn') /\ notNaN (coordGet ax mx')
                /\ Num.leb (coordGet ax mn') (coordGet ax mn) = true
                /\ Num.leb (coordGet ax mn') (coordGet ax (cpmin stats)) = true
                /\ Num.leb (coordGet ax mx) (coordGet ax mx') = true
                /\ Num.leb (coordGet ax (cpmax stats)) (coordGet ax mx') = true
                /\ (coordGet ax mn' = coordGet ax mn
                    \/ coordGet ax mn' = coordGet ax (cpmin stats))
                /\ (coordGet ax mx' = coordGet ax mx
                    \/ coordGet ax mx' = coordGet ax (cpmax stats))).
      { intros ax. destruct (Hget ax) as [-> ->].
        destruct (min_spec _ _ (coordGet_ok ax mn Hmn) (coordGet_ok ax _ Hsmin))
          as (A1 & A2 & A3 & A4).
        destruct (max_spec _ _ (coordGet_ok ax mx Hmx) (coordGet_ok ax _ Hsmax))
          as (B1 & B2 & B3 & B4).
        auto 10. }
      assert (Hmn' : coordOk mn')
        by (repeat split; [apply (Hspec AxX)|apply (Hspec AxY)|apply (Hspec AxZ)]).
      assert (Hmx' : coordOk mx')
        by (repeat split; [apply (Hspec AxX)|apply (Hspec AxY)|apply (Hspec AxZ)]).
      destruct (IH mn' mx' Hmn' Hmx' Hrest) as (R1 & R2 & R).
      split; [exact R1|]. split; [exact R2|].
      intros ax. destruct (R ax) as (L1 & L2 & L3 & L4 & L5).
      destruct (Hspec ax) as (S1 & S2 & S3 & S4 & S5 & S6 & S7 & S8).
      pose proof (coordGet_ok ax _ R1). pose proof (coordGet_ok ax _ R2).
      pose proof (coordGet_ok ax _ Hmn). pose proof (coordGet_ok ax _ Hmx).
      pose proof (coordGet_ok ax _ Hsmin). pose proof (coordGet_ok ax _ Hsmax).
      split; [eapply leb_trans; [| | |exact L1|exact S3]; assumption|].
      split; [eapply leb_trans; [| | |exact S5|exact L2]; assumption|].
      split; [|split].
      * intros g cp [<-|Hg] Hgcp.
        -- rewrite Hcp in Hgcp. injection Hgcp as <-. split.
           ++ eapply leb_trans; [| | |exact L1|exact S4]; assumption.
           ++ eapply leb_trans; [| | |exact S6|exact L2]; assumption.
        -- exact (L3 g cp Hg Hgcp).
      * destruct L4 as [L4|(g & cp & Hg & Hgcp & L4)].
        -- rewrite L4. destruct S7 as [S7|S7]; [now left|right].
           exists f, stats. split; [now left|]. now split.
        -- right. exists g, cp. split; [now right|]. now split.
      * destruct L5 as [L5|(g & cp & Hg & Hgcp & L5)].
        -- rewrite L5. destruct S8 as [S8|S8]; [now left|right].
           exists f, stats. split; [now left|]. now split.
        -- right. exists g, cp. split; [now right|]. now split.
    + destruct (IH mn mx Hmn Hmx Hrest) as (R1 & R2 & R).
      split; [exact R1|]. split; [exact R2|].
      intros ax. destruct (R ax) as (L1 & L2 & L3 & L4 & L5).
      split; [exact L1|]. split; [exact L2|]. split; [|split].
      * intros g cp [<-|Hg] Hgcp; [congruence|exact (L3 g cp Hg Hgcp)].
      * destruct L4 as [L4|(g & cp & Hg & Hgcp & L4)]; [now left|right].
        exists g, cp. split; [now right|]. now split.
      * destruct L5 as [L5|(g & cp & Hg & Hgcp & L5)]; [now left|right].
        exists g, cp. split; [now right|]. now split.
Qed.

(** the files that [loadFiles] gives have trackers with numbers as bounds *)
Lemma loadFile_boundsOk p content st : boundsOk (fst (loadFile p content st)).
Proof.
  unfold boundsOk. rewrite loadFile_tracker.
  destruct (extractIsDrilling (loadFileLines content)); [exact I|].
  destruct (trackLines_bounds (loadFileLines content) newCommandProcessor
              newCommandProcessor_ok) as ((_ & H1 & H2 & _) & _). now split.
Qed.

(** X3. The aggregate statistics of a group are the componentwise
    minimum and maximum of the bounds of its members' trackers: on each
    axis the aggregate minimum is below every member's minimum and is the
    minimum of one of them, and likewise for the maximum; when no member
    has a tracker (only drilling files) they stay +Infinity and
    -Infinity. *)
Theorem aggregate_bounds (group : list FileObject) :
  Forall boundsOk group ->
  forall ax,
    (forall f cp, In f group -> commandProcessor f = Some cp ->
       Num.leb (coordGet ax (fst (aggregateStats group))) (coordGet ax (cpmin cp)) = true
       /\ Num.leb (coordGet ax (cpmax cp)) (coordGet ax (snd (aggregateStats group))) = true)
    /\ (coordGet ax (fst (aggregateStats group)) = Num.PInf
        \/ attained cpmin ax group (coordGet ax (fst (aggregateStats group))))
    /\ (coordGet ax (snd (aggregateStats group)) = Num.NInf
        \/ attained cpmax ax group (coordGet ax (snd (aggregateStats group))))
    /\ ((forall f, In f group -> commandProcessor f = None) ->
        coordGet ax (fst (aggregateStats group)) = Num.PInf
        /\ coordGet ax (snd (aggregateStats group)) = Num.NInf).
Proof.
  intros Hok ax. unfold aggregateStats.
  destruct (aggregateFrom_spec group (mkCoord Num.PInf Num.PInf Num.PInf)
              (mkCoord Num.NInf Num.NInf Num.NInf)) as (_ & _ & H);
    [repeat split..|exact Hok|].
  destruct (H ax) as (_ & _ & L3 & L4 & L5).
  assert (Hinf : coordGet ax (mkCoord Num.PInf Num.PInf Num.PInf) = Num.PInf
                 /\ coordGet ax (mkCoord Num.NInf Num.NInf Num.NInf) = Num.NInf)
    by (now destruct ax).
  destruct Hinf as [Hp Hn]. rewrite Hp in L4. rewrite Hn in L5.
  split; [exact L3|]. split; [exact L4|]. split; [exact L5|].
  intros Hnone. split.
  - destruct L4 as [L4|(f & cp & Hf & Hcp & _)]; [exact L4|].
    rewrite (Hnone f Hf) in Hcp. discriminate.
  - destruct L5 as [L5|(f & cp & Hf & Hcp & _)]; [exact L5|].
    rewrite (Hnone f Hf) in Hcp. discriminate.
Qed.

Lemma aggregate_bounds_witness :
  Forall boundsOk pairFiles
  /\ aggregateStats pairFiles
     = (mkCoord (Num.Fin 0 0) (Num.Fin 0 0) (Num.Fin 5 0),
        mkCoord (Num.Fin 2 0) (Num.Fin 0 0) (Num.Fin 5 0))
  /\ forall f cp, In f pairFiles -> commandProcessor f = Some cp ->
       Num.leb (coordGet AxX (cpmax cp)) (coordGet AxX (snd (aggregateStats pairFiles)))
       = true.
Proof.
  assert (Hok : Forall boundsOk pairFiles) by (vm_compute; repeat constructor).
  split; [exact Hok|]. split; [vm_compute; reflexivity|].
  intros f cp Hf Hcp.
  exact (proj2 (proj1 (aggregate_bounds pairFiles Hok AxX) f cp Hf Hcp)).
Defined.

(** ** Lines that are dropped carry no motion *)

Lemma ignorableToken_noAxis t : ignorableToken t = true -> tokenAxis t = None.
Proof.
  destruct t as [|c r]; [reflexivity|].
  unfold ignorableToken, ignorablePrefixes. cbn [List.existsb Str.startsWithCI].
  destruct c as [b0 b1 b2 b3 b4 b5 b6 b7].
  destruct b0, b1, b2, b3, b4, b5, b6, b7; intros H;
    try reflexivity; cbn in H; discriminate H.
Qed.

Lemma fold_noAxis ts pos :
  (forall t, In t ts -> tokenAxis t = None) -> fold_left applyToken ts pos = pos.
Proof.
  revert pos. induction ts as [|t ts IH]; intros pos H; [reflexivity|].
  cbn [fold_left]. unfold applyToken at 2. rewrite (H t) by now left.
  apply IH. intros t' Ht'. apply H. now right.
Qed.

Lemma calcIgnored_noAxis raw t :
  calcIgnored raw = true -> In t (lineTokens raw) -> tokenAxis t = None.
Proof.
  unfold calcIgnored, lineTokens. intros H Hin.
  destruct t as [|c r]; [reflexivity|].
  assert (Hf : In (String c r)
                  (List.filter (fun t => negb (Str.isEmpty t))
                               (Str.splitWs (Str.trim raw))))
    by (apply List.filter_In; now split).
  destruct (List.filter _ _) as [|t0 ts] eqn:E; [destruct Hf|].
  rewrite forallb_forall in H. apply ignorableToken_noAxis. now apply H.
Qed.

Lemma blank_noAxis raw t :
  Str.isEmpty (Str.trim raw) = true -> In t (lineTokens raw) -> tokenAxis t = None.
Proof.
  unfold lineTokens. destruct (Str.trim raw); [|discriminate].
  intros _ [<-|[]]. reflexivity.
Qed.

(** the static flags of a loaded line are those of its text *)
Lemma loaded_line_flags p content st ln :
  In ln (readArr (snd (loadFile p content st)) (lines (fst (loadFile p content st)))) ->
  ignored ln = calcIgnored (raw ln) /\ isComment ln = calcComment (raw ln)
  /\ tags ln = [].
Proof.
  pose proof (loadFile_lines p content st) as Hl. simpl in Hl. rewrite Hl.
  pose proof (loadFileLines_pristine content) as Hp.
  rewrite List.Forall_forall in Hp.
  destruct (isDrilling _).
  - intros Hin. destruct (Hp _ Hin) as (r & b & ->). repeat split.
  - intros Hin. destruct (trackLines_In _ _ _ Hin) as (ln0 & s & e & H0 & ->).
    destruct (classify_fields s e (setCoords s e ln0)) as (-> & _ & _ & -> & -> & ->).
    destruct (Hp _ H0) as (r & b & ->). repeat split.
Qed.

(** X4. A loaded line that is ignorable or blank ends where it starts:
    the lines that tagging drops for being ignorable or blank never carry a
    move of the tracker. *)
Theorem dropped_lines_carry_no_motion (p content : string) (st : Store) (ln : Line) :
  In ln (readArr (snd (loadFile p content st)) (lines (fst (loadFile p content st)))) ->
  ignored ln = true \/ isBlank ln = true ->
  endCoord ln = startCoord ln.
Proof.
  intros Hin Hdrop.
  destruct (loaded_line_flags p content st ln Hin) as (Hign & _ & _).
  pose proof (loadFile_lines p content st) as Hl. simpl in Hl. rewrite Hl in Hin.
  destruct (isDrilling _).
  - pose proof (loadFileLines_pristine content) as Hp.
    rewrite List.Forall_forall in Hp.
    now destruct (pristine_defaults ln (Hp _ Hin)) as (-> & -> & _).
  - pose proof (trackLines_chained (loadFileLines content) newCommandProcessor) as Hch.
    rewrite (chained_In _ _ _ Hch Hin). apply fold_noAxis. intros t Ht.
    destruct Hdrop as [Hd|Hd].
    + rewrite Hign in Hd. now apply (calcIgnored_noAxis (raw ln)).
    + now apply (blank_noAxis (raw ln)).
Qed.

Lemma dropped_lines_carry_no_motion_witness :
  let fo := fst (loadFile "s.nc" spindleText emptyStore) in
  let ls := readArr (snd (loadFile "s.nc" spindleText emptyStore)) (lines fo) in
  exists ln, In ln ls /\ raw ln = "M3 S1000" /\ ignored ln = true
             /\ endCoord ln = startCoord ln
             /\ endCoord ln = mkCoord (Num.Fin 1 1) (Num.Fin 0 0) (Num.Fin (-1) 0).
Proof.
  intros fo ls. pose (ln := nth 1 ls (newLine "")).
  assert (Hin : In ln ls) by (vm_compute; right; left; reflexivity).
  assert (Hign : ignored ln = true) by (vm_compute; reflexivity).
  exists ln. split; [exact Hin|]. split; [reflexivity|]. split; [exact Hign|].
  split; [|vm_compute; reflexivity].
  exact (dropped_lines_carry_no_motion "s.nc" spindleText emptyStore ln Hin
           (or_introl Hign)).
Defined.

(** ** Groups and setup numbers *)

Lemma filter_filter_and {A : Type} (p q : A -> bool) l :
  List.filter p (List.filter q l) = List.filter (fun a => q a && p a) l.
Proof.
  induction l as [|a l IH]; [reflexivity|]. cbn [List.filter].
  destruct (q a); cbn [andb List.filter]; [|exact IH].
  destruct (p a); now rewrite IH.
Qed.

(** appending the unseen keys one by one gives the first-seen list *)
Lemma fold_firstSeen (keys : list string) (acc : list string) :
  fold_left (fun m k => if includes m k then m else (m ++ [k])%list) keys acc
  = (acc ++ List.filter (fun k => negb (includes acc k)) (firstSeen keys))%list.
Proof.
  revert acc. induction keys as [|k keys IH]; intros acc.
  - cbn. now rewrite app_nil_r.
  - cbn [fold_left firstSeen List.filter]. rewrite IH, filter_filter_and.
    destruct (includes acc k) eqn:Hk; cbn [negb].
    + f_equal. apply List.filter_ext_in. intros k' _.
      destruct (String.eqb k' k) eqn:E; cbn [negb andb]; [|reflexivity].
      apply String.eqb_eq in E. subst k'. now rewrite Hk.
    + rewrite <- app_assoc. cbn [app]. f_equal. f_equal.
      apply List.filter_ext. intros k'.
      unfold includes. rewrite existsb_app. cbn [List.existsb].
      now destruct (List.existsb (String.eqb k') acc), (String.eqb k' k).
Qed.

Lemma fold_left_map {A B C : Type} (f : C -> B -> C) (g : A -> B) l acc :
  fold_left (fun m a => f m (g a)) l acc = fold_left f (map g l) acc.
Proof. revert acc. induction l as [|a l IH]; intros acc; [reflexivity|]. apply IH. Qed.

Lemma filter_id {A : Type} (p : A -> bool) l :
  (forall a, In a l -> p a = true) -> List.filter p l = l.
Proof.
  induction l as [|a l IH]; intros H; [reflexivity|]. cbn [List.filter].
  rewrite (H a) by now left. f_equal. apply IH. intros b Hb. apply H. now right.
Qed.

Lemma firstSeen_In l k : In k (firstSeen l) <-> In k l.
Proof.
  induction l as [|a l IH]; [reflexivity|]. cbn [firstSeen]. split.
  - intros [<-|H]; [now left|]. apply List.filter_In in H as [H _].
    right. now apply IH.
  - intros [<-|H]; [now left|].
    destruct (String.eqb k a) eqn:E.
    + apply String.eqb_eq in E. now left.
    + right. apply List.filter_In. split; [now apply IH|]. now rewrite E.
Qed.

Lemma filter_NoDup {A : Type} (p : A -> bool) l : List.NoDup l -> List.NoDup (List.filter p l).
Proof.
  induction 1 as [|a l Ha Hl IH]; cbn [List.filter]; [constructor|].
  destruct (p a); [|exact IH]. constructor; [|exact IH].
  intros H. apply List.filter_In in H as [H _]. contradiction.
Qed.

Lemma firstSeen_NoDup l : List.NoDup (firstSeen l).
Proof.
  induction l as [|a l IH]; cbn [firstSeen]; constructor.
  - intros H. apply List.filter_In in H as [_ H].
    now rewrite String.eqb_refl in H.
  - now apply filter_NoDup.
Qed.

(** the keys of the groups, as the loop leaves them *)
Lemma groupInsert_keys key f m :
  map fst (groupInsert key f m)
  = if includes (map fst m) key then map fst m else (map fst m ++ [key])%list.
Proof.
  induction m as [|[k g] m IH]; [reflexivity|].
  cbn [groupInsert map fst includes List.existsb]. unfold includes in *.
  cbn [List.existsb]. rewrite (String.eqb_sym key k).
  destruct (String.eqb k key); cbn [orb map fst]; [reflexivity|].
  rewrite IH. now destruct (List.existsb _ _).
Qed.

Lemma group_keys files m :
  map fst (fold_left (fun m f => groupInsert (groupKey f) f m) files m)
  = fold_left (fun ks k => if includes ks k then ks else (ks ++ [k])%list)
              (map groupKey files) (map fst m).
Proof.
  revert m. induction files as [|f files IH]; intros m; [reflexivity|].
  cbn [fold_left map]. now rewrite IH, groupInsert_keys.
Qed.

Lemma groups_keys_firstSeen files :
  map fst (groupBySetupAndTool files) = firstSeen (map groupKey files).
Proof.
  unfold groupBySetupAndTool. rewrite group_keys, fold_firstSeen. cbn [map app].
  apply filter_id. reflexivity.
Qed.

Lemma lookup_of_In k g (m : list (string * list FileObject)) :
  List.NoDup (map fst m) -> In (k, g) m -> groupLookup k m = Some g.
Proof.
  unfold groupLookup. induction m as [|[k0 g0] m IH]; intros Hnd Hin; [destruct Hin|].
  cbn [find fst]. inversion Hnd as [|? ? Hk0 Hnd']; subst.
  destruct Hin as [Heq|Hin].
  - injection Heq as -> ->. now rewrite String.eqb_refl.
  - destruct (String.eqb k0 k) eqn:E; [|now apply IH].
    apply String.eqb_eq in E. subst k0. exfalso. apply Hk0.
    apply in_map_iff. now exists (k, g).
Qed.

(** the concatenation of the groups, spelt out over the keys *)
Lemma concat_groups_perm (keys : list string) (files : list FileObject) :
  List.NoDup keys -> (forall f, In f files -> In (groupKey f) keys) ->
  Permutation
    (concat (map (fun k => List.filter (fun f => String.eqb (groupKey f) k) files) keys))
    files.
Proof.
  revert files. induction keys as [|k keys IH]; intros files Hnd Hall.
  - destruct files as [|f files]; [reflexivity|]. destruct (Hall f); now left.
  - inversion Hnd as [|? ? Hk Hnd']; subst. cbn [map concat].
    set (rest := List.filter (fun f => negb (String.eqb (groupKey f) k)) files).
    assert (Hrest : map (fun k' => List.filter (fun f => String.eqb (groupKey f) k') files) keys
                    = map (fun k' => List.filter (fun f => String.eqb (groupKey f) k') rest) keys).
    { apply map_ext_in. intros k' Hk'. unfold rest. rewrite filter_filter_and.
      apply List.filter_ext. intros f.
      destruct (String.eqb (groupKey f) k') eqn:E; [|now rewrite andb_false_r].
      apply String.eqb_eq in E. rewrite andb_true_r.
      destruct (String.eqb (groupKey f) k) eqn:E'; [|reflexivity].
      apply String.eqb_eq in E'. congruence. }
    rewrite Hrest, IH; [| exact Hnd' |].
    + unfold rest. clear. induction files as [|f files IHf]; [reflexivity|].
      cbn [List.filter]. destruct (String.eqb (groupKey f) k); cbn [negb app].
      * now apply perm_skip.
      * rewrite <- Permutation_middle. now apply perm_skip.
    + intros f Hf. unfold rest in Hf. apply List.filter_In in Hf as [Hf Hne].
      destruct (Hall f Hf) as [Heq|H]; [|exact H].
      rewrite <- Heq, String.eqb_refl in Hne. discriminate.
Qed.

Lemma groups_NoDup files : List.NoDup (map fst (groupBySetupAndTool files)).
Proof. rewrite groups_keys_firstSeen. apply firstSeen_NoDup. Qed.

Lemma group_In_spec files k g :
  In (k, g) (groupBySetupAndTool files) ->
  g = List.filter (fun f => String.eqb (groupKey f) k) files /\ g <> [].
Proof.
  intros Hin.
  pose proof (lookup_of_In k g _ (groups_NoDup files) Hin) as Hl.
  unfold groupBySetupAndTool in Hl. rewrite group_members in Hl.
  assert (Hk : In k (map groupKey files)).
  { apply firstSeen_In. rewrite <- groups_keys_firstSeen.
    apply in_map_iff. now exists (k, g). }
  apply in_map_iff in Hk as (f & Hf & Hin').
  destruct (List.filter _ files) as [|f0 fs] eqn:E.
  - exfalso. assert (H : In f []); [|destruct H].
    rewrite <- E. apply List.filter_In. split; [exact Hin'|].
    now apply String.eqb_eq.
  - cbn in Hl. injection Hl as <-. split; [reflexivity|discriminate].
Qed.

Lemma assignSetupNumbers_firstSeen files :
  assignSetupNumbers files = firstSeen (map setupName files).
Proof.
  unfold assignSetupNumbers.
  rewrite (fold_left_map (fun m k => if includes m k then m else (m ++ [k])%list) setupName).
  rewrite fold_firstSeen. cbn [app]. apply filter_id. reflexivity.
Qed.

Lemma groups_concat_perm files :
  Permutation (concat (map snd (groupBySetupAndTool files))) files.
Proof.
  assert (Hsnd : map snd (groupBySetupAndTool files)
                 = map (fun k => List.filter (fun f => String.eqb (groupKey f) k) files)
                       (map fst (groupBySetupAndTool files))).
  { rewrite map_map. apply map_ext_in. intros [k g] Hin. cbn [fst snd].
    now destruct (group_In_spec files k g Hin). }
  rewrite Hsnd. apply concat_groups_perm; [apply groups_NoDup|].
  intros f Hf. rewrite groups_keys_firstSeen. apply firstSeen_In.
  now apply in_map.
Qed.

(** X5. Grouping neither loses nor duplicates a file: the groups taken
    together are a permutation of the files; no key occurs twice; and the
    group of a key is exactly the files of that key, in their order in the
    list that was grouped (so no group is empty). *)
Theorem groups_partition (files : list FileObject) :
  Permutation (concat (map snd (groupBySetupAndTool files))) files
  /\ List.NoDup (map fst (groupBySetupAndTool files))
  /\ forall k g, In (k, g) (groupBySetupAndTool files) ->
       g = List.filter (fun f => String.eqb (groupKey f) k) files /\ g <> [].
Proof.
  split; [apply groups_concat_perm|].
  split; [apply groups_NoDup|apply group_In_spec].
Qed.

Lemma groups_partition_witness :
  exists g, In ("A||T1", g) (groupBySetupAndTool opsFiles)
    /\ g = List.filter (fun f => String.eqb (groupKey f) "A||T1") opsFiles
    /\ g <> [].
Proof.
  eexists. split; [vm_compute; left; reflexivity|].
  apply (proj2 (proj2 (groups_partition opsFiles))).
  vm_compute. left. reflexivity.
Defined.

(** X6. The groups come in the order in which their keys are first seen
    in the list that was grouped, and [assignSetupNumbers] numbers the
    setup names in the order in which they are first seen: both lists have
    each key or name once, and every file's key or name is in them. *)
Theorem first_seen_order (files : list FileObject) :
  map fst (groupBySetupAndTool files) = firstSeen (map groupKey files)
  /\ assignSetupNumbers files = firstSeen (map setupName files)
  /\ List.NoDup (assignSetupNumbers files)
  /\ (forall f, In f files -> In (setupName f) (assignSetupNumbers files))
  /\ (forall n, In n (assignSetupNumbers files) -> exists f, In f files /\ setupName f = n).
Proof.
  pose proof (assignSetupNumbers_firstSeen files) as Hs.
  split; [apply groups_keys_firstSeen|]. split; [exact Hs|].
  rewrite Hs. split; [apply firstSeen_NoDup|]. split.
  - intros f Hf. apply firstSeen_In. now apply in_map.
  - intros n Hn. apply (proj1 (firstSeen_In _ _)) in Hn.
    apply in_map_iff in Hn as (f & <- & Hf). eauto.
Qed.

Lemma first_seen_order_witness :
  map fst (groupBySetupAndTool toolsTwoFiles) = ["top||T1"; "top||T2"]
  /\ assignSetupNumbers toolsTwoFiles = ["top"]
  /\ forall f, In f toolsTwoFiles -> In (setupName f) (assignSetupNumbers toolsTwoFiles).
Proof.
  split; [vm_compute; reflexivity|]. split; [vm_compute; reflexivity|].
  exact (proj1 (proj2 (proj2 (proj2 (first_seen_order toolsTwoFiles))))).
Defined.

(** ** The text of a fast move *)

Lemma rapidText_unfold raw :
  rapidText raw
  = if startsRapid (rapidFirst raw) then rapidFirst raw
    else "G0 " ++ Str.dropWhile isSpace (rapidFirst raw).
Proof. reflexivity. Qed.

(** X7. The text printed for a fast move always starts with the word G0:
    a leading G1 is replaced, a text that starts with G0 is kept as it is,
    and any other text gets "G0 " in front. Hence building the text twice
    changes nothing. *)
Theorem rapid_text_starts_G0 (raw : string) :
  startsRapid (rapidText raw) = true
  /\ (startsRapid raw = true -> rapidText raw = raw)
  /\ rapidText (rapidText raw) = rapidText raw.
Proof.
  assert (Hkeep : forall s, startsRapid s = true -> rapidText s = s).
  { intros s Hs. unfold startsRapid in Hs. unfold rapidText.
    apply andb_true_iff in Hs as [H1 H2].
    assert (Hg1 : Str.startsWithCI "G1" (Str.dropWhile isSpace s) = false).
    { destruct (Str.dropWhile isSpace s) as [|a [|b r]];
        [reflexivity|cbn [Str.startsWithCI]; apply andb_false_r|].
      cbn [Str.startsWithCI] in *. apply andb_true_iff in H1 as [Ha H1].
      rewrite Ha. cbn [andb]. apply andb_true_iff in H1 as [Hb _].
      unfold eqbCI in *. apply Ascii.eqb_eq in Hb.
      destruct (Ascii.eqb (toUpper "1") (toUpper b)) eqn:E; [|reflexivity].
      apply Ascii.eqb_eq in E. rewrite <- E in Hb. discriminate. }
    rewrite Hg1. cbn [andb]. now rewrite H1, H2. }
  assert (Hstart : startsRapid (rapidText raw) = true).
  { rewrite rapidText_unfold.
    destruct (startsRapid (rapidFirst raw)) eqn:Hs; [exact Hs|reflexivity]. }
  split; [exact Hstart|]. split; [apply Hkeep|]. now apply Hkeep.
Qed.

Lemma rapid_text_starts_G0_witness :
  startsRapid "g0 X1 Y2" = true /\ rapidText "g0 X1 Y2" = "g0 X1 Y2".
Proof.
  split; [reflexivity|].
  exact (proj1 (proj2 (rapid_text_starts_G0 "g0 X1 Y2")) eq_refl).
Defined.

(** ** Lines without a feed word *)

Lemma matchFeed_noF pw s : noFeedLetter s = true -> matchFeed pw s = None.
Proof.
  destruct s as [|c s]; [reflexivity|]. unfold noFeedLetter. cbn [Str.existsb].
  intros H. apply negb_true_iff, orb_false_iff in H as [H _].
  now apply matchFeed_notF.
Qed.

Lemma replaceFeedFrom_noF n rep pw s :
  noFeedLetter s = true -> replaceFeedFrom n rep pw s = s.
Proof.
  revert pw s. induction n as [|n IH]; intros pw s H; [reflexivity|].
  destruct s as [|c s]; [reflexivity|]. cbn [replaceFeedFrom].
  rewrite (matchFeed_noF pw _ H). f_equal. apply IH.
  unfold noFeedLetter in *. cbn [Str.existsb] in H.
  apply negb_true_iff, orb_false_iff in H as [_ H]. now rewrite H.
Qed.

(** X8. Whatever the override, the feed-rate substitution leaves a line
    without the letter F (in either case) as it is. *)
Theorem feed_rate_keeps_lines_without_F (params : Params) (line : string) :
  noFeedLetter line = true -> processFeedRate params line = line.
Proof.
  intros H. unfold processFeedRate. destruct (fr params); [|reflexivity].
  now apply replaceFeedFrom_noF.
Qed.

Lemma feed_rate_keeps_lines_without_F_witness :
  noFeedLetter "G1 X10 Y-2.5 Z0" = true
  /\ processFeedRate override500 "G1 X10 Y-2.5 Z0" = "G1 X10 Y-2.5 Z0".
Proof.
  assert (H : noFeedLetter "G1 X10 Y-2.5 Z0" = true) by reflexivity.
  split; [exact H|].
  exact (feed_rate_keeps_lines_without_F override500 "G1 X10 Y-2.5 Z0" H).
Defined.

(** ** The lines of a tagged group *)

Lemma tagLines_content allow lastWasFast ls :
  Forall (fun ln => isContent ln = true /\ isBlank ln = false)
         (tagLines allow lastWasFast ls).
Proof.
  revert lastWasFast. induction ls as [|l ls IH]; intros lw; [constructor|].
  cbn [tagLines]. destruct (isContent l) eqn:Hc; [|apply IH].
  destruct (isBlank l) eqn:Hb; [apply IH|].
  assert (Hl : isContent (parseTags l) = true /\ isBlank (parseTags l) = false)
    by (split; assumption).
  assert (Hr : isContent (resetLine (parseTags l)) = true
               /\ isBlank (resetLine (parseTags l)) = false) by (split; reflexivity).
  destruct allow; [|now constructor].
  destruct (isFastMove (parseTags l)); [now constructor|].
  destruct lw; repeat constructor; auto.
Qed.

Lemma tagged_array_In group st f' ln :
  storeOk st group ->
  In f' (fst (addTagsToLines group st)) ->
  In ln (readArr (snd (addTagsToLines group st)) (lines f')) ->
  exists f, In f group /\ In ln (pushedBy st f)
            /\ Forall untagged (readArr st (lines f)).
Proof.
  intros Hok Hf' Hln.
  assert (Hwf : Forall (wfFile st) group).
  { eapply List.Forall_impl; [|exact Hok]. now intros f [H _]. }
  rewrite (addTagsToLines_member group st f' Hwf Hf') in Hln.
  apply in_concat in Hln as (pushed & Hp & Hln).
  apply in_map_iff in Hp as (f & <- & Hf).
  unfold storeOk in Hok. rewrite List.Forall_forall in Hok.
  exists f. split; [exact Hf|]. split; [exact Hln|]. now destruct (Hok f Hf).
Qed.

(** X9. After a group is tagged, every line of the array that the
    members hold is a content line and not blank, so the content loop skips
    none of them for being ignorable, a comment or blank: without a filter
    it pushes exactly one string per line of the array. *)
Theorem tagged_lines_all_printed (group : list FileObject) (st : Store) :
  storeOk st group ->
  forall f', In f' (fst (addTagsToLines group st)) ->
    (forall ln, In ln (readArr (snd (addTagsToLines group st)) (lines f')) ->
       isContent ln = true /\ isBlank ln = false)
    /\ forall params allowFast, filtered params = false ->
         List.length (concat (map (emitLine params allowFast)
                                  (readArr (snd (addTagsToLines group st)) (lines f'))))
         = List.length (readArr (snd (addTagsToLines group st)) (lines f')).
Proof.
  intros Hok f' Hf'.
  assert (Hall : forall ln,
            In ln (readArr (snd (addTagsToLines group st)) (lines f')) ->
            isContent ln = true /\ isBlank ln = false).
  { intros ln Hln.
    destruct (tagged_array_In group st f' ln Hok Hf' Hln) as (f & _ & Hp & _).
    pose proof (tagLines_content (allowFastMoves f) false (readArr st (lines f))) as H.
    rewrite List.Forall_forall in H. now apply H. }
  split; [exact Hall|].
  intros params allowFast Hfil.
  induction (readArr (snd (addTagsToLines group st)) (lines f')) as [|ln ls IH];
    [reflexivity|].
  cbn [map concat]. rewrite length_app, IH by (intros l Hl; apply Hall; now right).
  destruct (Hall ln (or_introl eq_refl)) as [Hc Hb].
  unfold emitLine. rewrite Hc, Hb, Hfil. cbn [andb].
  destruct allowFast; [destruct (isFastMove ln)|]; reflexivity.
Qed.

Lemma tagged_lines_all_printed_witness :
  storeOk demoStore demoFiles
  /\ forall f', In f' (fst (addTagsToLines demoFiles demoStore)) ->
       List.length (concat (map (emitLine noParams true)
                      (readArr (snd (addTagsToLines demoFiles demoStore)) (lines f'))))
       = 5%nat.
Proof.
  assert (Hok : storeOk demoStore demoFiles) by (vm_compute; repeat constructor).
  split; [exact Hok|]. intros f' Hf'.
  rewrite (proj2 (tagged_lines_all_printed demoFiles demoStore Hok f' Hf')
             noParams true eq_refl).
  vm_compute in Hf'. destruct Hf' as [<-|[]]. vm_compute. reflexivity.
Defined.

(** ** Filtering *)

Lemma matchTags_app ln t1 t2 :
  matchTags ln (t1 ++ t2)%list = matchTags ln t1 && matchTags ln t2.
Proof. unfold matchTags. apply forallb_app. Qed.

(** X10. For a content line that is not blank, an active filter either
    drops the line or leaves what is printed without a filter: the line is
    dropped exactly when some filter tag is not among its tags. A filter
    with more tags never prints a line that a filter with fewer tags
    drops, and the filter with no tag prints every line. *)
Theorem filter_only_drops (params : Params) (allowFast : bool) (ln : Line)
    (ts ts' : list string) :
  isContent ln = true -> isBlank ln = false ->
  emitLine (withFilter ts params) allowFast ln
  = (if matchTags ln ts then emitLine (noFilter params) allowFast ln else [])
  /\ (matchTags ln ts = false <-> exists t, In t ts /\ hasTag t (tags ln) = false)
  /\ (emitLine (withFilter ts params) allowFast ln = [] ->
      emitLine (withFilter (ts ++ ts') params) allowFast ln = [])
  /\ emitLine (withFilter [] params) allowFast ln = emitLine (noFilter params) allowFast ln
  /\ emitLine (noFilter params) allowFast ln <> [].
Proof.
  intros Hc Hb.
  assert (Hne : emitLine (noFilter params) allowFast ln <> []).
  { unfold emitLine. rewrite Hc, Hb. cbn [filtered noFilter andb].
    destruct allowFast; [destruct (isFastMove ln)|]; discriminate. }
  assert (Hemit : forall us,
            emitLine (withFilter us params) allowFast ln
            = if matchTags ln us then emitLine (noFilter params) allowFast ln else []).
  { intros us. unfold emitLine. rewrite Hc, Hb.
    cbn [filtered filterTags withFilter noFilter andb].
    destruct (matchTags ln us); reflexivity. }
  split; [apply Hemit|]. split; [|split; [|split; [|exact Hne]]].
  - unfold matchTags. split.
    + intros H. apply not_true_iff_false in H.
      destruct (List.existsb (fun t => negb (hasTag t (tags ln))) ts) eqn:E.
      * apply existsb_exists in E as (t & Ht & Hn). exists t. split; [exact Ht|].
        now apply negb_true_iff.
      * exfalso. apply H. apply forallb_forall. intros t Ht.
        destruct (hasTag t (tags ln)) eqn:E'; [reflexivity|].
        assert (Hex : List.existsb (fun t => negb (hasTag t (tags ln))) ts = true)
          by (apply existsb_exists; exists t; split; [exact Ht|now rewrite E']).
        congruence.
    + intros (t & Ht & Hn). apply not_true_iff_false. intros H.
      rewrite forallb_forall in H. specialize (H t Ht). congruence.
  - rewrite !Hemit, matchTags_app. destruct (matchTags ln ts); [|reflexivity].
    intros H. contradiction.
  - rewrite Hemit. reflexivity.
Qed.

Lemma filter_only_drops_witness :
  let ln := nth 1 (concat (map (pushedBy demoStore) demoFiles)) (newLine "") in
  (isContent ln = true /\ isBlank ln = false)
  /\ tags ln = ["FAST"; "XY"; "UNENGAGED"]
  /\ emitLine (withFilter ["FAST"; "Z"] noParams) true ln = [].
Proof.
  intros ln.
  assert (Hc : isContent ln = true) by (vm_compute; reflexivity).
  assert (Hb : isBlank ln = false) by (vm_compute; reflexivity).
  split; [now split|]. split; [vm_compute; reflexivity|].
  rewrite (proj1 (filter_only_drops noParams true ln ["FAST"; "Z"] [] Hc Hb)).
  vm_compute. reflexivity.
Defined.

(** ** The tags of the lines of a tagged group *)

Lemma parseTags_derived l0 :
  untagged l0 ->
  tags (parseTags l0) = derivedTags (parseTags l0)
  /\ isReset (parseTags l0) = false
  /\ hasTag "FAST" (tags (parseTags l0)) = isFastMove (parseTags l0)
  /\ hasTag "UNENGAGED" (tags (parseTags l0)) = unengaged (parseTags l0)
  /\ hasTag "X" (tags (parseTags l0))
     = hasX (parseTags l0) && negb (hasY (parseTags l0)) && negb (hasZ (parseTags l0)).
Proof.
  unfold untagged, isReset, derivedTags, axesTag, unengaged, parseTags.
  intros ->. cbn [tags setTags isFastMove hasX hasY hasZ startCoord endCoord].
  destruct (isFastMove l0), (hasX l0), (hasY l0), (hasZ l0),
    (Num.geb (z (startCoord l0)) (Num.Fin 0 0)),
    (Num.geb (z (endCoord l0)) (Num.Fin 0 0)); repeat split; reflexivity.
Qed.

Lemma resetLine_flags l0 :
  isReset (resetLine l0) = true
  /\ hasX (resetLine l0) = false /\ hasY (resetLine l0) = false
  /\ hasZ (resetLine l0) = false.
Proof. unfold resetLine, clone; simpl. repeat split; reflexivity. Qed.

(** X11. In a tagged group every line of the array either is a modal
    reset line, tagged RESET-FR only and not a fast move, or carries
    exactly the derived tags in the order FAST (fast moves only), the axis
    tag, UNENGAGED (both ends at z >= 0 only). Hence the filter FAST prints
    the fast moves and nothing else, and the tag X is on the lines that
    name the X axis and no other axis: a move along X and Y is tagged XY
    and a filter on X drops it. *)
Theorem tags_of_tagged_lines (group : list FileObject) (st : Store)
    (f' : FileObject) (ln : Line) :
  storeOk st group ->
  In f' (fst (addTagsToLines group st)) ->
  In ln (readArr (snd (addTagsToLines group st)) (lines f')) ->
  (tags ln = ["RESET-FR"] /\ isFastMove ln = false
   \/ isReset ln = false /\ tags ln = derivedTags ln)
  /\ (forall params allowFast,
        emitLine (withFilter ["FAST"] params) allowFast ln <> []
        <-> isFastMove ln = true)
  /\ (hasTag "X" (tags ln) = true
      <-> isReset ln = false /\ hasX ln = true /\ hasY ln = false /\ hasZ ln = false)
  /\ (hasTag "UNENGAGED" (tags ln) = true
      <-> isReset ln = false /\ unengaged ln = true).
Proof.
  intros Hok Hf' Hln.
  destruct (tagged_array_In group st f' ln Hok Hf' Hln) as (f & _ & Hp & Hun).
  pose proof (tagLines_content (allowFastMoves f) false (readArr st (lines f))) as Hall.
  rewrite List.Forall_forall in Hall. destruct (Hall ln Hp) as [Hc Hb].
  assert (Hfast : hasTag "FAST" (tags ln) = isFastMove ln ->
            forall params allowFast,
              emitLine (withFilter ["FAST"] params) allowFast ln <> []
              <-> isFastMove ln = true).
  { intros Ht params allowFast. unfold emitLine. rewrite Hc, Hb.
    cbn [filtered filterTags withFilter andb matchTags forallb]. rewrite Ht.
    destruct (isFastMove ln); cbn [andb negb].
    - split; [reflexivity|]. intros _. destruct allowFast; discriminate.
    - split; [intros H; now contradiction H|discriminate]. }
  apply tagLines_In in Hp as (l0 & Hl0 & Hor).
  rewrite List.Forall_forall in Hun. specialize (Hun l0 Hl0).
  destruct Hor as [->|[_ ->]].
  - destruct (parseTags_derived l0 Hun) as (Ht & Hr & HF & HU & HX).
    split; [right; now split|]. split; [now apply Hfast|]. split.
    + rewrite HX, Hr. split.
      * intros H. apply andb_prop in H as [H H3]. apply andb_prop in H as [H1 H2].
        apply negb_true_iff in H2, H3. auto.
      * intros (_ & -> & -> & ->). reflexivity.
    + rewrite HU, Hr. tauto.
  - destruct (resetLine_fields (parseTags l0)) as (_ & Ht & _ & _ & Hfm & _).
    destruct (resetLine_flags (parseTags l0)) as (Hr & Hx & _).
    split; [left; now split|]. split.
    + apply Hfast. rewrite Ht, Hfm. reflexivity.
    + rewrite Ht, Hr. cbn. split; split; intros H; try discriminate;
        destruct H; discriminate.
Qed.

Lemma tags_of_tagged_lines_witness :
  let ln := nth 1 (concat (map (pushedBy demoStore) demoFiles)) (newLine "") in
  storeOk demoStore demoFiles
  /\ tags ln = ["FAST"; "XY"; "UNENGAGED"]
  /\ (hasTag "X" (tags ln) = true
      <-> isReset ln = false /\ hasX ln = true /\ hasY ln = false /\ hasZ ln = false).
Proof.
  intros ln.
  assert (Hok : storeOk demoStore demoFiles) by (vm_compute; repeat constructor).
  split; [exact Hok|]. split; [vm_compute; reflexivity|].
  refine (proj1 (proj2 (proj2 (tags_of_tagged_lines demoFiles demoStore
            (nth 0 (fst (addTagsToLines demoFiles demoStore))
                 (newFileObject "" 0%nat [])) ln Hok _ _)))).
  - vm_compute. left. reflexivity.
  - vm_compute. right. left. reflexivity.
Defined.

(** ** What the loader loads *)

Lemma trackLines_raw ls cp : map raw (snd (trackLines cp ls)) = map raw ls.
Proof.
  revert cp. induction ls as [|ln ls IH]; intros cp; [reflexivity|].
  cbn [trackLines]. destruct (processLine cp ln) as [cp1 [s e]].
  specialize (IH cp1). destruct (trackLines cp1 ls) as [cp2 out].
  cbn [snd map] in *. rewrite IH. f_equal.
  unfold classify.
  destruct (_ && _ && _); [reflexivity|]. destruct (_ && _ && _ && _); reflexivity.
Qed.

Lemma loadFile_raw p content st :
  map raw (readArr (snd (loadFile p content st)) (lines (fst (loadFile p content st))))
  = Str.splitLines content.
Proof.
  pose proof (loadFile_lines p content st) as H. cbv zeta in H. rewrite H.
  destruct (isDrilling _); [|rewrite trackLines_raw]; apply loadFileLines_raw.
Qed.

Lemma loadFilesFrom_spec readFile defFiles paths files st :
  let kept := List.filter (fun p => negb (includes defFiles p)) paths in
  let res := loadFilesFrom readFile defFiles paths files st in
  map path (fst res) = (map path files ++ kept)%list
  /\ map lines (fst res) = (map lines files ++ seq (next st) (List.length kept))%list
  /\ next (snd res) = (next st + List.length kept)%nat
  /\ (forall l, (l < next st)%nat -> readArr (snd res) l = readArr st l)
  /\ forall f, In f (fst res) ->
       In f files
       \/ map raw (readArr (snd res) (lines f)) = Str.splitLines (readFile (path f)).
Proof.
  revert files st. induction paths as [|p rest IH]; intros files st; cbv zeta.
  - cbn [loadFilesFrom List.filter fst snd List.length seq].
    rewrite !app_nil_r, Nat.add_0_r. repeat split; auto.
  - cbn [loadFilesFrom List.filter]. destruct (includes defFiles p) eqn:Hinc;
      cbn [negb]; [apply IH|].
    pose proof (loadFile_store p (readFile p) st) as (Hl & Hn & Hkeep).
    pose proof (loadFile_path p (readFile p) st) as Hp.
    pose proof (loadFile_raw p (readFile p) st) as Hraw.
    destruct (loadFile p (readFile p) st) as [fo st'] eqn:Hload.
    cbn [fst snd] in Hl, Hn, Hkeep, Hp, Hraw.
    specialize (IH (files ++ [fo])%list st'). cbv zeta in IH.
    destruct IH as (IH1 & IH2 & IH3 & IH4 & IH5).
    cbn [List.length seq].
    rewrite IH1, IH2, IH3, Hn, !map_app, <- !List.app_assoc. cbn [map app].
    rewrite Hp, Hl. split; [reflexivity|]. split; [reflexivity|].
    split; [lia|]. split.
    + intros l Hlt. rewrite IH4 by lia. apply Hkeep. lia.
    + intros f Hf. destruct (IH5 f Hf) as [Hin|Hr]; [|now right].
      apply in_app_or in Hin as [Hin|[<-|[]]]; [now left|right].
      rewrite IH4 by lia. rewrite Hp. exact Hraw.
Qed.

Lemma includes_defFiles readFile ncPaths p :
  In p ncPaths ->
  includes (snd (buildToolDict readFile ncPaths)) p = hasDef readFile p.
Proof.
  intros Hp. unfold buildToolDict.
  rewrite (proj2 (buildToolDictFrom_spec readFile ncPaths ∅ [])). cbn [app].
  destruct (hasDef readFile p) eqn:Hd.
  - apply includes_In. apply filter_In. now split.
  - apply not_true_iff_false. intros H. apply includes_In in H.
    apply filter_In in H as [_ H]. congruence.
Qed.

Lemma loadFiles_spec readFile ncPaths :
  map path (fst (loadFiles readFile (snd (buildToolDict readFile ncPaths)) ncPaths))
  = List.filter (fun p => negb (hasDef readFile p)) ncPaths
  /\ map lines (fst (loadFiles readFile (snd (buildToolDict readFile ncPaths)) ncPaths))
     = seq 0 (List.length
                (fst (loadFiles readFile (snd (buildToolDict readFile ncPaths)) ncPaths)))
  /\ next (snd (loadFiles readFile (snd (buildToolDict readFile ncPaths)) ncPaths))
     = List.length
         (fst (loadFiles readFile (snd (buildToolDict readFile ncPaths)) ncPaths))
  /\ forall f,
       In f (fst (loadFiles readFile (snd (buildToolDict readFile ncPaths)) ncPaths)) ->
       map raw (readArr (snd (loadFiles readFile (snd (buildToolDict readFile ncPaths))
                                        ncPaths)) (lines f))
       = Str.splitLines (readFile (path f)).
Proof.
  cbv zeta. unfold loadFiles.
  pose proof (loadFilesFrom_spec readFile (snd (buildToolDict readFile ncPaths))
                ncPaths [] emptyStore) as H.
  cbv zeta in H. cbn [map app next emptyStore Nat.add] in H.
  destruct H as (H1 & H2 & H3 & _ & H5).
  assert (Hf : List.filter
                 (fun p => negb (includes (snd (buildToolDict readFile ncPaths)) p))
                 ncPaths
               = List.filter (fun p => negb (hasDef readFile p)) ncPaths).
  { apply filter_ext_in. intros p Hp. now rewrite includes_defFiles. }
  assert (Hlen : List.length (fst (loadFilesFrom readFile
                    (snd (buildToolDict readFile ncPaths)) ncPaths [] emptyStore))
                 = List.length (List.filter
                     (fun p => negb (includes (snd (buildToolDict readFile ncPaths)) p))
                     ncPaths)).
  { rewrite <- (length_map path), H1. reflexivity. }
  split; [now rewrite H1, Hf|]. split; [now rewrite H2, Hlen|].
  split; [now rewrite H3, Hlen|].
  intros f Hin. destruct (H5 f Hin) as [[]|Hr]. exact Hr.
Qed.

(** X12. The loader loads exactly the enumerated files without a tool
    definition, once each and in the order of enumeration; every loaded
    file has a line array of its own, and the array holds, line by line and
    in order, the text of the file split at its line ends: loading a later
    file never changes the lines of an earlier one, and tracking and
    classification never change the text of a line. *)
Theorem loaded_files (readFile : string -> string) (ncPaths : list string) :
  let defFiles := snd (buildToolDict readFile ncPaths) in
  let files := fst (loadFiles readFile defFiles ncPaths) in
  let st := snd (loadFiles readFile defFiles ncPaths) in
  map path files = List.filter (fun p => negb (hasDef readFile p)) ncPaths
  /\ map lines files = seq 0 (List.length files)
  /\ next st = List.length files
  /\ forall f, In f files ->
       map raw (readArr st (lines f)) = Str.splitLines (readFile (path f)).
Proof.
  cbv zeta. destruct (loadFiles_spec readFile ncPaths) as (H1 & H2 & H3 & H4).
  auto.
Qed.

Lemma loaded_files_witness :
  map path (fst (loadFiles toolsRead (snd (buildToolDict toolsRead toolsPaths)) toolsPaths))
  = ["part.nc"]
  /\ forall f,
       In f (fst (loadFiles toolsRead (snd (buildToolDict toolsRead toolsPaths))
                            toolsPaths)) ->
       map raw (readArr (snd (loadFiles toolsRead
                                (snd (buildToolDict toolsRead toolsPaths)) toolsPaths))
                        (lines f))
       = Str.splitLines (toolsRead (path f)).
Proof.
  split; [vm_compute; reflexivity|].
  exact (proj2 (proj2 (proj2 (loaded_files toolsRead toolsPaths)))).
Defined.

(** X13. The tool dictionary holds, for every key, the entry of the
    first enumerated file whose definition has that key, and no entry for a
    key that no file defines; an entry's file is an enumerated file that is
    listed as a definition file, and the definition files are the enumerated
    files with a definition, in the order of enumeration. *)
Theorem tool_dictionary_exact (readFile : string -> string) (ncPaths : list string) :
  let toolDict := fst (buildToolDict readFile ncPaths) in
  let defFiles := snd (buildToolDict readFile ncPaths) in
  (forall key, toolDict !! key = firstDefinition readFile key ncPaths)
  /\ defFiles = List.filter (hasDef readFile) ncPaths
  /\ (forall key e, toolDict !! key = Some e ->
        In (definitionFilename e) ncPaths
        /\ In (definitionFilename e) defFiles
        /\ exists digits dia,
             key = "T" ++ digits
             /\ fileDef readFile (definitionFilename e) = Some (digits, dia)
             /\ diameter e = Num.parseFloat dia)
  /\ (forall key, (forall p, In p ncPaths -> hasDef readFile p = false) ->
        toolDict !! key = None).
Proof.
  cbv zeta. unfold buildToolDict.
  destruct (buildToolDictFrom_spec readFile ncPaths ∅ []) as [Hd Hf].
  cbn [app] in Hf.
  assert (Hkey : forall key,
            fst (buildToolDictFrom readFile ncPaths ∅ []) !! key
            = firstDefinition readFile key ncPaths).
  { intros key. rewrite Hd, lookup_empty. reflexivity. }
  split; [exact Hkey|]. split; [exact Hf|]. split.
  - intros key e He. rewrite Hkey in He.
    apply firstDefinition_some in He
      as (pre & p0 & post & digits & dia0 & Hp & Hk & Hdef & -> & _).
    cbn [definitionFilename diameter].
    assert (Hin : In p0 ncPaths) by (rewrite Hp; apply in_elt).
    split; [exact Hin|]. split.
    + rewrite Hf. apply filter_In. split; [exact Hin|].
      unfold hasDef. now rewrite Hdef.
    + exists digits, dia0. auto.
  - intros key Hnone. rewrite Hkey.
    destruct (firstDefinition readFile key ncPaths) as [e|] eqn:He; [|reflexivity].
    apply firstDefinition_some in He
      as (pre & p0 & post & digits & dia0 & Hp & _ & Hdef & _).
    assert (Hin : In p0 ncPaths) by (rewrite Hp; apply in_elt).
    specialize (Hnone p0 Hin). unfold hasDef in Hnone. now rewrite Hdef in Hnone.
Qed.

Lemma tool_dictionary_exact_witness :
  exists e, fst (buildToolDict toolsRead toolsPaths) !! "T3" = Some e
    /\ In (definitionFilename e) toolsPaths
    /\ diameter e = Num.Fin 6 0.
Proof.
  destruct (fst (buildToolDict toolsRead toolsPaths) !! "T3") as [e|] eqn:He;
    [|vm_compute in He; discriminate].
  exists e. split; [reflexivity|].
  destruct (proj1 (proj2 (proj2 (tool_dictionary_exact toolsRead toolsPaths))) "T3" e He)
    as (Hin & _ & _).
  split; [exact Hin|].
  vm_compute in He. injection He as <-. reflexivity.
Defined.

(** ** Drilling files and tracked files *)

Lemma extractIsDrilling_inv ls :
  extractIsDrilling ls = true ->
  exists ln body, In ln ls /\ commentMatch (raw ln) = Some body
                  /\ Str.startsWithCI "Drill" body = true.
Proof.
  induction ls as [|l ls IH]; [discriminate|]. cbn [extractIsDrilling].
  destruct (commentMatch (raw l)) as [b|] eqn:Hc.
  - destruct (Str.startsWithCI "Drill" b) eqn:Hd.
    + intros _. exists l, b. split; [now left|now split].
    + intros H. destruct (IH H) as (ln & body & Hin & H1 & H2).
      exists ln, body. split; [now right|now split].
  - intros H. destruct (IH H) as (ln & body & Hin & H1 & H2).
    exists ln, body. split; [now right|now split].
Qed.

(** X14. A loaded file is a drilling file exactly when one of its lines
    is a full-line comment whose text starts with "Drill" in either case;
    a file has a tracker exactly when it is not a drilling file, and fast
    moves are allowed exactly then. *)
Theorem drilling_exact (p content : string) (st : Store) :
  let fo := fst (loadFile p content st) in
  (isDrilling fo = true
   <-> exists l body, In l (Str.splitLines content)
         /\ commentMatch l = Some body /\ Str.startsWithCI "Drill" body = true)
  /\ allowFastMoves fo = negb (isDrilling fo)
  /\ (commandProcessor fo = None <-> isDrilling fo = true).
Proof.
  cbv zeta. destruct (loadFile_isDrilling p content st) as [Hd Ha].
  split; [|split].
  - rewrite Hd. split.
    + intros H. apply extractIsDrilling_inv in H as (ln & body & Hin & Hc & Hb).
      exists (raw ln), body. split; [|now split].
      rewrite <- loadFileLines_raw. now apply in_map.
    + intros (l & body & Hin & Hc & Hb).
      rewrite <- loadFileLines_raw in Hin. apply in_map_iff in Hin as (ln & <- & Hin).
      eapply extractIsDrilling_true; eauto.
  - now rewrite Ha, Hd.
  - rewrite Hd. unfold loadFile. cbn [alloc]. cbn [allowFastMoves newFileObject].
    destruct (extractIsDrilling (loadFileLines content)); cbn [negb].
    + cbn. tauto.
    + destruct (trackLines _ _). cbn. split; discriminate.
Qed.

(** ** Sorting a sorted list *)

Lemma insertBy_head {A : Type} (key : A -> Z) a l :
  Forall (keyLe key a) l -> insertBy (cmpKey key) a l = a :: l.
Proof.
  destruct l as [|b l]; [reflexivity|]. intros H.
  apply Forall_inv in H. unfold keyLe in H. cbn [insertBy]. unfold cmpKey.
  destruct (key a - key b <=? 0) eqn:E; [reflexivity|]. apply Z.leb_gt in E. lia.
Qed.

Lemma sortBy_sorted_id {A : Type} (key : A -> Z) l :
  StronglySorted (keyLe key) l -> sortBy (cmpKey key) l = l.
Proof.
  induction 1 as [|a l Hs IH Ha]; [reflexivity|].
  cbn [sortBy]. rewrite IH. now apply insertBy_head.
Qed.

(** X15. Sorting leaves a list of files that is ascending in the
    operation index as it is; so sorting twice gives what sorting once
    gives. *)
Theorem sort_fixed_point (files : list FileObject) :
  (StronglySorted (fun a b => operation a <= operation b) files ->
   sortByOperation files = files)
  /\ sortByOperation (sortByOperation files) = sortByOperation files.
Proof.
  split.
  - intros Hs. apply (sortBy_sorted_id operation). exact Hs.
  - apply (sortBy_sorted_id operation), (sortBy_sorted operation).
Qed.

Lemma sort_fixed_point_witness :
  StronglySorted (fun a b => operation a <= operation b) (sortByOperation opsFiles)
  /\ sortByOperation (sortByOperation opsFiles) = sortByOperation opsFiles.
Proof.
  assert (Hs : StronglySorted (fun a b => operation a <= operation b)
                 (sortByOperation opsFiles)).
  { vm_compute. repeat constructor; discriminate. }
  split; [exact Hs|]. exact (proj1 (sort_fixed_point _) Hs).
Defined.

(** ** The header of a merged file *)

Lemma addTagsLoop_paths output group st :
  map path (fst (addTagsLoop output group st)) = map path group.
Proof.
  revert st. induction group as [|f rest IH]; intros st; [reflexivity|].
  cbn [addTagsLoop]. specialize (IH (pushAll output
    (tagLines (allowFastMoves f) false (readArr st (lines f))) st)).
  destruct (addTagsLoop output rest _) as [rest' st2].
  cbn [fst map] in *. now rewrite IH.
Qed.

Lemma nth_of_map {A B : Type} (g : A -> B) (l : list A) (i : nat) :
  map g l !! i = option_map g (l !! i).
Proof.
  revert i. induction l as [|a l IH]; intros [|i]; cbn; auto.
Qed.

Lemma nth_In {A : Type} (l : list A) (i : nat) (a : A) :
  l !! i = Some a -> In a l.
Proof.
  revert i. induction l as [|b l IH]; intros [|i] H; try discriminate.
  - injection H as ->. now left.
  - right. exact (IH i H).
Qed.

Lemma addTagsToLines_paths group st :
  map path (fst (addTagsToLines group st)) = map path group.
Proof. unfold addTagsToLines. cbn [alloc]. apply addTagsLoop_paths. Qed.

Lemma memberBlocks_start params st group fileCnt len startLines :
  List.NoDup (map path group) ->
  (forall p, ~ In p (map path group) ->
     snd (memberBlocks params st fileCnt len group startLines) !! p = startLines !! p)
  /\ forall f, In f group ->
       exists off,
         snd (memberBlocks params st fileCnt len group startLines) !! path f
         = Some (S (len + off))
         /\ fst (memberBlocks params st fileCnt len group startLines) !! off
            = Some ("G0 Z5" ++ LF ++ LF).
Proof.
  revert fileCnt len startLines.
  induction group as [|f rest IH]; intros fileCnt len sl Hnd.
  - split; [reflexivity|intros f []].
  - cbn [map] in Hnd. apply List.NoDup_cons_iff in Hnd as [Hnot Hnd].
    cbn [memberBlocks].
    destruct (memberBlock params st fileCnt f) as [block fileCnt'] eqn:Hb.
    assert (Hhead : block !! 0%nat = Some ("G0 Z5" ++ LF ++ LF)).
    { unfold memberBlock in Hb. injection Hb as <- _. reflexivity. }
    specialize (IH fileCnt' (len + List.length block)%nat
                   (<[path f := S len]> sl) Hnd).
    destruct (memberBlocks params st fileCnt' (len + List.length block) rest
                (<[path f := S len]> sl)) as [blocks sl'].
    cbn [fst snd] in *. destruct IH as [IHout IHin]. split.
    + intros p Hp. cbn [map] in Hp.
      rewrite IHout by (intros H; apply Hp; now right).
      apply lookup_insert_ne. intros Heq. apply Hp. now left.
    + intros f0 [Heq|Hin].
      * subst f0. exists 0%nat. rewrite IHout by exact Hnot.
        rewrite lookup_insert_eq, Nat.add_0_r. split; [reflexivity|].
        destruct block; [discriminate|exact Hhead].
      * destruct (IHin f0 Hin) as (off & Hs & Hr).
        exists (List.length block + off)%nat. rewrite Hs. split.
        -- f_equal. lia.
        -- rewrite lookup_app_r by (unfold length; lia).
           replace (List.length block + off - length block)%nat with off
             by (unfold length; lia).
           exact Hr.
Qed.

Lemma memberBlocks_list params st group : forall fileCnt len startLines,
  fst (memberBlocks params st fileCnt len group startLines)
  = concat (memberBlockList params st fileCnt group).
Proof.
  induction group as [|f rest IH]; intros fileCnt len sl; [reflexivity|].
  cbn [memberBlocks memberBlockList concat].
  destruct (memberBlock params st fileCnt f) as [block fileCnt'].
  specialize (IH fileCnt' (len + List.length block)%nat (<[path f := S len]> sl)).
  destruct (memberBlocks params st fileCnt' (len + List.length block) rest
              (<[path f := S len]> sl)) as [blocks sl'].
  cbn [fst snd] in *. now rewrite IH.
Qed.

Lemma memberBlockList_length params st group : forall fileCnt,
  List.length (memberBlockList params st fileCnt group) = List.length group.
Proof.
  induction group as [|f rest IH]; intros fileCnt; [reflexivity|].
  cbn [memberBlockList List.length]. now rewrite IH.
Qed.

Lemma memberBlock_count params st fileCnt f :
  snd (memberBlock params st fileCnt f)
  = (fileCnt + trackedBefore 1 [f])%nat.
Proof.
  unfold memberBlock, trackedBefore. cbn [snd firstn List.filter].
  destruct (commandProcessor f); cbn [List.length]; lia.
Qed.

Lemma trackedBefore_S i f rest :
  trackedBefore (S i) (f :: rest)
  = (trackedBefore 1 [f] + trackedBefore i rest)%nat.
Proof.
  unfold trackedBefore. cbn [firstn List.filter].
  destruct (commandProcessor f); reflexivity.
Qed.

Lemma memberBlocks_positions params st group : forall fileCnt len startLines,
  List.NoDup (map path group) ->
  forall i f, group !! i = Some f ->
    snd (memberBlocks params st fileCnt len group startLines) !! path f
    = Some (S (len + List.length
                       (concat (firstn i (memberBlockList params st fileCnt group)))))
    /\ memberBlockList params st fileCnt group !! i
       = Some (fst (memberBlock params st (fileCnt + trackedBefore i group) f)).
Proof.
  induction group as [|f0 rest IH]; intros fileCnt len sl Hnd i f Hi; [discriminate|].
  pose proof (memberBlocks_start params st (f0 :: rest) fileCnt len sl Hnd) as [_ Hfirst].
  cbn [map] in Hnd. apply List.NoDup_cons_iff in Hnd as [Hnot Hnd].
  pose proof (memberBlock_count params st fileCnt f0) as Hcnt.
  cbn [memberBlocks memberBlockList] in *.
  destruct (memberBlock params st fileCnt f0) as [block fileCnt'] eqn:Hb.
  cbn [fst snd] in Hcnt |- *.
  pose proof (memberBlocks_start params st rest fileCnt' (len + List.length block)
                (<[path f0 := S len]> sl) Hnd) as [Hout _].
  specialize (IH fileCnt' (len + List.length block)%nat (<[path f0 := S len]> sl) Hnd).
  destruct (memberBlocks params st fileCnt' (len + List.length block) rest
              (<[path f0 := S len]> sl)) as [blocks sl'].
  cbn [fst snd] in *. destruct i as [|i].
  - injection Hi as <-. rewrite Hout by exact Hnot.
    rewrite lookup_insert_eq. cbn [firstn concat List.length].
    unfold trackedBefore. cbn [firstn List.filter List.length].
    rewrite !Nat.add_0_r, Hb. split; reflexivity.
  - destruct (IH i f Hi) as [Hs Hblock]. rewrite Hs. split.
    + cbn [firstn concat]. rewrite length_app. f_equal. lia.
    + cbn [lookup list_lookup]. rewrite trackedBefore_S.
      replace (fileCnt + (trackedBefore 1 [f0] + trackedBefore i rest))%nat
        with (fileCnt' + trackedBefore i rest)%nat by lia.
      exact Hblock.
Qed.

Lemma skipn_exact {A : Type} (a b : list A) : skipn (List.length a) (a ++ b)%list = b.
Proof. induction a as [|x a IH]; [reflexivity|exact IH]. Qed.

Lemma split_at {A : Type} (l : list A) (i : nat) (x : A) :
  l !! i = Some x -> l = (firstn i l ++ x :: skipn (S i) l)%list.
Proof.
  revert i. induction l as [|y l IH]; intros [|i] H; try discriminate.
  - injection H as ->. reflexivity.
  - cbn [firstn skipn app]. f_equal. exact (IH i H).
Qed.

(** X16. When the members of a group have distinct paths, the merged
    array is the two fixed header lines, one header entry for each member
    in the order of the group, the preamble, the blocks of the members in
    the order of the group, and the two closing lines. The entry of the
    member at position [i] has the base name of the member's path and the
    number [blockStart i], one more than the number of elements before
    the block of that member: at that position, counted from 1, the array
    goes on with the block of that very member, whose first element is the
    clearance line "G0 Z5". *)
Theorem header_points_at_member (params : Params) (group : list FileObject)
    (st : Store) :
  List.NoDup (map path group) ->
  let merged := fst (mergeGroup params group st) in
  let group' := fst (addTagsToLines group st) in
  let st' := snd (addTagsToLines group st) in
  let blocks := memberBlockList params st' 0 group' in
  merged !! 0%nat = Some "(MERGED)" /\ merged !! 1%nat = Some ""
  /\ List.length blocks = List.length group'
  /\ (exists entries,
        List.length entries = List.length group'
        /\ merged = (["(MERGED)"; ""] ++ entries ++ preamble params group'
                     ++ concat blocks ++ ["G0 Z5"; "G0 X0 Y0"])%list)
  /\ forall i f, group' !! i = Some f ->
       let start := blockStart params st' group' i in
       let block := fst (memberBlock params st' (trackedBefore i group') f) in
       merged !! (2 + i)%nat
       = Some ("(" ++ Str.padStart 5 (Num.digitsOf (Z.of_nat start))
                   ++ " - " ++ basename (path f) ++ ")")
       /\ blocks !! i = Some block
       /\ (exists after, skipn (start - 1) merged = (block ++ after)%list)
       /\ merged !! (start - 1)%nat = Some ("G0 Z5" ++ LF ++ LF).
Proof.
  intros Hnd. cbv zeta. unfold mergeGroup.
  pose proof (addTagsToLines_paths group st) as Hpaths.
  destruct (addTagsToLines group st) as [group' st'].
  cbn [fst snd] in *. rewrite <- Hpaths in Hnd.
  unfold buildContentLines.
  pose proof (memberBlocks_positions params st' group' 0
                (List.length (preamble params group')) ∅ Hnd) as Hpos.
  pose proof (memberBlocks_list params st' group' 0
                (List.length (preamble params group')) ∅) as Hlist.
  destruct (memberBlocks params st' 0 (List.length (preamble params group')) group' ∅)
    as [blocks0 startLines].
  cbn [fst snd] in *. subst blocks0.
  set (blocks := memberBlockList params st' 0 group') in *.
  set (pre := preamble params group') in *.
  set (entries := map _ group').
  assert (Hlen : List.length entries = List.length group') by apply length_map.
  split; [reflexivity|]. split; [reflexivity|].
  split; [apply memberBlockList_length|].
  split; [exists entries; split; [exact Hlen|reflexivity]|].
  intros i f Hi. destruct (Hpos i f Hi) as [Hs Hblock].
  cbn [Nat.add] in Hblock.
  set (block := fst (memberBlock params st' (trackedBefore i group') f)) in *.
  assert (Hstart : blockStart params st' group' i
                   = (2 + List.length group'
                      + S (List.length pre
                           + List.length (concat (firstn i blocks))))%nat).
  { unfold blockStart. fold pre blocks. lia. }
  assert (Hskip : skipn (blockStart params st' group' i - 1)
                    (["(MERGED)"; ""] ++ entries ++ pre ++ concat blocks
                     ++ ["G0 Z5"; "G0 X0 Y0"])%list
                  = (block ++ concat (skipn (S i) blocks)
                     ++ ["G0 Z5"; "G0 X0 Y0"])%list).
  { rewrite (split_at blocks i block Hblock) at 1.
    rewrite concat_app. cbn [concat].
    replace (["(MERGED)"; ""] ++ entries ++ pre
             ++ (concat (firstn i blocks) ++ block ++ concat (skipn (S i) blocks))
             ++ ["G0 Z5"; "G0 X0 Y0"])%list
      with ((["(MERGED)"; ""] ++ entries ++ pre ++ concat (firstn i blocks))
            ++ block ++ concat (skipn (S i) blocks) ++ ["G0 Z5"; "G0 X0 Y0"])%list
      by (rewrite <- !List.app_assoc; reflexivity).
    replace (blockStart params st' group' i - 1)%nat
      with (List.length (["(MERGED)"; ""] ++ entries ++ pre
                         ++ concat (firstn i blocks))%list).
    - apply skipn_exact.
    - rewrite Hstart, !length_app, Hlen. cbn [List.length]. lia. }
  split; [|split; [exact Hblock|split]].
  - rewrite lookup_app_r by (cbn; lia).
    replace (2 + i - length ["(MERGED)"; ""])%nat with i by (cbn; lia).
    apply lookup_app_l_Some. unfold entries. rewrite nth_of_map, Hi.
    cbn [option_map]. rewrite Hs, Hstart. reflexivity.
  - eexists. exact Hskip.
  - pose proof (f_equal (fun l => l !! 0%nat) Hskip) as H0. cbn beta in H0.
    rewrite lookup_drop, Nat.add_0_r in H0. rewrite H0. reflexivity.
Qed.

Lemma header_points_at_member_witness :
  List.NoDup (map path pairFiles)
  /\ fst (mergeGroup noParams pairFiles pairStore) !! 3%nat
     = Some "(   29 - b.nc)"
  /\ exists after,
       skipn 28 (fst (mergeGroup noParams pairFiles pairStore))
       = (fst (memberBlock noParams (snd (addTagsToLines pairFiles pairStore)) 1
                 (nth 1 (fst (addTagsToLines pairFiles pairStore))
                      (newFileObject "" 0%nat [])))
          ++ after)%list.
Proof.
  assert (Hnd : List.NoDup (map path pairFiles)).
  { vm_compute. repeat constructor; cbn; intuition discriminate. }
  split; [exact Hnd|]. split; [vm_compute; reflexivity|].
  assert (Hi : fst (addTagsToLines pairFiles pairStore) !! 1%nat
               = Some (nth 1 (fst (addTagsToLines pairFiles pairStore))
                           (newFileObject "" 0%nat []))) by (vm_compute; reflexivity).
  destruct (proj2 (proj2 (proj2 (proj2
              (header_points_at_member noParams pairFiles pairStore Hnd)))) _ _ Hi)
    as (_ & _ & Hskip & _).
  exact Hskip.
Defined.

(** ** Writing and reading back *)

Lemma oneLine_endsWithLF l : oneLine l = true -> endsWithLF l = false.
Proof.
  induction l as [|c l IH]; [reflexivity|]. cbn [oneLine endsWithLF].
  intros H. apply andb_prop in H as [H H2]. apply andb_prop in H as [H0 H1].
  destruct l as [|c' l']; [now apply negb_true_iff in H0|]. now apply IH.
Qed.

Lemma splitLinesFrom_oneLine l acc rest :
  oneLine l = true ->
  Str.splitLinesFrom acc (l ++ LF ++ rest)
  = (acc ++ l) :: Str.splitLinesFrom "" rest.
Proof.
  revert acc. induction l as [|c l IH]; intros acc H.
  - rewrite sapp_nil_r. reflexivity.
  - cbn [oneLine] in H. apply andb_prop in H as [H H2]. apply andb_prop in H as [H0 H1].
    apply negb_true_iff in H0.
    change (String c l ++ LF ++ rest) with (String c (l ++ LF ++ rest)).
    cbn [Str.splitLinesFrom]. rewrite H0.
    assert (Hacc : (acc ++ String c "") ++ l = acc ++ String c l).
    { rewrite sapp_assoc. reflexivity. }
    destruct (code c =? 13)%N.
    + destruct l as [|c' l']; [discriminate|].
      change (String c' l' ++ LF ++ rest) with (String c' (l' ++ LF ++ rest)).
      assert (H3 : (code c' =? 10)%N = false).
      { cbn [oneLine] in H2. apply andb_prop in H2 as [H2 _].
        apply andb_prop in H2 as [H2 _]. now apply negb_true_iff in H2. }
      cbv beta iota. rewrite H3.
      change (String c' (l' ++ LF ++ rest)) with (String c' l' ++ LF ++ rest).
      rewrite IH, Hacc by exact H2. reflexivity.
    + rewrite IH, Hacc by exact H2. reflexivity.
Qed.

(** ** The command line *)

Lemma list_pair_ind {A : Type} (P : list A -> Prop) :
  P [] -> (forall a, P [a]) -> (forall a v rest, P rest -> P (a :: v :: rest)) ->
  forall l, P l.
Proof.
  intros H0 H1 H2.
  assert (H : forall l, P l /\ forall a, P (a :: l)).
  { induction l as [|b l [IH1 IH2]]; [split; auto|].
    split; [apply IH2|]. intros a. now apply H2. }
  intros l. apply H.
Qed.

Lemma parseArgsFrom_spec args : forall p0,
  filtered (parseArgsFrom args p0)
  = filtered p0 || List.existsb (fun a => negb (isFeedFlag a)) (optionArgs args)
  /\ (fr (parseArgsFrom args p0) = None
      <-> fr p0 = None /\ List.existsb isFeedFlag (optionArgs args) = false)
  /\ (List.existsb (fun a => negb (isFeedFlag a)) (optionArgs args) = false ->
      filterTags (parseArgsFrom args p0) = filterTags p0).
Proof.
  induction args as [|a|a v rest IH] using list_pair_ind; intros p0.
  - cbn. rewrite orb_false_r. tauto.
  - cbn [parseArgsFrom optionArgs List.existsb].
    destruct (isFeedFlag a); cbn [negb orb fr filtered filterTags].
    + rewrite orb_false_r. repeat split; try tauto; try discriminate.
      intros [_ H]; discriminate.
    + rewrite orb_true_r. repeat split; try tauto; try discriminate.
  - cbn [parseArgsFrom optionArgs List.existsb].
    destruct (isFeedFlag a); cbn [negb orb].
    + destruct (IH (mkParams (Some (Num.parseFloat v)) (filterTags p0) (filtered p0)))
        as (H1 & H2 & H3).
      cbn [fr filtered filterTags] in *. split; [exact H1|]. split; [|exact H3].
      rewrite H2. split; [intros [H _]; discriminate|intros [_ H]; discriminate].
    + destruct (IH (mkParams (fr p0) (Str.splitWs v) true)) as (H1 & H2 & H3).
      cbn [fr filtered filterTags] in *. rewrite orb_true_r.
      split; [exact H1|]. split; [exact H2|discriminate].
Qed.

Lemma parseArgsFrom_app pre rest : forall p0,
  Nat.Even (List.length pre) ->
  parseArgsFrom (pre ++ rest)%list p0 = parseArgsFrom rest (parseArgsFrom pre p0).
Proof.
  induction pre as [|a|a v pre IH] using list_pair_ind; intros p0 Hev.
  - reflexivity.
  - destruct Hev as [k Hk]. cbn in Hk. lia.
  - assert (Hev' : Nat.Even (List.length pre)).
    { destruct Hev as [k Hk]. cbn [List.length] in Hk. exists (k - 1)%nat. lia. }
    cbn [app parseArgsFrom]. destruct (isFeedFlag a); now apply IH.
Qed.

(** X18. The options of the command line: filtering is switched on
    exactly when some argument in option position is not a feed-rate
    option, whatever its text, so the help options and misspelt options
    switch it on too and without such an argument the filter tags stay
    empty; a feed rate is set exactly when some argument in option position
    is a feed-rate option. After an even number of arguments, a feed-rate
    option with its value sets the feed rate to the number read from the
    value, which is NaN for a text that is no number, and any other option
    with its value sets the filter tags to the pieces of the value between
    white space. *)
Theorem parse_args_options (args : list string) :
  filtered (parseArgs args)
  = List.existsb (fun a => negb (isFeedFlag a)) (optionArgs args)
  /\ (fr (parseArgs args) = None
      <-> List.existsb isFeedFlag (optionArgs args) = false)
  /\ (filtered (parseArgs args) = false -> filterTags (parseArgs args) = [])
  /\ (forall pre a v, args = (pre ++ [a; v])%list -> Nat.Even (List.length pre) ->
        if isFeedFlag a
        then fr (parseArgs args) = Some (Num.parseFloat v)
        else filterTags (parseArgs args) = Str.splitWs v
             /\ filtered (parseArgs args) = true).
Proof.
  unfold parseArgs.
  destruct (parseArgsFrom_spec args initialParams) as (H1 & H2 & H3).
  cbn [filtered fr filterTags initialParams orb] in *.
  split; [exact H1|]. split; [rewrite H2; tauto|]. split.
  - rewrite H1. exact H3.
  - intros pre a v -> Hev. rewrite parseArgsFrom_app by exact Hev.
    cbn [parseArgsFrom]. destruct (isFeedFlag a); cbn; auto.
Qed.

Lemma parse_args_options_witness :
  filterTags (parseArgs ["-fr"; "300"; "--help"; "FAST XY"]) = ["FAST"; "XY"]
  /\ filtered (parseArgs ["-fr"; "300"; "--help"; "FAST XY"]) = true.
Proof.
  refine (proj2 (proj2 (proj2 (parse_args_options
            ["-fr"; "300"; "--help"; "FAST XY"]))) ["-fr"; "300"] "--help" "FAST XY"
            eq_refl _).
  exists 1%nat. reflexivity.
Defined.

(** ** Decimal digits *)

Lemma digitChar_spec d :
  0 <= d < 10 -> isDigit (Num.digitChar d) = true /\ digitVal (Num.digitChar d) = d.
Proof.
  intros H.
  assert (Hd : d = 0 \/ d = 1 \/ d = 2 \/ d = 3 \/ d = 4 \/ d = 5 \/ d = 6
               \/ d = 7 \/ d = 8 \/ d = 9) by lia.
  repeat (destruct Hd as [->|Hd]; [split; reflexivity|]). subst d. split; reflexivity.
Qed.

Lemma digitsToZ_app a ds es :
  Num.digitsToZ a (ds ++ es) = Num.digitsToZ (Num.digitsToZ a ds) es.
Proof.
  revert a. induction ds as [|c ds IH]; intros a; [reflexivity|].
  rewrite sapp_cons. cbn [Num.digitsToZ]. apply IH.
Qed.

Lemma digitsOnly_app ds es :
  digitsOnly ds = true -> digitsOnly es = true -> digitsOnly (ds ++ es) = true.
Proof.
  intros Hd He. induction ds as [|c ds IH]; [exact He|].
  rewrite sapp_cons. cbn [digitsOnly] in *. apply andb_prop in Hd as [Hc Hd].
  now rewrite Hc, IH.
Qed.

Lemma digitsFrom_spec fuel : forall n acc,
  0 <= n < 10 ^ Z.of_nat fuel -> (0 < fuel)%nat ->
  exists ds, Num.digitsFrom fuel n acc = ds ++ acc
    /\ ds <> "" /\ digitsOnly ds = true
    /\ forall a, Num.digitsToZ a ds = a * 10 ^ Z.of_nat (String.length ds) + n.
Proof.
  induction fuel as [|fuel IH]; intros n acc Hn Hf; [lia|].
  cbn [Num.digitsFrom]. destruct (n <? 10) eqn:E.
  - apply Z.ltb_lt in E. rewrite Z.mod_small by lia.
    destruct (digitChar_spec n) as [Hd Hv]; [lia|].
    exists (String (Num.digitChar n) ""). split; [reflexivity|].
    split; [discriminate|]. split; [cbn [digitsOnly]; now rewrite Hd|].
    intros a. cbn [Num.digitsToZ String.length]. rewrite Hv.
    change (Z.of_nat 1) with 1. lia.
  - apply Z.ltb_ge in E.
    assert (Hf' : (0 < fuel)%nat).
    { destruct fuel; [|lia]. change (10 ^ Z.of_nat 1) with 10 in Hn. lia. }
    assert (Hn' : 0 <= n / 10 < 10 ^ Z.of_nat fuel).
    { split; [apply Z.div_pos; lia|].
      apply Z.div_lt_upper_bound; [lia|].
      rewrite Nat2Z.inj_succ, Z.pow_succ_r in Hn by lia. lia. }
    destruct (IH (n / 10) (String (Num.digitChar (n mod 10)) acc) Hn' Hf')
      as (ds & Heq & Hne & Hdig & Hval).
    destruct (digitChar_spec (n mod 10)) as [Hd Hv];
      [apply Z.mod_pos_bound; lia|].
    exists (ds ++ String (Num.digitChar (n mod 10)) "").
    split; [rewrite Heq, sapp_assoc; reflexivity|].
    split; [destruct ds; [contradiction|discriminate]|].
    split; [apply digitsOnly_app; [exact Hdig|cbn [digitsOnly]; now rewrite Hd]|].
    intros a. rewrite digitsToZ_app, Hval. cbn [Num.digitsToZ]. rewrite Hv.
    assert (Hlen : String.length (ds ++ String (Num.digitChar (n mod 10)) "")
                   = S (String.length ds)).
    { clear. induction ds as [|c ds IH]; [reflexivity|].
      rewrite sapp_cons. cbn [String.length]. now rewrite IH. }
    rewrite Hlen, Nat2Z.inj_succ, Z.pow_succ_r by lia.
    pose proof (Z.div_mod n 10). lia.
Qed.

Lemma digitsOf_spec n :
  0 <= n ->
  Num.digitsOf n <> "" /\ digitsOnly (Num.digitsOf n) = true
  /\ Num.digitsToZ 0 (Num.digitsOf n) = n.
Proof.
  intros Hn. unfold Num.digitsOf.
  assert (Hb : 0 <= n < 10 ^ Z.of_nat (S (Z.to_nat (Z.log2 n)))).
  { split; [exact Hn|]. rewrite Nat2Z.inj_succ, Z2Nat.id by apply Z.log2_nonneg.
    destruct (Z.eq_dec n 0) as [->|Hz]; [reflexivity|].
    pose proof (Z.log2_spec n ltac:(lia)) as [_ H2].
    assert (2 ^ Z.succ (Z.log2 n) <= 10 ^ Z.succ (Z.log2 n)).
    { apply Z.pow_le_mono_l. lia. }
    lia. }
  destruct (digitsFrom_spec _ n "" Hb ltac:(lia)) as (ds & Heq & Hne & Hd & Hv).
  rewrite sapp_nil_r in Heq. rewrite Heq. split; [exact Hne|]. split; [exact Hd|].
  rewrite Hv. lia.
Qed.

(** ** Names of the files written *)

Lemma generateFilename_number opIndex group toolDict name :
  generateFilename opIndex group toolDict = Some name ->
  opNumberOf name = Z.of_nat opIndex.
Proof.
  unfold generateFilename. destruct group as [|f rest]; [discriminate|].
  intros H. injection H as <-.
  destruct (digitsOf_spec (Z.of_nat opIndex) ltac:(lia)) as (_ & Hd & Hv).
  set (ds := Num.digitsOf (Z.of_nat opIndex)) in *.
  unfold Str.padEnd at 1.
  set (k := (5 - String.length ("Op " ++ ds))%nat).
  set (tail := " - " ++ _).
  unfold opNumberOf.
  replace (Str.dropLen "Op " ((("Op " ++ ds) ++ Str.repeat " " k) ++ tail))
    with (ds ++ (Str.repeat " " k ++ tail)).
  2:{ rewrite !sapp_assoc. reflexivity. }
  rewrite (proj1 (takeWhile_app ds (Str.repeat " " k ++ tail) Hd
                    ltac:(destruct k; reflexivity))).
  exact Hv.
Qed.

(** ** The merge loop *)

Lemma beforeBars_key s t : noBar s = true -> beforeBars (s ++ "||" ++ t) = s.
Proof.
  unfold noBar. induction s as [|c s IH]; intros H; [reflexivity|].
  cbn [Str.existsb] in H. apply negb_true_iff, orb_false_elim in H as [Hc Hs].
  rewrite sapp_cons. cbn [beforeBars Str.startsWith].
  rewrite Ascii.eqb_sym, Hc. cbn [andb]. f_equal. apply IH.
  now apply negb_true_iff.
Qed.

Lemma setupNumberFrom_In setups : forall n s,
  In s setups ->
  exists k, setupNumberFrom n setups s = Some (n + k)%nat
            /\ setups !! k = Some s.
Proof.
  induction setups as [|s0 setups IH]; intros n s Hin; [destruct Hin|].
  cbn [setupNumberFrom]. destruct (String.eqb s0 s) eqn:E.
  - apply String.eqb_eq in E as ->. exists 0%nat. split; [f_equal; lia|reflexivity].
  - destruct Hin as [->|Hin]; [now rewrite String.eqb_refl in E|].
    destruct (IH (S n) s Hin) as (k & Hk & Hl).
    exists (S k). split; [rewrite Hk; f_equal; lia|exact Hl].
Qed.

Lemma mergeLoop_names params toolDict setups groups : forall opIndex st i o,
  fst (mergeLoop params toolDict setups opIndex groups st) !! i = Some o ->
  opNumberOf (outName o) = Z.of_nat (opIndex + i).
Proof.
  induction groups as [|[key group] rest IH]; intros opIndex st i o H;
    [discriminate|].
  cbn [mergeLoop] in H.
  destruct (setupNumber setups (beforeBars key)) as [number|]; [|discriminate].
  destruct (generateFilename opIndex group toolDict) as [filename|] eqn:Hg;
    [|discriminate].
  destruct (mergeGroup params group st) as [merged st'].
  specialize (IH (S opIndex) st').
  destruct (mergeLoop params toolDict setups (S opIndex) rest st') as [outs ok].
  cbn [fst] in *. destruct i as [|i].
  - injection H as <-. cbn [outName]. rewrite Nat.add_0_r.
    exact (generateFilename_number _ _ _ _ Hg).
  - rewrite (IH i o H). f_equal. lia.
Qed.

Lemma mergeLoop_complete params toolDict setups groups : forall opIndex st,
  (forall key group, In (key, group) groups ->
     group <> []
     /\ exists s t, key = s ++ "||" ++ t /\ noBar s = true /\ In s setups) ->
  snd (mergeLoop params toolDict setups opIndex groups st) = true
  /\ List.length (fst (mergeLoop params toolDict setups opIndex groups st))
     = List.length groups
  /\ forall i key group, groups !! i = Some (key, group) ->
       exists o number,
         fst (mergeLoop params toolDict setups opIndex groups st) !! i = Some o
         /\ setups !! (number - 1)%nat = Some (beforeBars key)
         /\ (1 <= number)%nat
         /\ outFolder o = folderName number (beforeBars key)
         /\ generateFilename (opIndex + i) group toolDict = Some (outName o).
Proof.
  induction groups as [|[key group] rest IH]; intros opIndex st Hall.
  - split; [reflexivity|]. split; [reflexivity|]. intros i key group H. discriminate.
  - destruct (Hall key group (or_introl eq_refl)) as (Hne & s & t & -> & Hs & Hin).
    cbn [mergeLoop]. rewrite (beforeBars_key s t Hs).
    unfold setupNumber.
    destruct (setupNumberFrom_In setups 1 s Hin) as (k & Hk & Hl). rewrite Hk.
    destruct (generateFilename opIndex group toolDict) as [filename|] eqn:Hg.
    2:{ destruct group; [contradiction|discriminate]. }
    destruct (mergeGroup params group st) as [merged st'].
    specialize (IH (S opIndex) st' (fun k' g' H => Hall k' g' (or_intror H))).
    destruct (mergeLoop params toolDict setups (S opIndex) rest st') as [outs ok].
    cbn [fst snd] in *. destruct IH as (IH1 & IH2 & IH3).
    split; [exact IH1|]. split; [cbn [List.length]; now rewrite IH2|].
    intros [|i] key' group' H.
    + injection H as <- <-.
      eexists; exists (1 + k)%nat. split; [reflexivity|].
      cbn [outFolder outName]. rewrite (beforeBars_key s t Hs), Nat.add_0_r.
      replace (1 + k - 1)%nat with k by lia.
      split; [exact Hl|]. split; [lia|]. split; [reflexivity|exact Hg].
    + destruct (IH3 i key' group' H) as (o & number & H1 & H2 & H3 & H4 & H5).
      exists o, number. split; [exact H1|]. split; [exact H2|].
      split; [exact H3|]. split; [exact H4|].
      replace (opIndex + S i)%nat with (S opIndex + i)%nat by lia. exact H5.
Qed.

Lemma groups_of_run fileList :
  (forall f, In f fileList -> noBar (setupName f) = true) ->
  forall key group,
    In (key, group) (groupBySetupAndTool (sortByOperation fileList)) ->
    group <> []
    /\ exists s t, key = s ++ "||" ++ t /\ noBar s = true
                   /\ In s (assignSetupNumbers (sortByOperation fileList)).
Proof.
  intros Hbar key group Hin.
  set (ordered := sortByOperation fileList) in *.
  assert (Hord : forall f, In f ordered -> In f fileList).
  { intros f Hf. eapply Permutation_in; [|exact Hf].
    apply Permutation_sym. apply (sortBy_Permutation operation). }
  destruct (group_In_spec ordered key group Hin) as [Hg Hne].
  split; [exact Hne|].
  destruct group as [|f g]; [contradiction|].
  assert (Hf : In f (List.filter (fun f => String.eqb (groupKey f) key) ordered))
    by (rewrite <- Hg; now left).
  apply List.filter_In in Hf as [Hf Hk]. apply String.eqb_eq in Hk.
  exists (setupName f), (tool f). split; [now rewrite <- Hk|].
  split; [apply Hbar, Hord, Hf|].
  rewrite assignSetupNumbers_firstSeen. apply firstSeen_In. now apply in_map.
Qed.

Lemma mergeLoop_run params toolDict fileList st :
  (forall f, In f fileList -> noBar (setupName f) = true) ->
  snd (mergeBySetupAndTool params toolDict fileList st) = true
  /\ List.length (fst (mergeBySetupAndTool params toolDict fileList st))
     = List.length (mergeGroups fileList).
Proof.
  intros Hbar. unfold mergeBySetupAndTool, mergeGroups.
  destruct (mergeLoop_complete params toolDict
              (assignSetupNumbers (sortByOperation fileList))
              (groupBySetupAndTool (sortByOperation fileList)) 1 st
              (groups_of_run fileList Hbar)) as (H1 & H2 & _).
  now split.
Qed.

(** X19. A run over files whose setup names have no bar writes one file
    for every group, in the order of the groups, and comes to its end: the
    file of a group goes to the folder "Setup N - S", where S is the setup
    name of every member of the group and N the number that
    [assignSetupNumbers] gave to S, and its name is the name that
    [generateFilename] makes from the position of the group counted from 1. *)
Theorem merge_run_outputs (params : Params) (toolDict : gmap string ToolEntry)
    (fileList : list FileObject) (st : Store) :
  (forall f, In f fileList -> noBar (setupName f) = true) ->
  let run := mergeBySetupAndTool params toolDict fileList st in
  let setups := assignSetupNumbers (sortByOperation fileList) in
  snd run = true
  /\ List.length (fst run) = List.length (mergeGroups fileList)
  /\ forall i key group, mergeGroups fileList !! i = Some (key, group) ->
       exists o number s,
         fst run !! i = Some o
         /\ (forall f, In f group -> setupName f = s)
         /\ setups !! (number - 1)%nat = Some s
         /\ (1 <= number)%nat
         /\ outFolder o = "Setup " ++ Num.digitsOf (Z.of_nat number) ++ " - " ++ s
         /\ generateFilename (S i) group toolDict = Some (outName o).
Proof.
  intros Hbar. cbv zeta. unfold mergeBySetupAndTool, mergeGroups.
  set (ordered := sortByOperation fileList).
  assert (Hord : forall f, In f ordered -> In f fileList).
  { intros f Hf. eapply Permutation_in; [|exact Hf].
    apply Permutation_sym. apply (sortBy_Permutation operation). }
  pose proof (groups_of_run fileList Hbar) as Hgroups. fold ordered in Hgroups.
  destruct (mergeLoop_complete params toolDict (assignSetupNumbers ordered)
              (groupBySetupAndTool ordered) 1 st Hgroups) as (H1 & H2 & H3).
  split; [exact H1|]. split; [exact H2|].
  intros i key group Hi.
  destruct (H3 i key group Hi) as (o & number & Ho & Hs & Hn & Hfold & Hname).
  exists o, number, (beforeBars key).
  split; [exact Ho|]. split; [|split; [exact Hs|split; [exact Hn|split;
    [exact Hfold|exact Hname]]]].
  intros f Hf.
  destruct (group_In_spec ordered key group (nth_In _ _ _ Hi)) as [Hg _].
  rewrite Hg in Hf. apply List.filter_In in Hf as [Hf Hk]. apply String.eqb_eq in Hk.
  rewrite <- Hk. unfold groupKey. symmetry. apply beforeBars_key.
  apply Hbar, Hord, Hf.
Qed.

Lemma merge_run_outputs_witness :
  (forall f, In f toolsTwoFiles -> noBar (setupName f) = true)
  /\ snd (mergeBySetupAndTool noParams ∅ toolsTwoFiles toolsTwoStore) = true
  /\ map (fun o => (outFolder o, outName o))
         (fst (mergeBySetupAndTool noParams ∅ toolsTwoFiles toolsTwoStore))
     = [("Setup 1 - top", "Op 1  - unknownmm T1  -  1 file(s).nc");
        ("Setup 1 - top", "Op 2  - unknownmm T2  -  1 file(s).nc")].
Proof.
  assert (Hbar : forall f, In f toolsTwoFiles -> noBar (setupName f) = true).
  { intros f Hf. vm_compute in Hf. destruct Hf as [<-|[<-|[]]]; reflexivity. }
  split; [exact Hbar|].
  split; [exact (proj1 (merge_run_outputs noParams ∅ toolsTwoFiles toolsTwoStore Hbar))|].
  vm_compute. reflexivity.
Defined.

(** X20. No two files that a run writes have the same name: the name of
    the file of a group starts with the position of the group in the run. *)
Theorem output_names_distinct (params : Params) (toolDict : gmap string ToolEntry)
    (fileList : list FileObject) (st : Store) (i j : nat) (o o' : Output) :
  fst (mergeBySetupAndTool params toolDict fileList st) !! i = Some o ->
  fst (mergeBySetupAndTool params toolDict fileList st) !! j = Some o' ->
  i <> j ->
  opNumberOf (outName o) = Z.of_nat (S i) /\ outName o <> outName o'.
Proof.
  unfold mergeBySetupAndTool. intros Hi Hj Hne.
  apply mergeLoop_names in Hi, Hj. split; [exact Hi|].
  intros Heq. rewrite Heq in Hi. rewrite Hi in Hj. lia.
Qed.

Lemma output_names_distinct_witness :
  exists o o',
    fst (mergeBySetupAndTool noParams ∅ toolsTwoFiles toolsTwoStore) !! 0%nat = Some o
    /\ fst (mergeBySetupAndTool noParams ∅ toolsTwoFiles toolsTwoStore) !! 1%nat = Some o'
    /\ outName o <> outName o'.
Proof.
  destruct (fst (mergeBySetupAndTool noParams ∅ toolsTwoFiles toolsTwoStore) !! 0%nat)
    as [o|] eqn:H0; [|vm_compute in H0; discriminate].
  destruct (fst (mergeBySetupAndTool noParams ∅ toolsTwoFiles toolsTwoStore) !! 1%nat)
    as [o'|] eqn:H1; [|vm_compute in H1; discriminate].
  exists o, o'. split; [reflexivity|]. split; [reflexivity|].
  exact (proj2 (output_names_distinct noParams ∅ toolsTwoFiles toolsTwoStore
                  0%nat 1%nat o o' H0 H1 ltac:(discriminate))).
Defined.

(** ** The operation index of a path *)

Lemma dropWhile_space_slash x f :
  Str.dropWhile isSpace (x ++ String "/" f) = Str.dropWhile isSpace x ++ String "/" f.
Proof.
  induction x as [|c x IH]; [reflexivity|].
  rewrite sapp_cons. cbn [Str.dropWhile]. destruct (isSpace c); [exact IH|reflexivity].
Qed.

Lemma takeWhile_digit_slash y f :
  Str.takeWhile isDigit (y ++ String "/" f) = Str.takeWhile isDigit y.
Proof.
  induction y as [|c y IH]; [reflexivity|].
  rewrite sapp_cons. cbn [Str.takeWhile]. destruct (isDigit c); [now rewrite IH|reflexivity].
Qed.

Lemma opAt_slash s f : opAt (s ++ String "/" f) = opAt s.
Proof.
  unfold opAt. destruct s as [|c1 [|c2 x]].
  - reflexivity.
  - change (String c1 "" ++ String "/" f) with (String c1 (String "/" f)).
    cbn [Str.dropLen Str.startsWithCI].
    change (eqbCI "p" "/") with false.
    destruct (eqbCI "o" c1); reflexivity.
  - rewrite !sapp_cons. cbn [Str.dropLen Str.startsWithCI].
    now rewrite dropWhile_space_slash, takeWhile_digit_slash.
Qed.

Lemma scanOp_slash s f : forall prevWord,
  scanOp prevWord (s ++ String "/" f)
  = match scanOp prevWord s with
    | Some n => Some n
    | None => scanOp false f
    end.
Proof.
  induction s as [|c s IH]; intros pw.
  - cbn. destruct pw; reflexivity.
  - rewrite sapp_cons. cbn [scanOp]. rewrite <- sapp_cons, opAt_slash.
    destruct (if pw then None else opAt (String c s)); [reflexivity|apply IH].
Qed.

(** X21. The operation index is read from the whole path, directories
    included: the index of a path [dir/file] is the index of [dir] when
    [dir] has one, and the index of [file] only when [dir] has none. *)
Theorem operation_of_path (dir file : string) :
  extractOperation (dir ++ "/" ++ file)
  = match extractOperation dir with
    | Some n => Some n
    | None => extractOperation file
    end.
Proof. unfold extractOperation. apply scanOp_slash. Qed.

(** ** The tool and the setup of a file *)

Lemma takeWhile_all p s : Str.existsb (fun c => negb (p c)) (Str.takeWhile p s) = false.
Proof.
  induction s as [|c s IH]; [reflexivity|]. cbn [Str.takeWhile].
  destruct (p c) eqn:E; [|reflexivity]. cbn [Str.existsb]. now rewrite E, IH.
Qed.

Lemma keyValueAt_value key s v :
  keyValueAt key s = Some v ->
  v <> "" /\ Str.existsb (fun c => negb (valueChar c)) v = false.
Proof.
  unfold keyValueAt. destruct (Str.startsWithCI key s); [|discriminate].
  destruct (Str.takeWhile valueChar (Str.dropLen key s)) eqn:E; [discriminate|].
  cbn. intros H. injection H as <-. split; [discriminate|].
  rewrite <- E. apply takeWhile_all.
Qed.

Lemma extractKey_value key ls v :
  extractKey key ls = Some v ->
  v <> "" /\ Str.existsb (fun c => negb (valueChar c)) v = false
  /\ exists ln body, In ln ls /\ commentMatch (raw ln) = Some body
                     /\ matchKeyValue key body = Some v.
Proof.
  induction ls as [|ln ls IH]; [discriminate|]. cbn [extractKey].
  assert (Hrec : extractKey key ls = Some v ->
            v <> "" /\ Str.existsb (fun c => negb (valueChar c)) v = false
            /\ exists ln0 body, In ln0 (ln :: ls) /\ commentMatch (raw ln0) = Some body
                                /\ matchKeyValue key body = Some v).
  { intros H. destruct (IH H) as (H1 & H2 & l0 & b & Hin & Hc & Hm).
    split; [exact H1|]. split; [exact H2|]. exists l0, b. split; [now right|now split]. }
  destruct (commentMatch (raw ln)) as [body|] eqn:Hc; [|exact Hrec].
  destruct (matchKeyValue key body) as [v'|] eqn:Hm; [|exact Hrec].
  intros H. injection H as ->.
  assert (Hv : v <> "" /\ Str.existsb (fun c => negb (valueChar c)) v = false).
  { unfold matchKeyValue in Hm.
    destruct (keyValueAt key body) as [v0|] eqn:Hk.
    - injection Hm as ->. exact (keyValueAt_value _ _ _ Hk).
    - clear Hk Hc. induction body as [|c body IHb]; [discriminate|].
      cbn [scanKeyValue] in Hm.
      destruct (if isSpace c then keyValueAt key body else None) as [v0|] eqn:Hk.
      + injection Hm as ->. destruct (isSpace c); [|discriminate].
        exact (keyValueAt_value _ _ _ Hk).
      + exact (IHb Hm). }
  destruct Hv as [H1 H2]. split; [exact H1|]. split; [exact H2|].
  exists ln, body. split; [now left|now split].
Qed.

Lemma extractTool_shape ls :
  extractTool ls = "T?"
  \/ exists d, extractTool ls = "T" ++ d /\ d <> "" /\ digitsOnly d = true.
Proof.
  induction ls as [|ln ls IH]; [now left|]. cbn [extractTool].
  destruct (matchTool (raw ln)) as [d|] eqn:Hm; [|exact IH].
  right. exists d. split; [reflexivity|].
  unfold matchTool in Hm. destruct (Str.dropWhile isSpace (raw ln)) as [|c r];
    [discriminate|].
  destruct (eqbCI c "T"); [|discriminate].
  destruct (Str.takeWhile isDigit r) eqn:E; [discriminate|].
  cbn in Hm. injection Hm as <-. split; [discriminate|].
  rewrite <- E. clear. induction r as [|c r IH]; [reflexivity|].
  cbn [Str.takeWhile]. destruct (isDigit c) eqn:Hd; [|reflexivity].
  cbn [digitsOnly]. now rewrite Hd, IH.
Qed.

Lemma valueChar_existsb s :
  Str.existsb (fun c => negb (valueChar c)) s
  = Str.existsb (fun c => isSpace c || Ascii.eqb c ")") s.
Proof.
  induction s as [|a s IH]; [reflexivity|]. cbn [Str.existsb]. rewrite IH.
  f_equal. unfold valueChar. destruct (isSpace a), (Ascii.eqb a ")"); reflexivity.
Qed.

(** X22. The tool of a loaded file is "T?" or "T" followed by at least
    one digit, as written in the file; its setup name is "unknown" or the
    value of a SETUP= entry of a full-line comment of the file, which is
    not empty and has no white space and no closing parenthesis (it may
    have any other code unit, a bar included). *)
Theorem tool_and_setup_names (p content : string) (st : Store) :
  let fo := fst (loadFile p content st) in
  (tool fo = "T?"
   \/ exists d, tool fo = "T" ++ d /\ d <> "" /\ digitsOnly d = true)
  /\ (setupName fo = "unknown"
      \/ setupName fo <> ""
         /\ Str.existsb (fun c => isSpace c || Ascii.eqb c ")") (setupName fo) = false
         /\ exists l body, In l (Str.splitLines content)
              /\ commentMatch l = Some body
              /\ matchKeyValue "SETUP=" body = Some (setupName fo)).
Proof.
  cbv zeta.
  assert (Ht : tool (fst (loadFile p content st)) = extractTool (loadFileLines content)
               /\ setup (fst (loadFile p content st))
                  = extractSetup (loadFileLines content)).
  { unfold loadFile. cbn [alloc]. destruct (allowFastMoves _).
    - destruct (trackLines _ _). split; reflexivity.
    - split; reflexivity. }
  destruct Ht as [Ht Hs]. split; [rewrite Ht; apply extractTool_shape|].
  unfold setupName. rewrite Hs. unfold extractSetup.
  destruct (extractKey "SETUP=" (loadFileLines content)) as [v|] eqn:E; [|now left].
  destruct (extractKey_value _ _ _ E) as (Hne & Hv & ln & body & Hin & Hc & Hm).
  destruct v as [|c v]; [contradiction|]. cbn [Str.isEmpty].
  right. split; [discriminate|]. split.
  - rewrite <- valueChar_existsb. exact Hv.
  - exists (raw ln), body. split; [|now split].
    rewrite <- loadFileLines_raw. now apply in_map.
Qed.

(** ** The whole run *)

Lemma findNcFiles_perm cwd entries :
  Permutation (findNcFiles cwd entries)
              (map (fun ent => resolve cwd (entName ent))
                   (List.filter isProgramEntry entries)).
Proof.
  unfold findNcFiles.
  set (timed := map (fun ent => (resolve cwd (entName ent), entMtime ent))
                    (List.filter _ entries)).
  assert (H : map (fun ent => resolve cwd (entName ent))
                  (List.filter isProgramEntry entries) = map fst timed).
  { unfold timed. rewrite map_map. reflexivity. }
  rewrite H. apply Permutation_map, Permutation_sym.
  apply (sortBy_Permutation (A := string * Z) snd).
Qed.

(** X23. Every program of the directory is merged exactly once. The
    files enumerated are the regular files of the working directory whose
    name ends in .nc in either case, and the members of all groups of a
    run, taken together, are the enumerated files without a tool definition,
    each as often as it is enumerated; a definition file is in no group.
    When no setup name has a bar, the run comes to its end and writes one
    file for each group. *)
Theorem every_program_merged (args : list string) (cwd : string)
    (entries : list DirEntry) (readFile : string -> string) :
  let ncPaths := findNcFiles cwd entries in
  let files := runFiles cwd entries readFile in
  (forall p, In p ncPaths
     <-> exists ent, In ent entries /\ entIsFile ent = true
                     /\ isNcName (entName ent) = true /\ p = resolve cwd (entName ent))
  /\ Permutation (map path (concat (map snd (mergeGroups files))))
                 (List.filter (fun p => negb (hasDef readFile p)) ncPaths)
  /\ (forall key group f, In (key, group) (mergeGroups files) -> In f group ->
        In (path f) ncPaths /\ hasDef readFile (path f) = false)
  /\ ((forall f, In f files -> noBar (setupName f) = true) ->
      snd (main args cwd entries readFile) = true
      /\ List.length (fst (main args cwd entries readFile))
         = List.length (mergeGroups files)).
Proof.
  cbv zeta. unfold runFiles.
  set (ncPaths := findNcFiles cwd entries).
  destruct (loadFiles_spec readFile ncPaths) as (Hpaths & _).
  set (files := fst (loadFiles readFile (snd (buildToolDict readFile ncPaths)) ncPaths))
    in *.
  assert (Hperm : Permutation (concat (map snd (mergeGroups files))) files).
  { unfold mergeGroups.
    eapply Permutation_trans; [apply groups_concat_perm|].
    apply Permutation_sym. apply (sortBy_Permutation operation). }
  split; [|split; [|split]].
  - intros p. split.
    + intros Hp. apply (Permutation_in _ (findNcFiles_perm cwd entries)) in Hp.
      apply in_map_iff in Hp as (ent & <- & Hent).
      apply List.filter_In in Hent as [Hin Hprog].
      apply andb_prop in Hprog as [H1 H2]. exists ent. auto.
    + intros (ent & Hin & H1 & H2 & ->).
      apply (Permutation_in _ (Permutation_sym (findNcFiles_perm cwd entries))).
      apply in_map_iff. exists ent. split; [reflexivity|].
      apply List.filter_In. split; [exact Hin|].
      unfold isProgramEntry. now rewrite H1, H2.
  - rewrite <- Hpaths. now apply Permutation_map.
  - intros key group f Hg Hf.
    assert (Hin : In f files).
    { apply (Permutation_in _ Hperm). apply in_concat. exists group.
      split; [|exact Hf]. apply in_map_iff. now exists (key, group). }
    assert (Hp : In (path f) (map path files)) by now apply in_map.
    rewrite Hpaths in Hp. apply List.filter_In in Hp as [Hp Hd].
    split; [exact Hp|]. now apply negb_true_iff.
  - intros Hbar. unfold main. fold ncPaths.
    destruct (buildToolDict readFile ncPaths) as [toolDict defFiles] eqn:Hb.
    cbn [snd] in files. unfold files in *.
    destruct (loadFiles readFile defFiles ncPaths) as [fs st] eqn:Hl.
    cbn [fst] in *.
    destruct (mergeLoop_run (parseArgs args) toolDict fs st Hbar) as [H1 H2].
    split; assumption.
Qed.

Lemma every_program_merged_witness :
  findNcFiles "/shop" shopEntries = ["/shop/B.NC"; "/shop/a.nc"]
  /\ (forall f, In f (runFiles "/shop" shopEntries shopRead) ->
        noBar (setupName f) = true)
  /\ snd (main [] "/shop" shopEntries shopRead) = true
  /\ List.length (fst (main [] "/shop" shopEntries shopRead)) = 2%nat.
Proof.
  assert (Hbar : forall f, In f (runFiles "/shop" shopEntries shopRead) ->
                   noBar (setupName f) = true).
  { intros f Hf. vm_compute in Hf. destruct Hf as [<-|[<-|[]]]; reflexivity. }
  split; [vm_compute; reflexivity|]. split; [exact Hbar|].
  destruct (proj2 (proj2 (proj2 (every_program_merged [] "/shop" shopEntries shopRead)))
              Hbar) as [H1 H2].
  split; [exact H1|]. rewrite H2. vm_compute. reflexivity.
Defined.

(** ** The order of enumeration *)

Lemma insertBy_map {A B : Type} (g : A -> B) (key : B -> Z) a l :
  insertBy (cmpKey key) (g a) (map g l)
  = map g (insertBy (cmpKey (fun x => key (g x))) a l).
Proof.
  induction l as [|b l IH]; [reflexivity|]. cbn [map insertBy]. unfold cmpKey at 1 3.
  destruct (key (g a) - key (g b) <=? 0); [reflexivity|].
  cbn [map]. now rewrite IH.
Qed.

Lemma sortBy_map {A B : Type} (g : A -> B) (key : B -> Z) l :
  sortBy (cmpKey key) (map g l) = map g (sortBy (cmpKey (fun x => key (g x))) l).
Proof.
  induction l as [|a l IH]; [reflexivity|].
  cbn [map sortBy]. rewrite IH. apply insertBy_map.
Qed.

(** X24. The files are enumerated by ascending modification time, the
    files of one time in the order of the directory: the enumeration is
    the resolved names of a list of entries that is a permutation of the
    regular .nc entries of the directory, ascending in the time, in which
    the entries of any one time stand as they stand in the directory. *)
Theorem enumeration_by_mtime (cwd : string) (entries : list DirEntry) :
  exists sorted,
    findNcFiles cwd entries = map (fun ent => resolve cwd (entName ent)) sorted
    /\ Permutation sorted (List.filter isProgramEntry entries)
    /\ StronglySorted (fun a b => entMtime a <= entMtime b) sorted
    /\ forall t, List.filter (fun ent => entMtime ent =? t) sorted
                 = List.filter (fun ent => entMtime ent =? t)
                               (List.filter isProgramEntry entries).
Proof.
  exists (sortBy (cmpKey entMtime) (List.filter isProgramEntry entries)).
  split; [|split; [|split]].
  - unfold findNcFiles.
    change (fun a b : string * Z => snd a - snd b) with (cmpKey (A := string * Z) snd).
    rewrite (sortBy_map (fun ent => (resolve cwd (entName ent), entMtime ent)) snd).
    rewrite map_map. reflexivity.
  - apply Permutation_sym, (sortBy_Permutation entMtime).
  - apply (sortBy_sorted entMtime).
  - intros t. apply (sortBy_stable entMtime).
Qed.

(** ** The lines of a written file *)

Lemma digit_plain c : isDigit c = true -> isLineTerminator c = false.
Proof.
  unfold isDigit, isLineTerminator. intros H. apply andb_prop in H as [H1 H2].
  apply N.leb_le in H1.
  destruct (N.eqb_spec (code c) 10); [lia|].
  destruct (N.eqb_spec (code c) 13); [lia|]. reflexivity.
Qed.

Lemma plain_app a b : plainText (a ++ b) = plainText a && plainText b.
Proof.
  induction a as [|c a IH]; [reflexivity|].
  rewrite sapp_cons. cbn [plainText]. now rewrite IH, andb_assoc.
Qed.

Lemma plain_app_true a b :
  plainText a = true -> plainText b = true -> plainText (a ++ b) = true.
Proof. intros Ha Hb. now rewrite plain_app, Ha, Hb. Qed.

Lemma plain_repeat c n :
  isLineTerminator c = false -> plainText (Str.repeat c n) = true.
Proof.
  intros Hc. induction n as [|n IH]; [reflexivity|].
  cbn [Str.repeat plainText]. now rewrite Hc, IH.
Qed.

Lemma plain_padStart n s : plainText s = true -> plainText (Str.padStart n s) = true.
Proof. intros H. unfold Str.padStart. apply plain_app_true; [now apply plain_repeat|exact H]. Qed.

Lemma plain_padEnd n s : plainText s = true -> plainText (Str.padEnd n s) = true.
Proof. intros H. unfold Str.padEnd. apply plain_app_true; [exact H|now apply plain_repeat]. Qed.

Lemma plain_digitsOnly d : digitsOnly d = true -> plainText d = true.
Proof.
  induction d as [|c d IH]; [reflexivity|]. cbn [digitsOnly plainText].
  intros H. apply andb_prop in H as [Hc Hd]. now rewrite (digit_plain c Hc), IH.
Qed.

Lemma digitsFrom_digits fuel : forall n acc,
  exists ds, Num.digitsFrom fuel n acc = ds ++ acc /\ digitsOnly ds = true.
Proof.
  induction fuel as [|fuel IH]; intros n acc; [exists ""; now split|].
  cbn [Num.digitsFrom].
  destruct (digitChar_spec (n mod 10)) as [Hd _]; [apply Z.mod_pos_bound; lia|].
  destruct (n <? 10).
  - exists (String (Num.digitChar (n mod 10)) ""). split; [reflexivity|].
    cbn [digitsOnly]. now rewrite Hd.
  - destruct (IH (n / 10) (String (Num.digitChar (n mod 10)) acc)) as (ds & Heq & Hds).
    exists (ds ++ String (Num.digitChar (n mod 10)) ""). split.
    + rewrite Heq, sapp_assoc. reflexivity.
    + apply digitsOnly_app; [exact Hds|]. cbn [digitsOnly]. now rewrite Hd.
Qed.

Lemma plain_digitsOf n : plainText (Num.digitsOf n) = true.
Proof.
  unfold Num.digitsOf.
  destruct (digitsFrom_digits (S (Z.to_nat (Z.log2 n))) n "") as (ds & Heq & Hds).
  rewrite Heq, sapp_nil_r. now apply plain_digitsOnly.
Qed.

Lemma plain_takeN n s : plainText s = true -> plainText (Num.takeN n s) = true.
Proof.
  revert n. induction s as [|c s IH]; intros [|n] H; try reflexivity.
  cbn [Num.takeN plainText] in *. apply andb_prop in H as [Hc Hs].
  now rewrite Hc, IH.
Qed.

Lemma plain_dropN n s : plainText s = true -> plainText (Num.dropN n s) = true.
Proof.
  revert n. induction s as [|c s IH]; intros [|n] H; try exact H.
  cbn [Num.dropN plainText] in *. apply andb_prop in H as [Hc Hs]. now apply IH.
Qed.

Lemma plain_dropWhile p s : plainText s = true -> plainText (Str.dropWhile p s) = true.
Proof.
  induction s as [|c s IH]; intros H; [reflexivity|].
  cbn [Str.dropWhile]. destruct (p c); [|exact H].
  cbn [plainText] in H. apply andb_prop in H as [_ Hs]. now apply IH.
Qed.

Lemma plain_rev s : plainText s = true -> plainText (Str.rev s) = true.
Proof.
  induction s as [|c s IH]; intros H; [reflexivity|].
  cbn [Str.rev plainText] in *. apply andb_prop in H as [Hc Hs].
  apply plain_app_true; [now apply IH|]. cbn [plainText]. now rewrite Hc.
Qed.

Lemma plain_dropLen p s : plainText s = true -> plainText (Str.dropLen p s) = true.
Proof.
  revert s. induction p as [|a p IH]; intros [|c s] H; try exact H.
  cbn [Str.dropLen]. cbn [plainText] in H. apply andb_prop in H as [_ Hs]. now apply IH.
Qed.

Lemma plain_slice1 s : plainText s = true -> plainText (slice1 s) = true.
Proof.
  destruct s as [|c s]; intros H; [reflexivity|].
  cbn [plainText] in H. now apply andb_prop in H as [_ Hs].
Qed.

Create HintDb plain.
#[local] Hint Resolve plain_app_true plain_padStart plain_padEnd plain_digitsOf
  plain_takeN plain_dropN plain_dropWhile plain_rev plain_dropLen plain_slice1
  plain_repeat : plain.
#[local] Hint Extern 1 (plainText ?s = true) =>
  (is_ground s; reflexivity) : plain.
#[local] Hint Extern 1 (isLineTerminator _ = false) => reflexivity : plain.

Lemma plain_positiveToString ds e :
  plainText ds = true -> plainText (Num.positiveToString ds e) = true.
Proof.
  intros H. unfold Num.positiveToString.
  repeat match goal with |- context [if ?b then _ else _] => destruct b end;
    auto 10 with plain.
Qed.

Lemma plain_toString v : plainText (Num.toString v) = true.
Proof.
  destruct v as [| | |m e]; try reflexivity. unfold Num.toString.
  destruct (m =? 0); [reflexivity|].
  apply plain_app_true; [destruct (m <? 0); reflexivity|].
  apply plain_positiveToString. auto with plain.
Qed.

Lemma plain_toFixed f v : plainText (Num.toFixed f v) = true.
Proof.
  destruct v as [| | |m e]; try reflexivity. unfold Num.toFixed.
  destruct (Num.cmpFin (Z.abs m) e 1 21); try apply plain_toString.
  assert (Hs : plainText (if m <? 0 then "-" else "") = true)
    by (destruct (m <? 0); reflexivity).
  destruct f; auto 10 with plain.
Qed.

Lemma plain_fmt3 v : plainText (fmt3 v) = true.
Proof. unfold fmt3. apply plain_padStart, plain_toFixed. Qed.

Lemma plain_join sep l :
  plainText sep = true -> Forall (fun s => plainText s = true) l ->
  plainText (Str.join sep l) = true.
Proof.
  intros Hsep. induction 1 as [|s l Hs Hl IH]; [reflexivity|].
  cbn [Str.join]. destruct l as [|s' l']; [exact Hs|].
  apply plain_app_true; [exact Hs|]. apply plain_app_true; [exact Hsep|exact IH].
Qed.

Lemma plain_coordText c : plainText (coordText c) = true.
Proof.
  unfold coordText. apply plain_join; [reflexivity|].
  repeat constructor; apply plain_fmt3.
Qed.

Lemma plain_statsLines mn mx :
  Forall (fun s => plainText s = true) (statsLines mn mx).
Proof.
  unfold statsLines. pose proof plain_fmt3.
  repeat constructor; auto 20 with plain.
Qed.

Lemma plain_basenameFrom p : forall acc,
  plainText acc = true -> plainText p = true -> plainText (basenameFrom acc p) = true.
Proof.
  induction p as [|c p IH]; intros acc Ha Hp; [exact Ha|].
  cbn [basenameFrom plainText] in *. apply andb_prop in Hp as [Hc Hp].
  destruct (Ascii.eqb c "/"); apply IH; auto.
  apply plain_app_true; [exact Ha|]. cbn [plainText]. now rewrite Hc.
Qed.

Lemma plain_matchFeed prevWord s m r :
  matchFeed prevWord s = Some (m, r) -> plainText s = true -> plainText r = true.
Proof.
  unfold matchFeed. destruct s as [|c s1]; [discriminate|]. intros H Hs.
  cbn [plainText] in Hs. apply andb_prop in Hs as [_ Hs].
  destruct (negb prevWord && isF c && _); [|discriminate].
  destruct (Str.startsWith "." _ && _ && _).
  - injection H as _ <-. auto with plain.
  - destruct (Str.boundary true _); [|discriminate].
    injection H as _ <-. auto with plain.
Qed.

Lemma plain_replaceFeedFrom rep fuel : forall prevWord s,
  plainText rep = true -> plainText s = true ->
  plainText (replaceFeedFrom fuel rep prevWord s) = true.
Proof.
  induction fuel as [|fuel IH]; intros pw s Hrep Hs; [exact Hs|].
  cbn [replaceFeedFrom]. destruct s as [|c s']; [reflexivity|].
  destruct (matchFeed pw (String c s')) as [[m r]|] eqn:Hm.
  - apply plain_app_true; [exact Hrep|]. apply IH; [exact Hrep|].
    exact (plain_matchFeed _ _ _ _ Hm Hs).
  - cbn [plainText] in *. apply andb_prop in Hs as [Hc Hs].
    rewrite Hc. cbn [andb]. now apply IH.
Qed.

Lemma plain_processFeedRate params line :
  plainText line = true -> plainText (processFeedRate params line) = true.
Proof.
  intros H. unfold processFeedRate. destruct (fr params) as [v|]; [|exact H].
  apply plain_replaceFeedFrom; [|exact H].
  apply plain_app_true; [reflexivity|apply plain_toString].
Qed.

Lemma plain_rapidText raw : plainText raw = true -> plainText (rapidText raw) = true.
Proof.
  intros H. unfold rapidText.
  repeat match goal with |- context [if ?b then _ else _] => destruct b end;
    auto 10 with plain.
Qed.

Lemma plain_trailer ln :
  Forall (fun s => plainText s = true) (tags ln) -> plainText (trailer ln) = true.
Proof.
  intros H. unfold trailer. pose proof plain_coordText.
  assert (plainText (Str.join " " (tags ln)) = true) by (apply plain_join; auto).
  assert (plainText TAB = true) by reflexivity.
  auto 20 with plain.
Qed.

Lemma plain_emitLine params allowFast ln :
  plainText (raw ln) = true -> Forall (fun s => plainText s = true) (tags ln) ->
  Forall (fun s => plainText s = true) (emitLine params allowFast ln).
Proof.
  intros Hraw Htags. unfold emitLine.
  pose proof (plain_trailer ln Htags) as Htr.
  pose proof (plain_processFeedRate params (raw ln) Hraw) as Hfr.
  pose proof (plain_rapidText _ Hfr) as Hrapid.
  repeat match goal with |- context [if ?b then _ else _] => destruct b end;
    repeat constructor; auto 10 with plain.
Qed.

Lemma plain_oneLine s : plainText s = true -> oneLine s = true.
Proof.
  induction s as [|c s IH]; [reflexivity|]. cbn [plainText oneLine].
  intros H. apply andb_prop in H as [Hc Hs]. rewrite (IH Hs), andb_true_r.
  unfold isLineTerminator in Hc. apply negb_true_iff, orb_false_elim in Hc as [H10 H13].
  now rewrite H10, H13.
Qed.

Lemma plain_writable s : plainText s = true -> writable s = true.
Proof. intros H. unfold writable. now rewrite (plain_oneLine s H). Qed.

Lemma plain_writtenAs s : plainText s = true -> writtenAs s = [s].
Proof.
  intros H. unfold writtenAs.
  destruct (String.eqb_spec s blockOpener) as [->|_]; [discriminate|].
  destruct (String.eqb_spec s LF) as [->|_]; [discriminate|]. reflexivity.
Qed.

Lemma payload_terminate l ls :
  payload (l :: ls) = (if endsWithLF l then l else l ++ LF) ++ payload ls.
Proof.
  unfold payload. cbn [map]. destruct ls as [|l' ls]; cbn [map Str.join].
  - now rewrite sapp_nil_r.
  - reflexivity.
Qed.

Lemma splitLinesFrom_opener rest :
  Str.splitLinesFrom "" (blockOpener ++ rest)
  = "G0 Z5" :: "" :: Str.splitLinesFrom "" rest.
Proof.
  change (blockOpener ++ rest) with ("G0 Z5" ++ LF ++ ("" ++ LF ++ rest)).
  rewrite splitLinesFrom_oneLine by reflexivity.
  rewrite splitLinesFrom_oneLine by reflexivity. reflexivity.
Qed.

Lemma splitLinesFrom_sep rest :
  Str.splitLinesFrom "" (LF ++ rest) = "" :: Str.splitLinesFrom "" rest.
Proof.
  change (LF ++ rest) with ("" ++ LF ++ rest).
  rewrite splitLinesFrom_oneLine by reflexivity. reflexivity.
Qed.

Lemma splitLines_written lines :
  Forall (fun l => writable l = true) lines ->
  Str.splitLines (payload lines) = (concat (map writtenAs lines) ++ [""])%list.
Proof.
  unfold Str.splitLines.
  induction 1 as [|l ls Hl Hls IH]; [reflexivity|].
  rewrite payload_terminate. cbn [map concat]. rewrite <- List.app_assoc, <- IH.
  unfold writable in Hl. unfold writtenAs.
  destruct (String.eqb_spec l blockOpener) as [->|Hno].
  - change (if endsWithLF blockOpener then blockOpener else blockOpener ++ LF)
      with blockOpener.
    apply splitLinesFrom_opener.
  - destruct (String.eqb_spec l LF) as [->|Hnl].
    + change (if endsWithLF LF then LF else LF ++ LF) with LF.
      apply splitLinesFrom_sep.
    + rewrite !orb_false_r in Hl.
      rewrite (oneLine_endsWithLF l Hl), sapp_assoc.
      rewrite (splitLinesFrom_oneLine l "" _ Hl). reflexivity.
Qed.

Lemma written_plain_or_sep rest :
  Forall (fun l => plainText l = true \/ l = LF) rest ->
  Forall (fun l => writable l = true) rest
  /\ List.length (concat (map writtenAs rest)) = List.length rest.
Proof.
  induction 1 as [|l rest Hl _ [IH1 IH2]]; [split; [constructor|reflexivity]|].
  cbn [map concat]. rewrite length_app, IH2. destruct Hl as [Hl| ->].
  - rewrite (plain_writtenAs l Hl). split; [|reflexivity].
    constructor; [now apply plain_writable|exact IH1].
  - split; [constructor; [reflexivity|exact IH1]|reflexivity].
Qed.

Lemma written_blocks blocks :
  Forall (fun b => exists rest, b = blockOpener :: rest
                     /\ Forall (fun l => plainText l = true \/ l = LF) rest) blocks ->
  Forall (fun l => writable l = true) (concat blocks)
  /\ List.length (concat (map writtenAs (concat blocks)))
     = (List.length (concat blocks) + List.length blocks)%nat.
Proof.
  induction 1 as [|b blocks (rest & -> & Hrest) _ [IH1 IH2]];
    [split; [constructor|reflexivity]|].
  destruct (written_plain_or_sep rest Hrest) as [Hw Hlen].
  cbn [concat app map List.length].
  rewrite map_app, concat_app, !length_app, IH2, Hlen. split.
  - constructor; [reflexivity|]. apply Forall_app. now split.
  - change (List.length (writtenAs blockOpener)) with 2%nat. lia.
Qed.

Lemma tagged_lines_plain group st f' ln :
  storeOk st group -> plainGroup st group ->
  In f' (fst (addTagsToLines group st)) ->
  In ln (readArr (snd (addTagsToLines group st)) (lines f')) ->
  plainText (raw ln) = true /\ Forall (fun s => plainText s = true) (tags ln).
Proof.
  intros Hok Hplain Hf' Hln.
  destruct (tagged_array_In group st f' ln Hok Hf' Hln) as (f & Hf & Hp & Hun).
  unfold plainGroup in Hplain. rewrite List.Forall_forall in Hplain.
  destruct (Hplain f Hf) as [_ Hraw].
  apply tagLines_In in Hp as (l0 & Hl0 & Hor).
  rewrite List.Forall_forall in Hun, Hraw.
  specialize (Hun l0 Hl0). specialize (Hraw l0 Hl0).
  destruct (parseTags_fields l0) as (Hr & _).
  destruct (parseTags_derived l0 Hun) as (Ht & _).
  assert (Hd : Forall (fun s => plainText s = true) (tags (parseTags l0))).
  { rewrite Ht. unfold derivedTags, axesTag.
    destruct (isFastMove _), (hasX _), (hasY _), (hasZ _), (unengaged _);
      repeat constructor. }
  destruct Hor as [->|[_ ->]].
  - rewrite Hr. now split.
  - destruct (resetLine_fields (parseTags l0)) as (H1 & H2 & _).
    rewrite H1, H2. split; [reflexivity|repeat constructor].
Qed.

Lemma plain_memberBlock params st fileCnt f :
  Forall (fun ln => plainText (raw ln) = true
                    /\ Forall (fun s => plainText s = true) (tags ln))
         (readArr st (lines f)) ->
  exists rest,
    fst (memberBlock params st fileCnt f) = blockOpener :: rest
    /\ Forall (fun l => plainText l = true \/ l = LF) rest.
Proof.
  intros Hls. unfold memberBlock. cbn [fst]. eexists. split; [reflexivity|].
  repeat apply Forall_app_2.
  - unfold commentLines. apply List.Forall_forall. intros s Hs.
    apply in_map_iff in Hs as (ln & <- & Hln). apply List.filter_In in Hln as [Hln _].
    rewrite List.Forall_forall in Hls. left. now destruct (Hls ln Hln).
  - destruct (commentLines _); [constructor|]. constructor; [now right|constructor].
  - destruct (commandProcessor f) as [stats|]; [|constructor].
    constructor.
    + left. apply plain_app_true; [reflexivity|].
      apply plain_app_true; [apply plain_digitsOf|reflexivity].
    + apply Forall_app_2; [|repeat constructor; now left].
      eapply List.Forall_impl; [|apply plain_statsLines]. intros s Hs. now left.
  - apply List.Forall_forall. intros s Hs. apply in_concat in Hs as (out & Hout & Hs).
    apply in_map_iff in Hout as (ln & <- & Hln).
    rewrite List.Forall_forall in Hls. destruct (Hls ln Hln) as [Hraw Htags].
    pose proof (plain_emitLine params (allowFastMoves f) ln Hraw Htags) as He.
    rewrite List.Forall_forall in He. left. now apply He.
  - repeat constructor; now left.
Qed.

Lemma plain_preamble params group :
  Forall (fun s => plainText s = true) (preamble params group).
Proof.
  unfold preamble. destruct (aggregateStats group) as [mn mx].
  repeat apply Forall_app_2; try (repeat constructor; fail).
  - repeat constructor.
    apply plain_app_true; [reflexivity|apply plain_toString].
  - apply plain_statsLines.
Qed.

Lemma memberBlockList_shape params st group : forall fileCnt,
  Forall (fun f => Forall (fun ln => plainText (raw ln) = true
                                     /\ Forall (fun s => plainText s = true) (tags ln))
                          (readArr st (lines f))) group ->
  Forall (fun b => exists rest, b = blockOpener :: rest
                     /\ Forall (fun l => plainText l = true \/ l = LF) rest)
         (memberBlockList params st fileCnt group).
Proof.
  induction group as [|f rest IH]; intros fileCnt H; [constructor|].
  apply Forall_cons_1 in H as [Hf Hrest]. cbn [memberBlockList].
  constructor; [now apply plain_memberBlock|now apply IH].
Qed.

(** X17. What is written for a group reads back line by line as the
    array that was written, element by element: when the paths and the
    line texts of the group have no line feed and no carriage return, every
    element of the merged array is one line of the file, except the opener
    "G0 Z5" of each member's block, which carries two line feeds and gives
    the two lines "G0 Z5" and ""; a last empty piece stands for the text
    after the final line feed. So the file has one line more than the array
    has elements for every member of the group. *)
Theorem written_lines_read_back (params : Params) (group : list FileObject)
    (st : Store) :
  storeOk st group -> plainGroup st group ->
  let merged := fst (mergeGroup params group st) in
  Forall (fun l => writable l = true) merged
  /\ Str.splitLines (payload merged) = (concat (map writtenAs merged) ++ [""])%list
  /\ List.length (Str.splitLines (payload merged))
     = (List.length merged + List.length group + 1)%nat.
Proof.
  intros Hok Hplain. cbv zeta.
  assert (Hwf : Forall (wfFile st) group).
  { eapply List.Forall_impl; [|exact Hok]. now intros f [H _]. }
  pose proof (proj1 (addTagsToLines_spec group st Hwf)) as Hmembers.
  pose proof (fun f0 ln => tagged_lines_plain group st f0 ln Hok Hplain) as Hlines.
  unfold mergeGroup.
  destruct (addTagsToLines group st) as [group' st'] eqn:Htag.
  cbn [fst snd] in *. unfold buildContentLines.
  pose proof (memberBlocks_list params st' group' 0
                (List.length (preamble params group')) ∅) as Hlist.
  destruct (memberBlocks params st' 0 (List.length (preamble params group')) group' ∅)
    as [blocks0 startLines].
  cbn [fst snd] in *. subst blocks0.
  assert (Hshape : Forall (fun b => exists rest, b = blockOpener :: rest
                     /\ Forall (fun l => plainText l = true \/ l = LF) rest)
                     (memberBlockList params st' 0 group')).
  { apply memberBlockList_shape. apply List.Forall_forall. intros f' Hf'.
    apply List.Forall_forall. intros ln Hln. exact (Hlines f' ln Hf' Hln). }
  destruct (written_blocks _ Hshape) as [Hwb Hlb].
  rewrite memberBlockList_length in Hlb.
  assert (Hentries : Forall (fun s => plainText s = true)
            (map (fun fItem =>
               "(" ++ Str.padStart 5 (Num.digitsOf (Z.of_nat
                        (2 + List.length group'
                         + default 0%nat (startLines !! path fItem))))
                   ++ " - " ++ basename (path fItem) ++ ")") group')).
  { apply List.Forall_forall. intros s Hs. apply in_map_iff in Hs as (f' & <- & Hf').
    rewrite Hmembers in Hf'. apply in_map_iff in Hf' as (f & <- & Hf).
    unfold plainGroup in Hplain. rewrite List.Forall_forall in Hplain.
    destruct (Hplain f Hf) as [Hpath _]. cbn [path setLines].
    assert (plainText (basename (path f)) = true)
      by (apply plain_basenameFrom; [reflexivity|exact Hpath]).
    auto 20 with plain. }
  assert (Hpl : forall l, Forall (fun s => plainText s = true) l ->
            Forall (fun s => plainText s = true \/ s = LF) l).
  { intros l. apply List.Forall_impl. intros s Hs. now left. }
  set (entries := map _ group') in *.
  set (blocks := memberBlockList params st' 0 group') in *.
  set (pre := preamble params group') in *.
  destruct (written_plain_or_sep ["(MERGED)"; ""] ltac:(repeat constructor; now left))
    as [Hw0 Hl0].
  destruct (written_plain_or_sep entries (Hpl _ Hentries)) as [Hw1 Hl1].
  destruct (written_plain_or_sep pre (Hpl _ (plain_preamble params group')))
    as [Hw2 Hl2].
  destruct (written_plain_or_sep ["G0 Z5"; "G0 X0 Y0"]
              ltac:(repeat constructor; now left)) as [Hw3 Hl3].
  assert (Hall : Forall (fun l => writable l = true)
            (["(MERGED)"; ""] ++ entries ++ pre ++ concat blocks
             ++ ["G0 Z5"; "G0 X0 Y0"])%list).
  { repeat apply Forall_app_2; assumption. }
  split; [exact Hall|]. split; [now apply splitLines_written|].
  rewrite (splitLines_written _ Hall).
  rewrite length_app, !map_app, !concat_app, !length_app, Hl0, Hl1, Hl2, Hlb, Hl3.
  assert (Hg : List.length group' = List.length group)
    by (rewrite Hmembers; apply length_map).
  cbn [List.length]. lia.
Qed.

Lemma written_lines_read_back_witness :
  storeOk pairStore pairFiles /\ plainGroup pairStore pairFiles
  /\ List.length (fst (mergeGroup noParams pairFiles pairStore)) = 47%nat
  /\ List.length (Str.splitLines
                    (payload (fst (mergeGroup noParams pairFiles pairStore))))
     = 50%nat.
Proof.
  assert (Hok : storeOk pairStore pairFiles) by (vm_compute; repeat constructor).
  assert (Hplain : plainGroup pairStore pairFiles) by (vm_compute; repeat constructor).
  split; [exact Hok|]. split; [exact Hplain|]. split; [vm_compute; reflexivity|].
  rewrite (proj2 (proj2 (written_lines_read_back noParams pairFiles pairStore
                           Hok Hplain))).
  vm_compute. reflexivity.
Defined.
